(** * Landlord property service: a shallow embedding of the HTTP handlers

    The service is an Express application over a PostgreSQL pool.  The
    development follows the source file layout: JavaScript primitives the
    handlers rely on ([parseInt], [parseFloat], [Math.round], truthiness),
    the two Joi schemas, the relational store, the handlers written in a
    small monad of store queries with exceptions, and the route table. *)

From Stdlib Require Import ZArith QArith Qround Qabs String Ascii List Bool Lia.
From Stdlib Require Qcanon.
From stdpp Require Import gmap.
Import ListNotations.

Local Open Scope string_scope.
Local Open Scope Z_scope.

(** ** JavaScript primitives *)

Module Js.

(** A JavaScript number.  A finite value is kept as the rational that its
    decimal text denotes.  The arithmetic of [div], [times] and [plus] is
    exact; rounding to the nearest double is written out where a result
    depends on it: [nearest_double], [quotient] and [product] here, and
    Joi's [precision]. *)
Inductive number : Type :=
| NaN
| Infinity (negative : bool)
| Num (q : Q).

Definition isNaN (n : number) : bool :=
  match n with NaN => true | _ => false end.

(** Decimal digits: code units 48 to 57. *)
Definition digit_of (c : ascii) : option Z :=
  let n := Z.of_N (N_of_ascii c) in
  if (48 <=? n) && (n <=? 57) then Some (n - 48) else None.

(** Hexadecimal digits, for the 0x prefix that [parseInt] honours. *)
Definition hex_digit_of (c : ascii) : option Z :=
  let n := Z.of_N (N_of_ascii c) in
  if (48 <=? n) && (n <=? 57) then Some (n - 48)
  else if (97 <=? n) && (n <=? 102) then Some (n - 87)
  else if (65 <=? n) && (n <=? 70) then Some (n - 55)
  else None.

(** StrWhiteSpaceChar restricted to one-byte code units: TAB, LF, VT, FF,
    CR, SP and NBSP. *)
Definition is_white_space (c : ascii) : bool :=
  let n := Z.of_N (N_of_ascii c) in
  ((9 <=? n) && (n <=? 13)) || (n =? 32) || (n =? 160).

Fixpoint trim_start (s : string) : string :=
  match s with
  | String c s' => if is_white_space c then trim_start s' else s
  | EmptyString => EmptyString
  end.

(** The longest prefix of radix digits, read most significant digit first.
    The result is [None] when the prefix is empty. *)
Fixpoint read_digits (digit : ascii -> option Z) (radix : Z)
         (acc : option Z) (s : string) : option Z * string :=
  match s with
  | String c s' =>
      match digit c with
      | Some d =>
          read_digits digit radix
            (Some (match acc with Some a => a * radix + d | None => d end)) s'
      | None => (acc, s)
      end
  | EmptyString => (acc, s)
  end.

(** An optional sign in front of a numeric text: whether it is a minus,
    and the text after it. *)
Definition split_sign (s : string) : bool * string :=
  match s with
  | String "-" s' => (true, s')
  | String "+" s' => (false, s')
  | _ => (false, s)
  end.

(** [parseInt(string)] with no radix argument. *)
Definition parseInt (input : string) : number :=
  let '(negative, s) := split_sign (trim_start input) in
  let '(digit, radix, s) :=
    match s with
    | String "0" (String "x" s') => (hex_digit_of, 16, s')
    | String "0" (String "X" s') => (hex_digit_of, 16, s')
    | _ => (digit_of, 10, s)
    end in
  match fst (read_digits digit radix None s) with
  | None => NaN
  | Some z => Num (inject_Z (if negative then - z else z))
  end.

(** Fraction digits after the decimal point: value and number of digits. *)
Fixpoint read_fraction (acc : Z) (len : nat) (s : string) : Z * nat * string :=
  match s with
  | String c s' =>
      match digit_of c with
      | Some d => read_fraction (acc * 10 + d) (S len) s'
      | None => (acc, len, s)
      end
  | EmptyString => (acc, len, s)
  end.

Definition pow10 (n : nat) : Z := 10 ^ Z.of_nat n.

(** The optional exponent part of a StrDecimalLiteral and what follows
    it; an [e] that is not followed by digits is not part of the literal. *)
Definition read_exponent (s : string) : Z * string :=
  match s with
  | String c s' =>
      if (Ascii.eqb c "e" || Ascii.eqb c "E")%bool then
        let '(negative, s'') := split_sign s' in
        match read_digits digit_of 10 None s'' with
        | (Some e, rest) => (if negative then - e else e, rest)
        | (None, _) => (0, s)
        end
      else (0, s)
  | EmptyString => (0, s)
  end.

Definition scale10 (q : Q) (e : Z) : Q :=
  if 0 <=? e then q * inject_Z (10 ^ e) else q / inject_Z (10 ^ (- e)).

(** An unsigned decimal literal at the start of a text, digits with an
    optional fraction and exponent: its value and the rest of the text. *)
Definition read_magnitude (s : string) : option (Q * string) :=
  let '(int_part, rest) := read_digits digit_of 10 None s in
  let '(frac, len, rest') :=
    match rest with
    | String "." t => read_fraction 0 0 t
    | _ => (0, 0%nat, rest)
    end in
  match int_part, len with
  | None, O => None
  | _, _ =>
      let i := match int_part with Some i => i | None => 0 end in
      let m := Qred ((i * pow10 len + frac) # Z.to_pos (pow10 len)) in
      let '(e, rest'') := read_exponent rest' in
      Some (Qred (scale10 m e), rest'')
  end.

(** The longest prefix that is a StrDecimalLiteral, and the rest; [NaN]
    when no prefix is one. *)
Definition read_decimal (s : string) : number * string :=
  let '(negative, s1) := split_sign s in
  if String.prefix "Infinity" s1
  then (Infinity negative, String.substring 8 (String.length s1 - 8) s1)
  else
    match read_magnitude s1 with
    | Some (v, rest) => (Num (if negative then Qred (- v) else v), rest)
    | None => (NaN, s)
    end.

(** [parseFloat(string)] *)
Definition parseFloat (input : string) : number :=
  fst (read_decimal (trim_start input)).

Definition binary_digit_of (c : ascii) : option Z :=
  match digit_of c with
  | Some d => if d <? 2 then Some d else None
  | None => None
  end.

Definition octal_digit_of (c : ascii) : option Z :=
  match digit_of c with
  | Some d => if d <? 8 then Some d else None
  | None => None
  end.

Definition whole (digit : ascii -> option Z) (radix : Z) (s : string) : number :=
  match read_digits digit radix None s with
  | (Some z, rest) =>
      match trim_start rest with
      | EmptyString => Num (inject_Z z)
      | _ => NaN
      end
  | (None, _) => NaN
  end.

(** [Number(string)], the conversion the arithmetic and relational
    operators apply to a string operand: the whole text, white space
    apart, has to be a numeric literal, and the empty text is zero. *)
Definition to_number (input : string) : number :=
  match trim_start input with
  | EmptyString => Num 0
  | String "0" (String "x" t) | String "0" (String "X" t) =>
      whole hex_digit_of 16 t
  | String "0" (String "b" t) | String "0" (String "B" t) => whole binary_digit_of 2 t
  | String "0" (String "o" t) | String "0" (String "O" t) => whole octal_digit_of 8 t
  | s =>
      let '(v, rest) := read_decimal s in
      match trim_start rest with
      | EmptyString => v
      | _ => NaN
      end
  end.

(** [Math.round]: the nearest integer, ties towards positive infinity. *)
Definition Math_round (x : Q) : Z := Qfloor (x + (1 # 2)).

Definition Math_ceil (x : Q) : Z := Qceiling x.

(** 2^k for an integer k. *)
Definition two_to (k : Z) : Q :=
  if 0 <=? k then inject_Z (2 ^ k) else 1 # Z.to_pos (2 ^ (- k)).

(** The exponent of the leading bit of a positive rational: the k with
    2^k <= q < 2^(k+1). *)
Definition binade (q : Q) : Z :=
  let k := Z.log2 (Qnum q) - Z.log2 (Zpos (Qden q)) in
  if Qle_bool (two_to k) q then k else k - 1.

(** The nearest integer, a tie going to the even one. *)
Definition round_half_even (q : Q) : Z :=
  let f := Qfloor q in
  match (q - inject_Z f ?= 1 # 2)%Q with
  | Lt => f
  | Gt => f + 1
  | Eq => if Z.even f then f else f + 1
  end.

(** The double nearest to a rational, the value a number literal or the
    exact result of an arithmetic operation is rounded to (IEEE 754
    binary64, round to nearest, ties to even): 53 significant bits
    above the exponent -1074, fewer below.  Overflow to infinity is left
    out: the values it concerns are beyond [MAX_SAFE_INTEGER]. *)
Definition nearest_double (q : Q) : Q :=
  match Qnum q with
  | Z0 => 0%Q
  | _ =>
      let a := Qabs q in
      let e := Z.max (binade a - 52) (- 1074) in
      let v := Qred (inject_Z (round_half_even (a / two_to e)) * two_to e) in
      if Qle_bool 0 q then v else Qred (- v)
  end.

Definition Math_floor (x : Q) : Z := Qfloor x.

(** Arithmetic on numbers, with the IEEE rules for [NaN] and the
    infinities; a zero divisor counts as positive zero. *)
Definition lift (f : Q -> Q) (n : number) : number :=
  match n with
  | Num q => Num (f q)
  | _ => n
  end.

Definition round (n : number) : number := lift (fun q => inject_Z (Math_round q)) n.
Definition ceil (n : number) : number := lift (fun q => inject_Z (Math_ceil q)) n.
Definition floor (n : number) : number := lift (fun q => inject_Z (Math_floor q)) n.

Definition negative_Q (q : Q) : bool := negb (Qle_bool 0 q).

Definition div (a b : number) : number :=
  match a, b with
  | NaN, _ | _, NaN => NaN
  | Infinity _, Infinity _ => NaN
  | Infinity n, Num y => Infinity (xorb n (negative_Q y))
  | Num x, Infinity _ => Num 0
  | Num x, Num y =>
      if Qeq_bool y 0
      then (if Qeq_bool x 0 then NaN else Infinity (negative_Q x))
      else Num (Qred (x / y))
  end.

Definition times (a : number) (k : Q) : number := lift (fun q => Qred (q * k)) a.

Definition plus (a : number) (k : Q) : number := lift (fun q => Qred (q + k)) a.

(** The double a number is held as. *)
Definition double (n : number) : number := lift nearest_double n.

(** [a / b] and [a * k] on doubles: the exact result, rounded to the
    nearest double. *)
Definition quotient (a b : number) : number := double (div a b).

Definition product (a : number) (k : Q) : number := double (times a k).

(** [a < b]; false whenever an operand is [NaN]. *)
Definition lt (a b : number) : bool :=
  match a, b with
  | NaN, _ | _, NaN => false
  | Infinity n, Infinity m => n && negb m
  | Infinity n, Num _ => n
  | Num _, Infinity m => negb m
  | Num x, Num y => negb (Qle_bool y x)
  end.

Definition gt (a b : number) : bool := lt b a.

(** Truthiness of a number: zero and [NaN] are falsy. *)
Definition truthy_number (n : number) : bool :=
  match n with
  | NaN => false
  | Infinity _ => true
  | Num q => negb (Qeq_bool q 0)
  end.

(** Truthiness of a value that is either [null] or a string. *)
Definition truthy_string (s : string) : bool :=
  negb (String.eqb s EmptyString).

End Js.


(** ** Values as the PostgreSQL driver hands them over

    node-postgres returns [bigint] and [numeric] columns as JavaScript
    strings holding the decimal text PostgreSQL prints. *)

Module Pg.

Definition digit_char (d : Z) : ascii := ascii_of_N (Z.to_N (48 + d)).

Fixpoint digits_onto (fuel : nat) (n : Z) (acc : string) : string :=
  match fuel with
  | O => acc
  | S fuel' =>
      let acc' := String (digit_char (n mod 10)) acc in
      if n <? 10 then acc' else digits_onto fuel' (n / 10) acc'
  end.

(** Decimal text of a natural number, without leading zeros. *)
Definition natural_out (n : Z) : string :=
  digits_onto (S (Z.to_nat (Z.log2 n))) n EmptyString.

Definition bigint_out (z : Z) : string :=
  if z <? 0 then String "-" (natural_out (- z)) else natural_out z.

Fixpoint zeros (n : nat) : string :=
  match n with O => EmptyString | S n' => String "0" (zeros n') end.

(** Exactly [width] digits, zero-padded on the left. *)
Definition padded_out (width : nat) (n : Z) : string :=
  let d := natural_out n in
  zeros (width - String.length d) ++ d.

(** Rounding to an integer, ties away from zero, as [numeric] does. *)
Definition round_half_away (q : Q) : Z :=
  if Qle_bool 0 q then Qfloor (q + (1 # 2)) else - Qfloor (- q + (1 # 2)).

(** The value a [numeric] of display scale [scale] holds for [q], as an
    integer number of units of 10^-scale. *)
Definition numeric_units (scale : nat) (q : Q) : Z :=
  round_half_away (q * inject_Z (Js.pow10 scale)).

(** Text of a [numeric] with [scale] fractional digits. *)
Definition numeric_out (scale : nat) (q : Q) : string :=
  let u := numeric_units scale q in
  let m := Z.abs u in
  let body :=
    natural_out (m / Js.pow10 scale) ++
    match scale with
    | O => EmptyString
    | S _ => String "." (padded_out scale (m mod Js.pow10 scale))
    end in
  if u <? 0 then String "-" body else body.

(** An error raised by the store, identified by its SQLSTATE code. *)
Record Error : Type := { sqlstate : string }.

Definition foreign_key_violation : Error := {| sqlstate := "23503" |}.
Definition invalid_text_representation : Error := {| sqlstate := "22P02" |}.
Definition numeric_value_out_of_range : Error := {| sqlstate := "22003" |}.
Definition protocol_violation : Error := {| sqlstate := "08P01" |}.

End Pg.


(** ** Data model: the [users] and [properties] tables *)

(** A row of the externally owned [users] table; the primary key [id] is
    the key of the table's map. *)
Record User : Type := {
  role : string;
  first_name : string;
  last_name : string;
  email : string
}.

(** A row of [properties], column by column as [/setup-database] creates
    the table; [None] is SQL NULL for the nullable columns. *)
Record Property : Type := {
  id : Z;
  address : string;
  city : string;
  state : string;
  zip_code : string;
  rent_amount : option Q;
  bedrooms : option Z;
  bathrooms : option Q;
  square_feet : option Z;
  description : option string;
  landlord_id : option Z;
  landlord_verified : option bool;
  created_at : Z;
  updated_at : Z
}.

(** The relational store: both tables, the [SERIAL] sequence behind
    [properties.id] and the clock behind [NOW()]. *)
Record Store : Type := {
  users : gmap Z User;
  properties : list Property;
  next_id : Z;
  now : Z
}.

(** A property joined with its landlord's display fields. *)
Record Joined : Type := {
  prop : Property;
  landlord_first_name : string;
  landlord_last_name : string;
  landlord_email : string
}.

(** ** SQL as the handlers issue it *)

Module Sql.

(** ASCII case folding, standing for SQL [LOWER]. *)
Definition lower_char (c : ascii) : ascii :=
  let n := N_of_ascii c in
  if ((65 <=? n) && (n <=? 90))%N then ascii_of_N (n + 32) else c.

Fixpoint lower_text (s : string) : string :=
  match s with
  | String c s' => String (lower_char c) (lower_text s')
  | EmptyString => EmptyString
  end.

Definition LOWER : string -> string := lower_text.

(** SQL [LIKE]: [%] matches any run of characters, [_] exactly one, and a
    backslash makes the next pattern character literal. *)
Fixpoint LIKE_from (pattern : string) : string -> bool :=
  match pattern with
  | EmptyString => fun s => match s with EmptyString => true | _ => false end
  | String "%" rest =>
      fix skip (s : string) : bool :=
        LIKE_from rest s ||
        match s with String _ s' => skip s' | EmptyString => false end
  | String "_" rest =>
      fun s => match s with String _ s' => LIKE_from rest s' | EmptyString => false end
  | String "\" (String c rest) =>
      fun s =>
        match s with
        | String x s' => Ascii.eqb x c && LIKE_from rest s'
        | EmptyString => false
        end
  | String c rest =>
      fun s =>
        match s with
        | String x s' => Ascii.eqb x c && LIKE_from rest s'
        | EmptyString => false
        end
  end.

Definition LIKE (s pattern : string) : bool := LIKE_from pattern s.

(** A bound parameter value of a parameterised query. *)
Inductive Param : Type :=
| PText (s : string)
| PNumber (q : Q)
| PBool (b : bool).

(** The numeric columns the search compares against a bound. *)
Inductive NumColumn : Type :=
| col_rent_amount
| col_bedrooms
| col_bathrooms
| col_square_feet.

(** The comparisons the search can ask for. *)
Inductive Test : Type :=
| city_like                    (* LOWER(p.city) LIKE LOWER($n) *)
| state_equals                 (* LOWER(p.state) = LOWER($n) *)
| zip_equals                   (* p.zip_code = $n *)
| at_least (c : NumColumn)     (* p.c >= $n *)
| at_most (c : NumColumn)      (* p.c <= $n *)
| verified_equals.             (* p.landlord_verified = $n *)

(** One element of [whereConditions]: a comparison and the placeholder
    [$n] its text refers to. *)
Record Condition : Type := { test : Test; placeholder : nat }.

(** The [ORDER BY] clauses of the search. *)
Inductive OrderClause : Type :=
| rent_amount_ASC_NULLS_LAST
| rent_amount_DESC_NULLS_LAST
| created_at_ASC
| created_at_DESC
| square_feet_ASC_NULLS_LAST
| square_feet_DESC_NULLS_LAST.

(** The bound values of the [INSERT INTO properties]: the ten keys of a
    validated create body, the required ones present, numbers as the
    JavaScript numbers they are. *)
Record NewProperty : Type := {
  new_address : string;
  new_city : string;
  new_state : string;
  new_zip_code : string;
  new_rent_amount : option Q;
  new_bedrooms : option Q;
  new_bathrooms : option Q;
  new_square_feet : option Q;
  new_description : option string;
  new_landlord_id : Q
}.

(** Result rows of the landlord lookup, the count query and the
    statistics query, with the JavaScript values the driver produces. *)
Record UserRole : Type := { user_id : Z; user_role : string }.

Record CountRow : Type := { total : string }.

Record StatsRow : Type := {
  total_properties : string;
  verified_properties : string;
  avg_rent : option string;
  min_rent : option string;
  max_rent : option string;
  avg_bedrooms : option string;
  avg_bathrooms : option string;
  avg_sqft : option string;
  cities_count : string;
  states_count : string
}.

(** The statements of the service, indexed by the type of their rows. *)
Inductive Query : Type -> Type :=
| create_table : Query unit
| select_user (landlord_id : Q) : Query UserRole
| select_duplicate (address zip_code : string) : Query Z
| insert_property (values : NewProperty) : Query Property
| select_property (propertyId : Js.number) : Query Joined
| search (whereConditions : list Condition) (orderClause : OrderClause)
         (limitParam offsetParam : nat) (queryParams : list Param) : Query Joined
| count (whereConditions : list Condition) (queryParams : list Param) : Query CountRow
| statistics : Query StatsRow.

(** What [pool.query] settles with. *)
Inductive Result (R : Type) : Type :=
| Rows (rows : list R)
| Failed (e : Pg.Error).

Arguments Rows {R} rows.
Arguments Failed {R} e.

End Sql.

(** ** The store's answers *)

Module Db.

Import Sql.

(** [FROM properties p JOIN users u ON p.landlord_id = u.id] *)
Definition join_landlord (s : Store) (p : Property) : list Joined :=
  match landlord_id p with
  | Some l =>
      match users s !! l with
      | Some u =>
          [ {| prop := p;
               landlord_first_name := first_name u;
               landlord_last_name := last_name u;
               landlord_email := email u |} ]
      | None => []
      end
  | None => []
  end.

Definition joined (s : Store) : list Joined :=
  flat_map (join_landlord s) (properties s).

Definition column (c : NumColumn) (p : Property) : option Q :=
  match c with
  | col_rent_amount => rent_amount p
  | col_bedrooms => option_map inject_Z (bedrooms p)
  | col_bathrooms => bathrooms p
  | col_square_feet => option_map inject_Z (square_feet p)
  end.

(** Whether a row passes a comparison against a bound value; a
    comparison with NULL is not true, so the row is filtered out. *)
Definition passes (t : Test) (bound : option Param) (r : Joined) : bool :=
  let p := prop r in
  match t, bound with
  | city_like, Some (PText v) => LIKE (LOWER (city p)) (LOWER v)
  | state_equals, Some (PText v) => String.eqb (LOWER (state p)) (LOWER v)
  | zip_equals, Some (PText v) => String.eqb (zip_code p) v
  | at_least col, Some (PNumber v) =>
      match column col p with Some x => Qle_bool v x | None => false end
  | at_most col, Some (PNumber v) =>
      match column col p with Some x => Qle_bool x v | None => false end
  | verified_equals, Some (PBool b) =>
      match landlord_verified p with Some x => Bool.eqb x b | None => false end
  | _, _ => false
  end.

Definition holds (params : list Param) (r : Joined) (c : Condition) : bool :=
  passes (test c) (nth_error params (Nat.pred (placeholder c))) r.

(** [WHERE c1 AND c2 AND ...]; no condition, no [WHERE] clause. *)
Definition where_ (conditions : list Condition) (params : list Param)
           (r : Joined) : bool :=
  forallb (holds params r) conditions.

(** The statement's parameters are [$1 .. $n] for the largest [n] it
    mentions, and the bind message has to supply exactly [n] values. *)
Definition arity (placeholders : list nat) : nat :=
  fold_right Nat.max O placeholders.

Definition binds (placeholders : list nat) (params : list Param) : bool :=
  forallb (fun n => Nat.ltb 0 n) placeholders &&
  Nat.eqb (List.length params) (arity placeholders).

Definition ascending_nulls_last (x y : option Q) : bool :=
  match x, y with
  | Some a, Some b => Qle_bool a b
  | Some _, None => true
  | None, Some _ => false
  | None, None => true
  end.

Definition descending_nulls_last (x y : option Q) : bool :=
  match x, y with
  | Some a, Some b => Qle_bool b a
  | Some _, None => true
  | None, Some _ => false
  | None, None => true
  end.

Definition precedes (o : OrderClause) (x y : Joined) : bool :=
  match o with
  | rent_amount_ASC_NULLS_LAST =>
      ascending_nulls_last (rent_amount (prop x)) (rent_amount (prop y))
  | rent_amount_DESC_NULLS_LAST =>
      descending_nulls_last (rent_amount (prop x)) (rent_amount (prop y))
  | created_at_ASC => created_at (prop x) <=? created_at (prop y)
  | created_at_DESC => created_at (prop y) <=? created_at (prop x)
  | square_feet_ASC_NULLS_LAST =>
      ascending_nulls_last (column col_square_feet (prop x))
                           (column col_square_feet (prop y))
  | square_feet_DESC_NULLS_LAST =>
      descending_nulls_last (column col_square_feet (prop x))
                            (column col_square_feet (prop y))
  end.

Fixpoint place (le : Joined -> Joined -> bool) (x : Joined) (l : list Joined)
  : list Joined :=
  match l with
  | [] => [x]
  | y :: l' => if le x y then x :: l else y :: place le x l'
  end.

(** [ORDER BY].  PostgreSQL leaves the order of rows that tie
    unspecified; the insertion sort here keeps them in the order of the
    table. *)
Definition order_by (o : OrderClause) (l : list Joined) : list Joined :=
  fold_right (place (precedes o)) [] l.

(** The natural number a [LIMIT] or [OFFSET] parameter denotes. *)
Definition row_count (p : option Param) : option nat :=
  match p with
  | Some (PNumber q) =>
      if Qle_bool 0 q && Qeq_bool q (inject_Z (Qfloor q))
      then Some (Z.to_nat (Qfloor q)) else None
  | _ => None
  end.

(** Aggregates over a column: NULLs are skipped, and an aggregate over no
    value is NULL. *)
Definition present {A} (l : list (option A)) : list A :=
  flat_map (fun o => match o with Some a => [a] | None => [] end) l.

Definition Qsum (l : list Q) : Q := fold_right Qplus 0%Q l.

Definition AVG (l : list (option Q)) : option Q :=
  match present l with
  | [] => None
  | v :: vs => Some (Qsum (v :: vs) / inject_Z (Z.of_nat (List.length (v :: vs))))%Q
  end.

Definition MIN (l : list (option Q)) : option Q :=
  match present l with
  | [] => None
  | v :: vs => Some (fold_right (fun a b => if Qle_bool a b then a else b) v vs)
  end.

Definition MAX (l : list (option Q)) : option Q :=
  match present l with
  | [] => None
  | v :: vs => Some (fold_right (fun a b => if Qle_bool a b then b else a) v vs)
  end.

Definition COUNT_DISTINCT (l : list string) : Z :=
  Z.of_nat (List.length (nodup string_dec l)).

(** The display scale PostgreSQL gives an average: sixteen fractional
    digits in the model. *)
Definition avg_scale : nat := 16.

(** The rows the statistics aggregate over: [WHERE rent_amount IS NOT NULL]. *)
Definition priced (s : Store) : list Property :=
  List.filter (fun p => match rent_amount p with Some _ => true | None => false end)
         (properties s).

Definition statistics_row (s : Store) : StatsRow :=
  let rows := priced s in
  let avg (f : Property -> option Q) :=
    option_map (Pg.numeric_out avg_scale) (AVG (map f rows)) in
  {| total_properties := Pg.bigint_out (Z.of_nat (List.length rows));
     verified_properties :=
       Pg.bigint_out (Z.of_nat (List.length
         (List.filter (fun p => match landlord_verified p with
                           | Some true => true | _ => false end) rows)));
     avg_rent := avg rent_amount;
     min_rent := option_map (Pg.numeric_out 2) (MIN (map rent_amount rows));
     max_rent := option_map (Pg.numeric_out 2) (MAX (map rent_amount rows));
     avg_bedrooms := avg (column col_bedrooms);
     avg_bathrooms := avg bathrooms;
     avg_sqft := avg (column col_square_feet);
     cities_count := Pg.bigint_out (COUNT_DISTINCT (map city rows));
     states_count := Pg.bigint_out (COUNT_DISTINCT (map state rows)) |}.

(** Input conversion of a bound number for an [INTEGER] column. *)
Definition integer_in (q : Q) : option Z :=
  if Qeq_bool q (inject_Z (Qfloor q)) then Some (Qfloor q) else None.

(** The values of an [INTEGER]: a parameter beyond them is refused where
    one is expected, with SQLSTATE 22003. *)
Definition integer_range (i : Z) : bool := (- 2 ^ 31 <=? i) && (i <? 2 ^ 31).

(** A [DECIMAL(precision, scale)] column rounds to its scale and refuses
    values that need more than [precision] digits. *)
Definition decimal_in (precision scale : nat) (q : Q) : option Q :=
  let u := Pg.numeric_units scale q in
  if Z.abs u <? Js.pow10 precision
  then Some (Qred (u # Z.to_pos (Js.pow10 scale)))
  else None.

(** A nullable column: NULL stays NULL, a value has to convert. *)
Definition nullable {A : Type} (conv : Q -> option A) (v : option Q)
  : option (option A) :=
  match v with
  | Some q => option_map Some (conv q)
  | None => Some None
  end.

(** The row an [INSERT] builds: [id] from the sequence, [landlord_verified]
    from its default, both timestamps from [NOW()]. *)
Definition inserted (s : Store) (v : NewProperty) : Pg.Error + Property :=
  match integer_in (new_landlord_id v),
        nullable integer_in (new_bedrooms v),
        nullable integer_in (new_square_feet v) with
  | Some l, Some beds, Some sqft =>
      match nullable (decimal_in 10 2) (new_rent_amount v),
            nullable (decimal_in 3 1) (new_bathrooms v) with
      | Some rent, Some baths =>
          inr {| id := next_id s;
                 address := new_address v;
                 city := new_city v;
                 state := new_state v;
                 zip_code := new_zip_code v;
                 rent_amount := rent;
                 bedrooms := beds;
                 bathrooms := baths;
                 square_feet := sqft;
                 description := new_description v;
                 landlord_id := Some l;
                 landlord_verified := Some false;
                 created_at := now s;
                 updated_at := now s |}
      | _, _ => inl Pg.numeric_value_out_of_range
      end
  | _, _, _ => inl Pg.invalid_text_representation
  end.

(** The sequence is advanced by every [INSERT], also by one that fails. *)
Definition advance (s : Store) (rows : list Property) : Store :=
  {| users := users s; properties := rows;
     next_id := next_id s + 1; now := now s |}.

(** One statement against the store.  The ids of [users] and of
    [properties] are INTEGERs: an id parameter beyond their range is
    refused; the rows of [users] have ids within it, so a parameter that
    names one of them is accepted. *)
Definition exec {R : Type} (q : Query R) (s : Store) : Result R * Store :=
  match q in Query R return Result R * Store with
  | create_table => (Rows [], s)
  | select_user landlord =>
      match integer_in landlord with
      | Some l =>
          match users s !! l with
          | Some u => (Rows [ {| user_id := l; user_role := role u |} ], s)
          | None =>
              if integer_range l then (Rows [], s)
              else (Failed Pg.numeric_value_out_of_range, s)
          end
      | None => (Failed Pg.invalid_text_representation, s)
      end
  | select_duplicate a z =>
      (Rows (map id
         (List.filter (fun p => String.eqb (LOWER (address p)) (LOWER a) &&
                           String.eqb (zip_code p) z)
                 (properties s))), s)
  | insert_property v =>
      match inserted s v with
      | inr row =>
          match landlord_id row ≫= (fun l => users s !! l) with
          | Some _ => (Rows [row], advance s (properties s ++ [row]))
          | None => (Failed Pg.foreign_key_violation, advance s (properties s))
          end
      | inl e => (Failed e, s)
      end
  | select_property propertyId =>
      match propertyId with
      | Js.Num n =>
          match integer_in n with
          | Some i =>
              if integer_range i
              then (Rows (List.filter (fun r => id (prop r) =? i) (joined s)), s)
              else (Failed Pg.numeric_value_out_of_range, s)
          | None => (Failed Pg.invalid_text_representation, s)
          end
      | _ => (Failed Pg.invalid_text_representation, s)
      end
  | search conditions o limitParam offsetParam params =>
      if binds (limitParam :: offsetParam :: map Sql.placeholder conditions) params
      then
        match row_count (nth_error params (Nat.pred limitParam)),
              row_count (nth_error params (Nat.pred offsetParam)) with
        | Some limit, Some offset =>
            (Rows (firstn limit (skipn offset
               (order_by o (List.filter (where_ conditions params) (joined s))))), s)
        | _, _ => (Failed Pg.protocol_violation, s)
        end
      else (Failed Pg.protocol_violation, s)
  | count conditions params =>
      if binds (map Sql.placeholder conditions) params
      then
        (Rows [ {| total := Pg.bigint_out (Z.of_nat (List.length
                   (List.filter (where_ conditions params) (joined s)))) |} ], s)
      else (Failed Pg.protocol_violation, s)
  | statistics => (Rows [statistics_row s], s)
  end.

End Db.

(** ** Requests

    A request body or query string is modelled after JSON parsing and
    Joi's type conversion: every key that is present holds a value of the
    type its schema asks for, numbers being the numbers the text denotes
    (a double is held as the decimal JavaScript prints it with).  Keys
    the schema does not name are kept in [other_keys]. *)

Module CreateBody.
Record t : Type := {
  address : option string;
  city : option string;
  state : option string;
  zip_code : option string;
  rent_amount : option Q;
  bedrooms : option Q;
  bathrooms : option Q;
  square_feet : option Q;
  description : option string;
  landlord_id : option Q;
  other_keys : list string
}.
End CreateBody.

Module SearchQuery.
Record t : Type := {
  city : option string;
  state : option string;
  zip_code : option string;
  min_rent : option Q;
  max_rent : option Q;
  min_bedrooms : option Q;
  max_bedrooms : option Q;
  min_bathrooms : option Q;
  max_bathrooms : option Q;
  min_sqft : option Q;
  max_sqft : option Q;
  landlord_verified : option bool;
  sort_by : option string;
  limit : option Q;
  offset : option Q;
  other_keys : list string
}.
End SearchQuery.

(** ** Joi *)

Module Joi.

(** The one entry of [error.details] (validation aborts at the first
    failure): the key and the type of the rule it broke. *)
Record ValidationError : Type := { key : string; type : string }.

Definition Qlt_bool (a b : Q) : bool := negb (Qle_bool b a).

(** A rule gives the error type when the value breaks it. *)
Definition Rule (A : Type) : Type := A -> option string.

Definition rule {A : Type} (error : string) (ok : A -> bool) : Rule A :=
  fun v => if ok v then None else Some error.

(** Rules of [Joi.number()]. *)
Definition positive : Rule Q := rule "number.positive" (Qlt_bool 0).
Definition integer : Rule Q :=
  rule "number.integer" (fun v => Qeq_bool v (inject_Z (Qfloor v))).
Definition max (limit : Q) : Rule Q := rule "number.max" (fun v => Qle_bool v limit).
Definition min (limit : Q) : Rule Q := rule "number.min" (fun v => Qle_bool limit v).

(** A limit given by [Joi.ref]: the sibling's validated value.  A
    reference that resolves to [undefined] is not a number, which fails
    the rule with [any.ref]. *)
Definition with_ref (r : Q -> Rule Q) (target : option Q) : Rule Q :=
  fun v =>
    match target with
    | Some limit => r limit v
    | None => Some "any.ref"
    end.

Definition min_ref : option Q -> Rule Q := with_ref min.
Definition greater_ref : option Q -> Rule Q :=
  with_ref (fun limit => rule "number.greater" (Qlt_bool limit)).

(** Rules of [Joi.string()]; lengths count code units. *)
Definition min_length (n : nat) : Rule string :=
  rule "string.min" (fun v => Nat.leb n (String.length v)).
Definition max_length (n : nat) : Rule string :=
  rule "string.max" (fun v => Nat.leb (String.length v) n).

Definition is_digit (c : ascii) : bool :=
  match Js.digit_of c with Some _ => true | None => false end.

(** Exactly [n] digits, then the rest. *)
Fixpoint digits (n : nat) (s : string) : option string :=
  match n with
  | O => Some s
  | S n' =>
      match s with
      | String c s' => if is_digit c then digits n' s' else None
      | EmptyString => None
      end
  end.

(** The regular expression [/^\d{5}(-\d{4})?$/]. *)
Definition zip_format (s : string) : bool :=
  match digits 5 s with
  | Some EmptyString => true
  | Some (String "-" rest) =>
      match digits 4 rest with
      | Some EmptyString => true
      | _ => false
      end
  | _ => false
  end.

Definition pattern (matches : string -> bool) : Rule string :=
  rule "string.pattern.base" matches.

Fixpoint first_failure {A : Type} (rules : list (Rule A)) (v : A) : option string :=
  match rules with
  | [] => None
  | r :: rules' =>
      match r v with
      | Some e => Some e
      | None => first_failure rules' v
      end
  end.

(** [precision(places)] under the default [convert] option: the value is
    rounded, [Math.round(value * 10^places) / 10^places].  The product is
    a product of doubles, which decides the result near a tie: 1.005 is
    the double below it, times 100 is 100.49999999999999, and rounds to
    1.  The quotient is the double that prints as the decimal kept
    here. *)
Definition precision (places : nat) (v : Q) : Q :=
  let product := Js.nearest_double (Js.nearest_double v * inject_Z (Js.pow10 places)) in
  Qred (Js.Math_round product # Z.to_pos (Js.pow10 places)).

Definition MAX_SAFE_INTEGER : Z := 2 ^ 53 - 1.

Definition safe (v : Q) : bool :=
  Qle_bool (inject_Z (- MAX_SAFE_INTEGER)) v && Qle_bool v (inject_Z MAX_SAFE_INTEGER).

Definition fails {A : Type} (k e : string) : ValidationError + A :=
  inl {| key := k; type := e |}.

(** [Joi.number()] with an optional [precision] and a chain of rules,
    applied to an optional key. *)
Definition number (places : option nat) (rules : list (Rule Q))
           (k : string) (v : option Q) : ValidationError + option Q :=
  match v with
  | None => inr None
  | Some x =>
      let x' := match places with Some n => precision n x | None => x end in
      if negb (safe x) then fails k "number.unsafe"
      else
        match first_failure rules x' with
        | Some e => fails k e
        | None => inr (Some x')
        end
  end.

(** [Joi.string()] with a chain of rules; the empty string is refused. *)
Definition string_ (rules : list (Rule string)) (k : string) (v : option string)
  : ValidationError + option string :=
  match v with
  | None => inr None
  | Some x =>
      if String.eqb x EmptyString then fails k "string.empty"
      else
        match first_failure rules x with
        | Some e => fails k e
        | None => inr (Some x)
        end
  end.

(** [Joi.string().valid(...)]: the value has to be one of those allowed.
    The allowed values are looked at before the rules of the type, so the
    empty string is refused here as well, with [any.only]. *)
Definition valid (allowed : list string) (k : string) (v : option string)
  : ValidationError + option string :=
  match v with
  | None => inr None
  | Some x =>
      if existsb (String.eqb x) allowed then inr (Some x) else fails k "any.only"
  end.

Definition required {A : Type} (k : string) (v : ValidationError + option A)
  : ValidationError + A :=
  match v with
  | inl e => inl e
  | inr (Some x) => inr x
  | inr None => fails k "any.required"
  end.

Definition default {A : Type} (d : A) (v : ValidationError + option A)
  : ValidationError + option A :=
  match v with
  | inr None => inr (Some d)
  | _ => v
  end.

(** [Joi.object] refuses keys its schema does not name. *)
Definition known_keys (others : list string) : ValidationError + unit :=
  match others with
  | [] => inr tt
  | k :: _ => fails k "object.unknown"
  end.

Definition bind {A B : Type} (v : ValidationError + A)
           (f : A -> ValidationError + B) : ValidationError + B :=
  match v with
  | inl e => inl e
  | inr a => f a
  end.

End Joi.

Notation "'field' x ':=' v 'in' k" := (Joi.bind v (fun x => k))
  (at level 10, x name, v at level 100, k at level 200,
   format "'[v' 'field'  x  ':='  v  'in' '/' k ']'").

(** Validation schema for property creation. *)
Definition createPropertySchema (body : CreateBody.t)
  : Joi.ValidationError + Sql.NewProperty :=
  let number := Joi.number in
  let string := Joi.string_ in
  field address := Joi.required "address"
    (string [Joi.min_length 5; Joi.max_length 500] "address" (CreateBody.address body)) in
  field city := Joi.required "city"
    (string [Joi.min_length 2; Joi.max_length 100] "city" (CreateBody.city body)) in
  field state := Joi.required "state"
    (string [Joi.min_length 2; Joi.max_length 50] "state" (CreateBody.state body)) in
  field zip_code := Joi.required "zip_code"
    (string [Joi.pattern Joi.zip_format] "zip_code" (CreateBody.zip_code body)) in
  field rent_amount :=
    number (Some 2%nat) [Joi.positive; Joi.max 50000] "rent_amount"
           (CreateBody.rent_amount body) in
  field bedrooms :=
    number None [Joi.integer; Joi.min 0; Joi.max 20] "bedrooms"
           (CreateBody.bedrooms body) in
  field bathrooms :=
    number (Some 1%nat) [Joi.positive; Joi.max 20] "bathrooms"
           (CreateBody.bathrooms body) in
  field square_feet :=
    number None [Joi.integer; Joi.positive; Joi.max 50000] "square_feet"
           (CreateBody.square_feet body) in
  field description :=
    string [Joi.max_length 2000] "description" (CreateBody.description body) in
  field landlord_id := Joi.required "landlord_id"
    (number None [Joi.integer] "landlord_id" (CreateBody.landlord_id body)) in
  field _known := Joi.known_keys (CreateBody.other_keys body) in
  inr {| Sql.new_address := address;
         Sql.new_city := city;
         Sql.new_state := state;
         Sql.new_zip_code := zip_code;
         Sql.new_rent_amount := rent_amount;
         Sql.new_bedrooms := bedrooms;
         Sql.new_bathrooms := bathrooms;
         Sql.new_square_feet := square_feet;
         Sql.new_description := description;
         Sql.new_landlord_id := landlord_id |}.

(** Validation schema for property search query parameters. *)
Definition searchPropertiesSchema (query : SearchQuery.t)
  : Joi.ValidationError + SearchQuery.t :=
  let number := Joi.number in
  let string := Joi.string_ in
  field city :=
    string [Joi.min_length 2; Joi.max_length 100] "city" (SearchQuery.city query) in
  field state :=
    string [Joi.min_length 2; Joi.max_length 50] "state" (SearchQuery.state query) in
  field zip_code :=
    string [Joi.pattern Joi.zip_format] "zip_code" (SearchQuery.zip_code query) in
  field min_rent :=
    number None [Joi.positive; Joi.max 50000] "min_rent" (SearchQuery.min_rent query) in
  field max_rent :=
    number None [Joi.positive; Joi.max 50000; Joi.greater_ref min_rent] "max_rent"
           (SearchQuery.max_rent query) in
  field min_bedrooms :=
    number None [Joi.integer; Joi.min 0; Joi.max 20] "min_bedrooms"
           (SearchQuery.min_bedrooms query) in
  field max_bedrooms :=
    number None [Joi.integer; Joi.min 0; Joi.max 20; Joi.min_ref min_bedrooms]
           "max_bedrooms" (SearchQuery.max_bedrooms query) in
  field min_bathrooms :=
    number (Some 1%nat) [Joi.positive; Joi.max 20] "min_bathrooms"
           (SearchQuery.min_bathrooms query) in
  field max_bathrooms :=
    number (Some 1%nat) [Joi.positive; Joi.max 20; Joi.min_ref min_bathrooms]
           "max_bathrooms" (SearchQuery.max_bathrooms query) in
  field min_sqft :=
    number None [Joi.integer; Joi.positive; Joi.max 50000] "min_sqft"
           (SearchQuery.min_sqft query) in
  field max_sqft :=
    number None [Joi.integer; Joi.positive; Joi.max 50000; Joi.min_ref min_sqft]
           "max_sqft" (SearchQuery.max_sqft query) in
  field sort_by :=
    Joi.valid ["rent_asc"; "rent_desc"; "newest"; "oldest"; "sqft_asc"; "sqft_desc"]
              "sort_by" (SearchQuery.sort_by query) in
  field limit :=
    Joi.default 20%Q
      (number None [Joi.integer; Joi.min 1; Joi.max 100] "limit" (SearchQuery.limit query)) in
  field offset :=
    Joi.default 0%Q
      (number None [Joi.integer; Joi.min 0] "offset" (SearchQuery.offset query)) in
  field _known := Joi.known_keys (SearchQuery.other_keys query) in
  inr {| SearchQuery.city := city;
         SearchQuery.state := state;
         SearchQuery.zip_code := zip_code;
         SearchQuery.min_rent := min_rent;
         SearchQuery.max_rent := max_rent;
         SearchQuery.min_bedrooms := min_bedrooms;
         SearchQuery.max_bedrooms := max_bedrooms;
         SearchQuery.min_bathrooms := min_bathrooms;
         SearchQuery.max_bathrooms := max_bathrooms;
         SearchQuery.min_sqft := min_sqft;
         SearchQuery.max_sqft := max_sqft;
         SearchQuery.landlord_verified := SearchQuery.landlord_verified query;
         SearchQuery.sort_by := sort_by;
         SearchQuery.limit := limit;
         SearchQuery.offset := offset;
         SearchQuery.other_keys := [] |}.

(** ** Handlers: store queries, exceptions and responses *)

Module Async.

(** What a [catch] clause sees of a thrown value: its [code] property,
    which only errors of the store carry. *)
Record Exception : Type := { code : option string }.

Definition TypeError : Exception := {| code := None |}.

Definition rejection (e : Pg.Error) : Exception :=
  {| code := Some (Pg.sqlstate e) |}.

(** [error.code === text] *)
Definition code_is (error : Exception) (text : string) : bool :=
  match code error with
  | Some c => String.eqb c text
  | None => false
  end.

(** An [async] function body: it returns, throws, or awaits the result of
    a [pool.query] and goes on. *)
Inductive t (A : Type) : Type :=
| Return (a : A)
| Throw (e : Exception)
| Await {R : Type} (q : Sql.Query R) (k : Sql.Result R -> t A).

Arguments Return {A} a.
Arguments Throw {A} e.
Arguments Await {A R} q k.

Fixpoint bind {A B : Type} (m : t A) (f : A -> t B) : t B :=
  match m with
  | Return a => f a
  | Throw e => Throw e
  | Await q k => Await q (fun r => bind (k r) f)
  end.

(** [try { body } catch (error) { handler }] *)
Fixpoint try_catch {A : Type} (body : t A) (handler : Exception -> t A) : t A :=
  match body with
  | Return a => Return a
  | Throw e => handler e
  | Await q k => Await q (fun r => try_catch (k r) handler)
  end.

(** [await pool.query(q)]: the rows, or the store's error thrown. *)
Definition query {R : Type} (q : Sql.Query R) : t (list R) :=
  Await q (fun r =>
    match r with
    | Sql.Rows rows => Return rows
    | Sql.Failed e => Throw (rejection e)
    end).

(** [await Promise.all([pool.query(q1), pool.query(q2)])]: both queries
    are issued; the first rejection, if any, is thrown. *)
Definition query_all {R1 R2 : Type} (q1 : Sql.Query R1) (q2 : Sql.Query R2)
  : t (list R1 * list R2) :=
  Await q1 (fun r1 =>
  Await q2 (fun r2 =>
    match r1, r2 with
    | Sql.Rows rows1, Sql.Rows rows2 => Return (rows1, rows2)
    | Sql.Failed e, _ => Throw (rejection e)
    | _, Sql.Failed e => Throw (rejection e)
    end)).

End Async.

Notation "'await' x ':=' m 'in' k" := (Async.bind m (fun x => k))
  (at level 10, x name, m at level 100, k at level 200,
   format "'[v' 'await'  x  ':='  m  'in' '/' k ']'").

(** ** The environment of a running handler *)

Module World.

(** What happens around one [pool.query]: other clients of the store may
    have changed it since the handler's previous step ([before]), and the
    query may fail for a reason of the store's own ([failure]). *)
Record Tick : Type := {
  before : Store -> Store;
  failure : option Pg.Error
}.

Definition quiet : Tick := {| before := fun s => s; failure := None |}.

(** A query as it was issued, with the error it failed with, if any. *)
Inductive Issued : Type :=
| issued {R : Type} (q : Sql.Query R) (error : option Pg.Error).

Definition error_of {R : Type} (r : Sql.Result R) : option Pg.Error :=
  match r with
  | Sql.Rows _ => None
  | Sql.Failed e => Some e
  end.

Definition answer {R : Type} (tick : Tick) (q : Sql.Query R) (s : Store)
  : Sql.Result R * Store :=
  let s1 := before tick s in
  match failure tick with
  | Some e => (Sql.Failed e, s1)
  | None => Db.exec q s1
  end.

(** The outcome of a handler: its result or the exception that escaped
    it, the store it leaves, and the queries it issued, in order.  An
    exhausted list of ticks means a quiet environment. *)
Fixpoint run {A : Type} (m : Async.t A) (ticks : list Tick) (s : Store)
  : (Async.Exception + A) * Store * list Issued :=
  match m with
  | Async.Return a => (inr a, s, [])
  | Async.Throw e => (inl e, s, [])
  | Async.Await q k =>
      let tick := match ticks with t :: _ => t | [] => quiet end in
      let '(r, s1) := answer tick q s in
      let '(out, s2, log) := run (k r) (List.tl ticks) s1 in
      (out, s2, issued q (error_of r) :: log)
  end.

(** One step of a handler: its next query against the store. *)
Definition step {A : Type} (m : Async.t A) (s : Store) : Async.t A * Store :=
  match m with
  | Async.Await q k => let '(r, s1) := Db.exec q s in (k r, s1)
  | _ => (m, s)
  end.

(** Requests in flight together: the schedule names, step by step, the
    handler whose pending query the store answers next. *)
Fixpoint interleave {A : Type} (schedule : list nat) (handlers : list (Async.t A))
         (s : Store) : list (Async.t A) * Store :=
  match schedule with
  | [] => (handlers, s)
  | i :: schedule' =>
      match nth_error handlers i with
      | Some m =>
          let '(m', s1) := step m s in
          interleave schedule' (firstn i handlers ++ m' :: skipn (S i) handlers) s1
      | None => interleave schedule' handlers s
      end
  end.

End World.

(** ** Responses *)

Module Response.

Record Pagination : Type := {
  total_count : Js.number;
  total_pages : Js.number;
  current_page : Js.number;
  limit : Q;
  offset : Q;
  has_next : bool;
  has_previous : bool
}.

Record Range : Type := { min : option Q; max : option Q }.

Record FiltersApplied : Type := {
  city : option string;
  state : option string;
  zip_code : option string;
  rent_range : option Range;
  bedrooms_range : option Range;
  bathrooms_range : option Range;
  sqft_range : option Range;
  landlord_verified : option bool;
  sort_by : string
}.

(** The statistics object; [None] is JSON [null]. *)
Record Statistics : Type := {
  total_properties : Js.number;
  verified_properties : Js.number;
  verification_rate : Js.number;
  average : option Js.number;
  minimum : option Js.number;
  maximum : option Js.number;
  avg_bedrooms : option Js.number;
  avg_bathrooms : option Js.number;
  avg_square_feet : option Js.number;
  cities : Js.number;
  states : Js.number
}.

Inductive Body : Type :=
| info (message : string)
| failed (error message : string)
| invalid (error : string) (details : list Joi.ValidationError)
| conflict (error message : string) (existing_property_id : Z)
| created (message : string) (property : Property)
| found (property : Joined)
| listing (properties : list Joined) (pagination : Pagination)
          (filters_applied : FiltersApplied)
| statistics (statistics : Statistics).

Record t : Type := { status : Z; body : Body }.

(** [res.status(code).json(body)], and [res.json(body)] with status 200. *)
Definition json (code : Z) (b : Body) : t := {| status := code; body := b |}.

End Response.

(** ** The route handlers *)

Module Handlers.

Import Async.

Definition health : Async.t Response.t :=
  Return (Response.json 200 (Response.info "OK")).

Definition root : Async.t Response.t :=
  Return (Response.json 200 (Response.info "Landlord Property Service API")).

Definition test : Async.t Response.t :=
  Return (Response.json 200 (Response.info "Property service test endpoint working!")).

(** GET /setup-database *)
Definition setup_database : Async.t Response.t :=
  try_catch
    (await _ := query Sql.create_table in
     Return (Response.json 200 (Response.info "Properties table created successfully!")))
    (fun error =>
       Return (Response.json 500
         (Response.failed "Failed to create properties table" "details")))%string.

(** POST /properties - Create a new property: the [try] block. *)
Definition create_property_try (body : CreateBody.t) : Async.t Response.t :=
  (* Validate request body *)
  match createPropertySchema body with
  | inl error =>
      Return (Response.json 400 (Response.invalid "Validation failed" [error]))
  | inr value =>
      (* Verify the landlord exists and is actually a landlord *)
      await landlordCheck := query (Sql.select_user (Sql.new_landlord_id value)) in
      match landlordCheck with
      | [] =>
          Return (Response.json 404
            (Response.failed "Landlord not found"
               "The specified landlord_id does not exist"))
      | landlord :: _ =>
          if negb (String.eqb (Sql.user_role landlord) "landlord") then
            Return (Response.json 403
              (Response.failed "Invalid user role"
                 "Only users with landlord role can create properties"))
          else
            (* Check for duplicate property (same address + zip) *)
            await duplicateCheck :=
              query (Sql.select_duplicate (Sql.new_address value)
                                          (Sql.new_zip_code value)) in
            match duplicateCheck with
            | existing :: _ =>
                Return (Response.json 409
                  (Response.conflict "Property already exists"
                     "A property with this address and zip code already exists"
                     existing))
            | [] =>
                (* Insert the new property *)
                await result := query (Sql.insert_property value) in
                match result with
                | newProperty :: _ =>
                    Return (Response.json 201
                      (Response.created "Property created successfully" newProperty))
                | [] => Throw TypeError
                end
            end
      end
  end.

(** The [catch] block of the create handler. *)
Definition create_property_catch (error : Async.Exception) : Response.t :=
  (* Handle specific database errors *)
  if code_is error "23503" then (* Foreign key violation *)
    Response.json 400
      (Response.failed "Invalid landlord_id" "The specified landlord does not exist")
  else
    Response.json 500
      (Response.failed "Internal server error" "Failed to create property").

Definition create_property (body : CreateBody.t) : Async.t Response.t :=
  try_catch (create_property_try body)
            (fun error => Return (create_property_catch error)).

(** GET /properties/:id - Get a specific property by ID *)
Definition get_property (id : string) : Async.t Response.t :=
  try_catch
    (let propertyId := Js.parseInt id in
     if Js.isNaN propertyId then
       Return (Response.json 400
         (Response.failed "Invalid property ID" "Property ID must be a number"))
     else
       await rows := query (Sql.select_property propertyId) in
       match rows with
       | [] =>
           Return (Response.json 404
             (Response.failed "Property not found"
                "No property found with the specified ID"))
       | property :: _ => Return (Response.json 200 (Response.found property))
       end)
    (fun error =>
       Return (Response.json 500
         (Response.failed "Internal server error" "Failed to fetch property")))%string.

(** The dynamic WHERE clause: the conditions, the bound values and the
    running placeholder number. *)
Record Where : Type := {
  whereConditions : list Sql.Condition;
  queryParams : list Sql.Param;
  paramCount : nat
}.

(** [paramCount++; whereConditions.push(...$paramCount...);
    queryParams.push(value)] *)
Definition push (condition : Sql.Test) (value : Sql.Param) (w : Where)
  : Where :=
  let n := S (paramCount w) in
  {| whereConditions :=
       whereConditions w ++ [ {| Sql.test := condition; Sql.placeholder := n |} ];
     queryParams := queryParams w ++ [value];
     paramCount := n |}.

(** [if (text) { ... }]: a string filter is added when it is truthy. *)
Definition if_truthy (v : option string) (condition : Sql.Test)
           (value : string -> Sql.Param) (w : Where) : Where :=
  match v with
  | Some text => if Js.truthy_string text then push condition (value text) w else w
  | None => w
  end.

(** [if (x !== undefined) { ... }] *)
Definition if_defined {A : Type} (v : option A) (condition : Sql.Test)
           (value : A -> Sql.Param) (w : Where) : Where :=
  match v with
  | Some x => push condition (value x) w
  | None => w
  end.

Definition percent (text : string) : string := "%" ++ text ++ "%".

(** Add filters based on provided parameters. *)
Definition build_where (value : SearchQuery.t) : Where :=
  let w := {| whereConditions := []; queryParams := []; paramCount := 0 |} in
  let w := if_truthy (SearchQuery.city value) Sql.city_like
                     (fun city => Sql.PText (percent city)) w in
  let w := if_truthy (SearchQuery.state value) Sql.state_equals Sql.PText w in
  let w := if_truthy (SearchQuery.zip_code value) Sql.zip_equals Sql.PText w in
  let w := if_defined (SearchQuery.min_rent value)
                      (Sql.at_least Sql.col_rent_amount) Sql.PNumber w in
  let w := if_defined (SearchQuery.max_rent value)
                      (Sql.at_most Sql.col_rent_amount) Sql.PNumber w in
  let w := if_defined (SearchQuery.min_bedrooms value)
                      (Sql.at_least Sql.col_bedrooms) Sql.PNumber w in
  let w := if_defined (SearchQuery.max_bedrooms value)
                      (Sql.at_most Sql.col_bedrooms) Sql.PNumber w in
  let w := if_defined (SearchQuery.min_bathrooms value)
                      (Sql.at_least Sql.col_bathrooms) Sql.PNumber w in
  let w := if_defined (SearchQuery.max_bathrooms value)
                      (Sql.at_most Sql.col_bathrooms) Sql.PNumber w in
  let w := if_defined (SearchQuery.min_sqft value)
                      (Sql.at_least Sql.col_square_feet) Sql.PNumber w in
  let w := if_defined (SearchQuery.max_sqft value)
                      (Sql.at_most Sql.col_square_feet) Sql.PNumber w in
  if_defined (SearchQuery.landlord_verified value) Sql.verified_equals Sql.PBool w.

(** Build ORDER BY clause. *)
Definition orderClause (sort_by : string) : Sql.OrderClause :=
  if String.eqb sort_by "rent_asc" then Sql.rent_amount_ASC_NULLS_LAST
  else if String.eqb sort_by "rent_desc" then Sql.rent_amount_DESC_NULLS_LAST
  else if String.eqb sort_by "oldest" then Sql.created_at_ASC
  else if String.eqb sort_by "sqft_asc" then Sql.square_feet_ASC_NULLS_LAST
  else if String.eqb sort_by "sqft_desc" then Sql.square_feet_DESC_NULLS_LAST
  else Sql.created_at_DESC.

Definition or_default {A : Type} (d : A) (v : option A) : A :=
  match v with Some x => x | None => d end.

(** [queryParams.slice(0, -2)] *)
Definition without_last_two {A : Type} (l : list A) : list A :=
  firstn (List.length l - 2) l.

(** [min || max ? { min, max } : null] *)
Definition range_if_truthy (lo hi : option Q) : option Response.Range :=
  let truthy (v : option Q) :=
    match v with Some q => Js.truthy_number (Js.Num q) | None => false end in
  if truthy lo || truthy hi
  then Some {| Response.min := lo; Response.max := hi |} else None.

(** [min !== undefined || max !== undefined ? { min, max } : null] *)
Definition range_if_defined (lo hi : option Q) : option Response.Range :=
  match lo, hi with
  | None, None => None
  | _, _ => Some {| Response.min := lo; Response.max := hi |}
  end.

(** Pagination metadata from the count, the limit and the offset. *)
Definition pagination (totalCount : Js.number) (limit offset : Q)
  : Response.Pagination :=
  let totalPages := Js.ceil (Js.div totalCount (Js.Num limit)) in
  let currentPage := Js.plus (Js.floor (Js.div (Js.Num offset) (Js.Num limit))) 1 in
  {| Response.total_count := totalCount;
     Response.total_pages := totalPages;
     Response.current_page := currentPage;
     Response.limit := limit;
     Response.offset := offset;
     Response.has_next := Js.lt currentPage totalPages;
     Response.has_previous := Js.gt currentPage (Js.Num 1) |}.

(** GET /properties - Search properties with filtering *)
Definition search_properties (query_string : SearchQuery.t) : Async.t Response.t :=
  try_catch
    match searchPropertiesSchema query_string with
    | inl error =>
        Return (Response.json 400
          (Response.invalid "Invalid search parameters" [error]))
    | inr value =>
        let sort_by := or_default "newest" (SearchQuery.sort_by value) in
        let limit := or_default 20%Q (SearchQuery.limit value) in
        let offset := or_default 0%Q (SearchQuery.offset value) in
        let w := build_where value in
        (* Add pagination parameters *)
        let limitParam := S (paramCount w) in
        let offsetParam := S limitParam in
        let queryParams :=
          (queryParams w ++ [Sql.PNumber limit] ++ [Sql.PNumber offset])%list in
        let searchQuery :=
          Sql.search (whereConditions w) (orderClause sort_by)
                     limitParam offsetParam queryParams in
        let countQuery :=
          Sql.count (whereConditions w) (without_last_two queryParams) in
        await results := query_all searchQuery countQuery in
        let '(properties, countResult) := results in
        match countResult with
        | [] => Throw TypeError
        | row :: _ =>
            let totalCount := Js.parseInt (Sql.total row) in
            Return (Response.json 200
              (Response.listing properties
                 (pagination totalCount limit offset)
                 {| Response.city := SearchQuery.city value;
                    Response.state := SearchQuery.state value;
                    Response.zip_code := SearchQuery.zip_code value;
                    Response.rent_range :=
                      range_if_truthy (SearchQuery.min_rent value)
                                      (SearchQuery.max_rent value);
                    Response.bedrooms_range :=
                      range_if_defined (SearchQuery.min_bedrooms value)
                                       (SearchQuery.max_bedrooms value);
                    Response.bathrooms_range :=
                      range_if_truthy (SearchQuery.min_bathrooms value)
                                      (SearchQuery.max_bathrooms value);
                    Response.sqft_range :=
                      range_if_truthy (SearchQuery.min_sqft value)
                                      (SearchQuery.max_sqft value);
                    Response.landlord_verified := SearchQuery.landlord_verified value;
                    Response.sort_by := sort_by |}))
        end
    end
    (fun error =>
       Return (Response.json 500
         (Response.failed "Internal server error" "Failed to search properties")))%string.

(** [text ? f(parseFloat(text)) : null] *)
Definition if_present (text : option string) (f : Js.number -> Js.number)
  : option Js.number :=
  match text with
  | Some t => if Js.truthy_string t then Some (f (Js.parseFloat t)) else None
  | None => None
  end.

(** [Math.round(x)], for the double [x] is held as. *)
Definition round_to_whole (x : Js.number) : Js.number := Js.round (Js.double x).

(** [Math.round(x * 10) / 10], the product being one of doubles; the
    quotient is the double that prints as the decimal kept here. *)
Definition round_to_tenth (x : Js.number) : Js.number :=
  Js.div (Js.round (Js.product (Js.double x) 10)) (Js.Num 10).

(** The statistics object of the aggregate row.  The rate is computed on
    doubles: the quotient is rounded before it is multiplied, so that 23
    verified listings of 40 give 57.49999999999999 and a rate of 57. *)
Definition statistics_of (stats : Sql.StatsRow) : Response.Statistics :=
  {| Response.total_properties := Js.parseInt (Sql.total_properties stats);
     Response.verified_properties := Js.parseInt (Sql.verified_properties stats);
     Response.verification_rate :=
       if Js.gt (Js.to_number (Sql.total_properties stats)) (Js.Num 0)
       then Js.round (Js.product
              (Js.quotient (Js.to_number (Sql.verified_properties stats))
                           (Js.to_number (Sql.total_properties stats))) 100)
       else Js.Num 0;
     Response.average := if_present (Sql.avg_rent stats) round_to_whole;
     Response.minimum := if_present (Sql.min_rent stats) (fun x => x);
     Response.maximum := if_present (Sql.max_rent stats) (fun x => x);
     Response.avg_bedrooms := if_present (Sql.avg_bedrooms stats) round_to_tenth;
     Response.avg_bathrooms := if_present (Sql.avg_bathrooms stats) round_to_tenth;
     Response.avg_square_feet := if_present (Sql.avg_sqft stats) round_to_whole;
     Response.cities := Js.parseInt (Sql.cities_count stats);
     Response.states := Js.parseInt (Sql.states_count stats) |}.

(** GET /properties/stats - Get property statistics *)
Definition property_stats : Async.t Response.t :=
  try_catch
    (await rows := query Sql.statistics in
     match rows with
     | [] => Throw TypeError
     | stats :: _ =>
         Return (Response.json 200 (Response.statistics (statistics_of stats)))
     end)
    (fun error =>
       Return (Response.json 500
         (Response.failed "Internal server error"
            "Failed to fetch property statistics")))%string.

End Handlers.

(** ** Routing *)

Module Express.

Inductive Method : Type := GET | POST.

Definition same_method (a b : Method) : bool :=
  match a, b with
  | GET, GET | POST, POST => true
  | _, _ => false
  end.

(** A request: method, path without the query string, parsed query and
    parsed JSON body. *)
Record Request : Type := {
  method : Method;
  path : string;
  query : SearchQuery.t;
  body : CreateBody.t
}.

(** The pieces of a text between occurrences of a separator. *)
Fixpoint split (sep : ascii) (s : string) : list string :=
  match s with
  | EmptyString => [EmptyString]
  | String c s' =>
      if Ascii.eqb c sep then EmptyString :: split sep s'
      else
        match split sep s' with
        | piece :: pieces => String c piece :: pieces
        | [] => [String c EmptyString]
        end
  end.

(** The segments of a path: it starts with a slash, and one trailing
    slash is ignored (routing is not strict). *)
Definition segments (p : string) : option (list string) :=
  match split "/" p with
  | EmptyString :: pieces =>
      match List.rev pieces with
      | EmptyString :: front => Some (List.rev front)
      | _ => Some pieces
      end
  | _ => None
  end.

(** Matching a route path against the segments of a request path: a
    segment [:name] of the route takes any non-empty segment, any other
    has to be the same text, letter case apart. *)
Fixpoint match_path (route : list string) (request : list string)
  : option (list (string * string)) :=
  match route, request with
  | [], [] => Some []
  | String ":" name :: route', x :: request' =>
      if String.eqb x EmptyString then None
      else option_map (cons (name, x)) (match_path route' request')
  | literal :: route', x :: request' =>
      if String.eqb (Sql.lower_text literal) (Sql.lower_text x)
      then match_path route' request' else None
  | _, _ => None
  end.

(** The handlers, named after what they serve. *)
Inductive Endpoint : Type :=
| health
| root
| test
| setup_database
| create_property
| get_property
| search_properties
| property_stats.

(** The routes in the order the application registers them. *)
Definition routes : list (Method * string * Endpoint) :=
  [ (GET, "/health", health);
    (GET, "/", root);
    (GET, "/test", test);
    (GET, "/setup-database", setup_database);
    (POST, "/properties", create_property);
    (GET, "/properties/:id", get_property);
    (GET, "/properties", search_properties);
    (GET, "/properties/stats", property_stats) ].

(** The first registered route that matches, with [req.params]. *)
Fixpoint first_match (table : list (Method * string * Endpoint)) (req : Request)
  : option (Endpoint * list (string * string)) :=
  match table with
  | [] => None
  | (m, route, endpoint) :: table' =>
      match
        (if same_method m (method req) then
           match segments route, segments (path req) with
           | Some r, Some p => match_path r p
           | _, _ => None
           end
         else None)
      with
      | Some params => Some (endpoint, params)
      | None => first_match table' req
      end
  end.

Definition route (req : Request) : option (Endpoint * list (string * string)) :=
  first_match routes req.

Definition param (name : string) (params : list (string * string)) : string :=
  match List.find (fun p => String.eqb (fst p) name) params with
  | Some (_, v) => v
  | None => EmptyString
  end.

Definition handler (endpoint : Endpoint) (params : list (string * string))
           (req : Request) : Async.t Response.t :=
  match endpoint with
  | health => Handlers.health
  | root => Handlers.root
  | test => Handlers.test
  | setup_database => Handlers.setup_database
  | create_property => Handlers.create_property (body req)
  | get_property => Handlers.get_property (param "id" params)
  | search_properties => Handlers.search_properties (query req)
  | property_stats => Handlers.property_stats
  end.

(** The application: the matched handler, or the default 404. *)
Definition app (req : Request) : Async.t Response.t :=
  match route req with
  | Some (endpoint, params) => handler endpoint params req
  | None => Async.Return (Response.json 404 (Response.info "Not Found"))
  end.

End Express.

(** ** Sample data *)

Module Sample.

Definition no_query : SearchQuery.t :=
  {| SearchQuery.city := None; SearchQuery.state := None;
     SearchQuery.zip_code := None;
     SearchQuery.min_rent := None; SearchQuery.max_rent := None;
     SearchQuery.min_bedrooms := None; SearchQuery.max_bedrooms := None;
     SearchQuery.min_bathrooms := None; SearchQuery.max_bathrooms := None;
     SearchQuery.min_sqft := None; SearchQuery.max_sqft := None;
     SearchQuery.landlord_verified := None; SearchQuery.sort_by := None;
     SearchQuery.limit := None; SearchQuery.offset := None;
     SearchQuery.other_keys := [] |}.

Definition no_body : CreateBody.t :=
  {| CreateBody.address := None; CreateBody.city := None;
     CreateBody.state := None; CreateBody.zip_code := None;
     CreateBody.rent_amount := None; CreateBody.bedrooms := None;
     CreateBody.bathrooms := None; CreateBody.square_feet := None;
     CreateBody.description := None; CreateBody.landlord_id := None;
     CreateBody.other_keys := [] |}.

Definition get (p : string) : Express.Request :=
  {| Express.method := Express.GET; Express.path := p;
     Express.query := no_query; Express.body := no_body |}.

(** The example of the specification: 123 Main St, Austin, for user 5. *)
Definition main_street (landlord : Q) : CreateBody.t :=
  {| CreateBody.address := Some "123 Main St"; CreateBody.city := Some "Austin";
     CreateBody.state := Some "TX"; CreateBody.zip_code := Some "78701";
     CreateBody.rent_amount := None; CreateBody.bedrooms := None;
     CreateBody.bathrooms := None; CreateBody.square_feet := None;
     CreateBody.description := None; CreateBody.landlord_id := Some landlord;
     CreateBody.other_keys := [] |}.

Definition MAIN_STREET (landlord : Q) : CreateBody.t :=
  {| CreateBody.address := Some "123 MAIN ST"; CreateBody.city := Some "Austin";
     CreateBody.state := Some "TX"; CreateBody.zip_code := Some "78701";
     CreateBody.rent_amount := Some 1500%Q; CreateBody.bedrooms := Some 2%Q;
     CreateBody.bathrooms := Some (3 # 2); CreateBody.square_feet := None;
     CreateBody.description := None; CreateBody.landlord_id := Some landlord;
     CreateBody.other_keys := [] |}.

Definition person (r : string) : User :=
  {| role := r; first_name := "Ada"; last_name := "Lovelace";
     email := "ada@example.org" |}.

(** User 5 is a landlord, user 6 a tenant; no property yet. *)
Definition store : Store :=
  {| users := {[ 5 := person "landlord"; 6 := person "tenant" ]};
     properties := [];
     next_id := 1;
     now := 1000 |}.

(** The example of the specification:
    GET /properties?min_bedrooms=2&sort_by=rent_asc&limit=10, against
    four listings of user 5. *)
Definition two_bedrooms : SearchQuery.t :=
  {| SearchQuery.city := None; SearchQuery.state := None;
     SearchQuery.zip_code := None;
     SearchQuery.min_rent := None; SearchQuery.max_rent := None;
     SearchQuery.min_bedrooms := Some 2%Q; SearchQuery.max_bedrooms := None;
     SearchQuery.min_bathrooms := None; SearchQuery.max_bathrooms := None;
     SearchQuery.min_sqft := None; SearchQuery.max_sqft := None;
     SearchQuery.landlord_verified := None; SearchQuery.sort_by := Some "rent_asc";
     SearchQuery.limit := Some 10%Q; SearchQuery.offset := None;
     SearchQuery.other_keys := [] |}.

Definition oak_street (i : Z) (street : string) (rent : option Q) (beds : Z) : Property :=
  {| id := i; address := street; city := "Austin"; state := "TX";
     zip_code := "78701"; rent_amount := rent; bedrooms := Some beds;
     bathrooms := None; square_feet := None; description := None;
     landlord_id := Some 5; landlord_verified := Some false;
     created_at := 1000 + i; updated_at := 1000 + i |}.

Definition listed : Store :=
  {| users := users store;
     properties := [ oak_street 1 "1 Oak St" (Some 2000%Q) 3;
                     oak_street 2 "2 Oak St" (Some 900%Q) 1;
                     oak_street 3 "3 Oak St" None 2;
                     oak_street 4 "4 Oak St" (Some 1500%Q) 2 ];
     next_id := 5; now := 2000 |}.

Definition main_street_value (landlord : Q) : Sql.NewProperty :=
  {| Sql.new_address := "123 Main St"; Sql.new_city := "Austin";
     Sql.new_state := "TX"; Sql.new_zip_code := "78701";
     Sql.new_rent_amount := None; Sql.new_bedrooms := None;
     Sql.new_bathrooms := None; Sql.new_square_feet := None;
     Sql.new_description := None; Sql.new_landlord_id := landlord |}.

(** The race the mapping is for: user 5 is deleted after the landlord
    check and before the insert; the store refuses the insert with a
    foreign-key violation and the request is answered 400. *)
Definition landlord_deleted : list World.Tick :=
  [ World.quiet; World.quiet;
    {| World.before := fun s =>
         {| users := delete 5 (users s); properties := properties s;
            next_id := next_id s; now := now s |};
       World.failure := None |} ].

(** GET /properties?min_bathrooms=a, and a store whose one listing has
    1.4 bathrooms. *)
Definition bathrooms_from (a : Q) : SearchQuery.t :=
  {| SearchQuery.city := None; SearchQuery.state := None;
     SearchQuery.zip_code := None;
     SearchQuery.min_rent := None; SearchQuery.max_rent := None;
     SearchQuery.min_bedrooms := None; SearchQuery.max_bedrooms := None;
     SearchQuery.min_bathrooms := Some a; SearchQuery.max_bathrooms := None;
     SearchQuery.min_sqft := None; SearchQuery.max_sqft := None;
     SearchQuery.landlord_verified := None; SearchQuery.sort_by := None;
     SearchQuery.limit := None; SearchQuery.offset := None;
     SearchQuery.other_keys := [] |}.

Definition loft : Property :=
  {| id := 1; address := "9 Pine St"; city := "Austin"; state := "TX";
     zip_code := "78701"; rent_amount := Some 1800%Q; bedrooms := Some 1;
     bathrooms := Some (14 # 10); square_feet := None; description := None;
     landlord_id := Some 5; landlord_verified := Some false;
     created_at := 1000; updated_at := 1000 |}.

Definition lofts : Store :=
  {| users := users store; properties := [loft]; next_id := 2; now := 1000 |}.

(** Two studios, at 900 and at 1100, without a square-feet value. *)
Definition studio (i : Z) (rent : Q) : Property :=
  {| id := i; address := "1 Elm St"; city := "Austin"; state := "TX";
     zip_code := "78701"; rent_amount := Some rent; bedrooms := Some 0;
     bathrooms := Some 1%Q; square_feet := None; description := None;
     landlord_id := Some 5; landlord_verified := Some false;
     created_at := 1000; updated_at := 1000 |}.

Definition studios : Store :=
  {| users := users store;
     properties := [studio 1 900; studio 2 1100];
     next_id := 3; now := 1000 |}.

End Sample.

(** * Vocabulary of the properties

    The notions the statements below are written in: what the
    specification means by a numeric string, a supplied filter, a page
    count, a reachable state. *)

(** ** Texts and responses *)

(** The first character of a number's text is a digit, and so is its
    second one when there is one. *)
Definition starts_with_digits (s : string) : Prop :=
  match s with
  | String c EmptyString => exists d, Js.digit_of c = Some d
  | String c (String c' _) =>
      (exists d, Js.digit_of c = Some d) /\ (exists d, Js.digit_of c' = Some d)
  | EmptyString => False
  end.

(** A numeric string, in the words of the specification: one or more
    decimal digits and nothing else. *)
Fixpoint all_digits (s : string) : bool :=
  match s with
  | EmptyString => true
  | String c s' => Joi.is_digit c && all_digits s'
  end.

Definition numeric_string (s : string) : bool :=
  match s with
  | EmptyString => false
  | String _ _ => all_digits s
  end.

(** The answer of GET /properties/:id to a parameter that is no number. *)
Definition invalid_property_id : Response.t :=
  Response.json 400
    (Response.failed "Invalid property ID" "Property ID must be a number").

(** ** Validation outcomes *)

Module Ranges.

Import SearchQuery.

Definition accepted (q : SearchQuery.t) : bool :=
  match searchPropertiesSchema q with
  | inr _ => true
  | inl _ => false
  end.

(** The request with one key replaced. *)
Definition with_max_rent (v : option Q) (q : t) : t :=
  {| city := city q; state := state q; zip_code := zip_code q;
     min_rent := min_rent q; max_rent := v;
     min_bedrooms := min_bedrooms q; max_bedrooms := max_bedrooms q;
     min_bathrooms := min_bathrooms q; max_bathrooms := max_bathrooms q;
     min_sqft := min_sqft q; max_sqft := max_sqft q;
     landlord_verified := landlord_verified q; sort_by := sort_by q;
     limit := limit q; offset := offset q; other_keys := other_keys q |}.

Definition with_max_bedrooms (v : option Q) (q : t) : t :=
  {| city := city q; state := state q; zip_code := zip_code q;
     min_rent := min_rent q; max_rent := max_rent q;
     min_bedrooms := min_bedrooms q; max_bedrooms := v;
     min_bathrooms := min_bathrooms q; max_bathrooms := max_bathrooms q;
     min_sqft := min_sqft q; max_sqft := max_sqft q;
     landlord_verified := landlord_verified q; sort_by := sort_by q;
     limit := limit q; offset := offset q; other_keys := other_keys q |}.

Definition with_max_bathrooms (v : option Q) (q : t) : t :=
  {| city := city q; state := state q; zip_code := zip_code q;
     min_rent := min_rent q; max_rent := max_rent q;
     min_bedrooms := min_bedrooms q; max_bedrooms := max_bedrooms q;
     min_bathrooms := min_bathrooms q; max_bathrooms := v;
     min_sqft := min_sqft q; max_sqft := max_sqft q;
     landlord_verified := landlord_verified q; sort_by := sort_by q;
     limit := limit q; offset := offset q; other_keys := other_keys q |}.

Definition with_max_sqft (v : option Q) (q : t) : t :=
  {| city := city q; state := state q; zip_code := zip_code q;
     min_rent := min_rent q; max_rent := max_rent q;
     min_bedrooms := min_bedrooms q; max_bedrooms := max_bedrooms q;
     min_bathrooms := min_bathrooms q; max_bathrooms := max_bathrooms q;
     min_sqft := min_sqft q; max_sqft := v;
     landlord_verified := landlord_verified q; sort_by := sort_by q;
     limit := limit q; offset := offset q; other_keys := other_keys q |}.

(** Requests that name only one range. *)
Definition rent_between (a b : Q) : t :=
  with_max_rent (Some b)
    {| city := None; state := None; zip_code := None;
       min_rent := Some a; max_rent := None;
       min_bedrooms := None; max_bedrooms := None;
       min_bathrooms := None; max_bathrooms := None;
       min_sqft := None; max_sqft := None;
       landlord_verified := None; sort_by := None;
       limit := None; offset := None; other_keys := [] |}.

Definition bathrooms_between (a b : Q) : t :=
  with_max_bathrooms (Some b)
    {| city := None; state := None; zip_code := None;
       min_rent := None; max_rent := None;
       min_bedrooms := None; max_bedrooms := None;
       min_bathrooms := Some a; max_bathrooms := None;
       min_sqft := None; max_sqft := None;
       landlord_verified := None; sort_by := None;
       limit := None; offset := None; other_keys := [] |}.

End Ranges.

(** Whether a key passed validation. *)
Definition ok {A : Type} (v : Joi.ValidationError + A) : bool :=
  match v with inr _ => true | inl _ => false end.

(** Whether a value breaks none of a chain of rules. *)
Definition unbroken {A : Type} (rules : list (Joi.Rule A)) (x : A) : bool :=
  match Joi.first_failure rules x with None => true | Some _ => false end.

(** ** The search filter *)

Module Filter.

(** A parameter that was not supplied imposes nothing. *)
Definition supplied {A : Type} (o : option A) (f : A -> bool) : bool :=
  match o with
  | Some x => f x
  | None => true
  end.

(** A column against a bound; a NULL column meets no bound. *)
Definition not_below (column : option Q) (bound : Q) : bool :=
  match column with Some x => Qle_bool bound x | None => false end.

Definition not_above (column : option Q) (bound : Q) : bool :=
  match column with Some x => Qle_bool x bound | None => false end.

Definition integer_column (column : option Z) : option Q :=
  option_map inject_Z column.

(** The filter of the specification: the conjunction of the conditions of
    the parameters that were supplied, on a property [p]. *)
Definition satisfies (v : SearchQuery.t) (r : Joined) : bool :=
  let p := prop r in
  supplied (SearchQuery.city v)
    (fun c => Sql.LIKE (Sql.LOWER (city p)) (Sql.LOWER ("%" ++ c ++ "%"))) &&
  supplied (SearchQuery.state v)
    (fun x => String.eqb (Sql.LOWER (state p)) (Sql.LOWER x)) &&
  supplied (SearchQuery.zip_code v) (fun z => String.eqb (zip_code p) z) &&
  supplied (SearchQuery.min_rent v) (not_below (rent_amount p)) &&
  supplied (SearchQuery.max_rent v) (not_above (rent_amount p)) &&
  supplied (SearchQuery.min_bedrooms v) (not_below (integer_column (bedrooms p))) &&
  supplied (SearchQuery.max_bedrooms v) (not_above (integer_column (bedrooms p))) &&
  supplied (SearchQuery.min_bathrooms v) (not_below (bathrooms p)) &&
  supplied (SearchQuery.max_bathrooms v) (not_above (bathrooms p)) &&
  supplied (SearchQuery.min_sqft v) (not_below (integer_column (square_feet p))) &&
  supplied (SearchQuery.max_sqft v) (not_above (integer_column (square_feet p))) &&
  supplied (SearchQuery.landlord_verified v)
    (fun b => match landlord_verified p with
              | Some x => Bool.eqb x b
              | None => false
              end).

(** The comparisons of the parameters that were supplied, in the order
    the handler looks at them. *)
Definition asks {A : Type} (o : option A) (t : Sql.Test) : list Sql.Test :=
  match o with
  | Some _ => [t]
  | None => []
  end.

Definition supplied_tests (v : SearchQuery.t) : list Sql.Test :=
  asks (SearchQuery.city v) Sql.city_like ++
  asks (SearchQuery.state v) Sql.state_equals ++
  asks (SearchQuery.zip_code v) Sql.zip_equals ++
  asks (SearchQuery.min_rent v) (Sql.at_least Sql.col_rent_amount) ++
  asks (SearchQuery.max_rent v) (Sql.at_most Sql.col_rent_amount) ++
  asks (SearchQuery.min_bedrooms v) (Sql.at_least Sql.col_bedrooms) ++
  asks (SearchQuery.max_bedrooms v) (Sql.at_most Sql.col_bedrooms) ++
  asks (SearchQuery.min_bathrooms v) (Sql.at_least Sql.col_bathrooms) ++
  asks (SearchQuery.max_bathrooms v) (Sql.at_most Sql.col_bathrooms) ++
  asks (SearchQuery.min_sqft v) (Sql.at_least Sql.col_square_feet) ++
  asks (SearchQuery.max_sqft v) (Sql.at_most Sql.col_square_feet) ++
  asks (SearchQuery.landlord_verified v) Sql.verified_equals.

(** The same listing with another rent. *)
Definition with_rent (rent : option Q) (r : Joined) : Joined :=
  let p := prop r in
  {| prop :=
       {| id := id p; address := address p; city := city p; state := state p;
          zip_code := zip_code p; rent_amount := rent; bedrooms := bedrooms p;
          bathrooms := bathrooms p; square_feet := square_feet p;
          description := description p; landlord_id := landlord_id p;
          landlord_verified := landlord_verified p;
          created_at := created_at p; updated_at := updated_at p |};
     landlord_first_name := landlord_first_name r;
     landlord_last_name := landlord_last_name r;
     landlord_email := landlord_email r |}.

(** What validation guarantees of the value it returns. *)
Definition truthy (o : option string) : Prop :=
  forall text, o = Some text -> Js.truthy_string text = true.

Definition whole_number (lo : Q) (o : option Q) : Prop :=
  exists x, o = Some x /\
            Qeq_bool x (inject_Z (Qfloor x)) = true /\ Qle_bool lo x = true.

Record validated (v : SearchQuery.t) : Prop := {
  city_truthy : truthy (SearchQuery.city v);
  state_truthy : truthy (SearchQuery.state v);
  zip_code_truthy : truthy (SearchQuery.zip_code v);
  limit_whole : whole_number 1 (SearchQuery.limit v);
  limit_at_most : forall x, SearchQuery.limit v = Some x -> Qle_bool x 100 = true;
  offset_whole : whole_number 0 (SearchQuery.offset v)
}.

(** The value validation returns: each key as it was supplied, the
    bathroom bounds rounded to one decimal place, limit and offset
    defaulted. *)
Definition converted (q : SearchQuery.t) : SearchQuery.t :=
  {| SearchQuery.city := SearchQuery.city q;
     SearchQuery.state := SearchQuery.state q;
     SearchQuery.zip_code := SearchQuery.zip_code q;
     SearchQuery.min_rent := SearchQuery.min_rent q;
     SearchQuery.max_rent := SearchQuery.max_rent q;
     SearchQuery.min_bedrooms := SearchQuery.min_bedrooms q;
     SearchQuery.max_bedrooms := SearchQuery.max_bedrooms q;
     SearchQuery.min_bathrooms := option_map (Joi.precision 1) (SearchQuery.min_bathrooms q);
     SearchQuery.max_bathrooms := option_map (Joi.precision 1) (SearchQuery.max_bathrooms q);
     SearchQuery.min_sqft := SearchQuery.min_sqft q;
     SearchQuery.max_sqft := SearchQuery.max_sqft q;
     SearchQuery.landlord_verified := SearchQuery.landlord_verified q;
     SearchQuery.sort_by := SearchQuery.sort_by q;
     SearchQuery.limit := Some (Handlers.or_default 20%Q (SearchQuery.limit q));
     SearchQuery.offset := Some (Handlers.or_default 0%Q (SearchQuery.offset q));
     SearchQuery.other_keys := [] |}.

(** A bound that [precision(1)] leaves as it is: a number with at most one
    decimal place. *)
Definition one_decimal (o : option Q) : Prop :=
  forall x, o = Some x -> Joi.precision 1 x == x.

End Filter.

Section SearchVocabulary.

Import Handlers Filter.

(** The builder keeps conditions, values and the counter in step: the
    n-th condition refers to placeholder n, which is the n-th value. *)
Definition in_step (w : Where) : Prop :=
  paramCount w = List.length (queryParams w) /\
  map Sql.placeholder (whereConditions w) = seq 1 (paramCount w).

Definition meaning (w : Where) (r : Joined) : bool :=
  Db.where_ (whereConditions w) (queryParams w) r.

(** The rows that match, the page of them the search returns, and their
    number as the count query reports it. *)
Definition matching (v : SearchQuery.t) (s : Store) : list Joined :=
  List.filter (satisfies v) (Db.joined s).

Definition page (o : Sql.OrderClause) (limit offset : Q) (rows : list Joined)
  : list Joined :=
  firstn (Z.to_nat (Qfloor limit))
         (skipn (Z.to_nat (Qfloor offset)) (Db.order_by o rows)).

(** [ceil(total / limit)] and [floor(offset / limit)] on integers. *)
Definition ceil_div (total limit : Z) : Z := - ((- total) / limit).

Definition floor_div (offset limit : Z) : Z := offset / limit.

End SearchVocabulary.

(** ** Creating a property *)

Section CreateVocabulary.

Import Handlers.

(** A body that stops at the first query the store fails, throwing the
    store's error. *)
Inductive fail_stop {A : Type} : Async.t A -> Prop :=
| stop_return (a : A) : fail_stop (Async.Return a)
| stop_throw (e : Async.Exception) : fail_stop (Async.Throw e)
| stop_await {R : Type} (q : Sql.Query R) (k : Sql.Result R -> Async.t A) :
    (forall e, k (Sql.Failed e) = Async.Throw (Async.rejection e)) ->
    (forall rows, fail_stop (k (Sql.Rows rows))) ->
    fail_stop (Async.Await q k).

(** The error responses of the create handler. *)
Definition invalid_landlord_id : Response.t :=
  Response.json 400
    (Response.failed "Invalid landlord_id" "The specified landlord does not exist").

Definition create_failed : Response.t :=
  Response.json 500
    (Response.failed "Internal server error" "Failed to create property").

(** The rows the duplicate check finds. *)
Definition duplicates (value : Sql.NewProperty) (s : Store) : list Property :=
  List.filter
    (fun p => String.eqb (Sql.LOWER (address p)) (Sql.LOWER (Sql.new_address value)) &&
              String.eqb (zip_code p) (Sql.new_zip_code value))
    (properties s).

Definition landlord_not_found : Response.t :=
  Response.json 404
    (Response.failed "Landlord not found" "The specified landlord_id does not exist").

Definition invalid_user_role : Response.t :=
  Response.json 403
    (Response.failed "Invalid user role"
       "Only users with landlord role can create properties").

Definition already_exists (existing : Z) : Response.t :=
  Response.json 409
    (Response.conflict "Property already exists"
       "A property with this address and zip code already exists" existing).

(** The first two queries of the create handler, answered without error. *)
Definition lookup (value : Sql.NewProperty) : World.Issued :=
  World.issued (Sql.select_user (Sql.new_landlord_id value)) None.

(** The landlord lookup the store refuses: the id is beyond its INTEGERs. *)
Definition lookup_refused (value : Sql.NewProperty) : World.Issued :=
  World.issued (Sql.select_user (Sql.new_landlord_id value))
               (Some Pg.numeric_value_out_of_range).

Definition duplicate_check (value : Sql.NewProperty) : World.Issued :=
  World.issued (Sql.select_duplicate (Sql.new_address value)
                                     (Sql.new_zip_code value)) None.

(** What tells listings apart: address and zip code, letter case apart. *)
Definition listing_key (address zip_code : string) : string * string :=
  (Sql.LOWER address, Sql.LOWER zip_code).

Definition key_of (p : Property) : string * string :=
  listing_key (address p) (zip_code p).

(** No two rows share a key, and every zip code has the validated format. *)
Definition distinct_listings (s : Store) : Prop :=
  List.NoDup (map key_of (properties s)) /\
  Forall (fun p => Joi.zip_format (zip_code p) = true) (properties s).

(** The store a run leaves. *)
Definition store_after {A : Type} (outcome : A * Store * list World.Issued) : Store :=
  snd (fst outcome).

(** The states the create endpoint reaches when requests are handled one
    at a time, starting without properties; the users table and the
    clock, which the service does not own, may change in between. *)
Inductive reachable : Store -> Prop :=
| reach_empty (s : Store) : properties s = [] -> reachable s
| reach_create (s : Store) (body : CreateBody.t) :
    reachable s ->
    reachable (store_after (World.run (create_property body) [] s))
| reach_elsewhere (s : Store) (users' : gmap Z User) (now' : Z) :
    reachable s ->
    reachable {| users := users'; properties := properties s;
                 next_id := next_id s; now := now' |}.

(** A handler that has settled: what it returned or threw. *)
Definition settled {A : Type} (out : Async.Exception + A) : Async.t A :=
  match out with
  | inl e => Async.Throw e
  | inr a => Async.Return a
  end.

End CreateVocabulary.

(** ** Statistics *)

(** The value a [numeric] text of scale [scale] denotes. *)
Definition displayed (scale : nat) (q : Q) : Q :=
  Qred (Pg.numeric_units scale q # Z.to_pos (Js.pow10 scale)).

(** The listings the statistics are about, in the words of the
    specification: the rows whose rent_amount is not null. *)
Definition rented (s : Store) : list Property :=
  List.filter (fun p => match rent_amount p with Some _ => true | None => false end)
              (properties s).

Module Averages.

(** [Math.round(x)] and [Math.round(x * 10) / 10] on a finite number,
    as JavaScript computes them on doubles. *)
Definition whole (x : Q) : Q := inject_Z (Js.Math_round (Js.nearest_double x)).

Definition tenth (x : Q) : Q :=
  Qred (inject_Z (Js.Math_round
                    (Js.nearest_double (Qred (Js.nearest_double x * 10)))) / 10).

(** What the statistics report for a column: nothing when no row has a
    value, otherwise the rounded average, the average being read from the
    text PostgreSQL displays it with. *)
Definition reported (rounding : Q -> Q) (data : list (option Q))
  : option Js.number :=
  option_map (fun q => Js.Num (rounding (displayed Db.avg_scale q))) (Db.AVG data).

(** The underlying data of an average: the values the column has among
    the listings with a rent. *)
Definition values (column : Property -> option Q) (s : Store) : list Q :=
  flat_map (fun p => match column p with Some x => [x] | None => [] end) (rented s).

Definition mean (data : list Q) : Q :=
  fold_right Qplus 0%Q data / inject_Z (Z.of_nat (List.length data)).

(** What the specification asks of an average field: null exactly when
    the data is absent; otherwise the mean of the data, read with the
    sixteen decimal places it is displayed with and rounded; and 0, not
    null, when that mean is 0. *)
Definition null_safe (figure : option Js.number) (rounding : Q -> Q)
           (data : list Q) : Prop :=
  (figure = None <-> data = []) /\
  (data <> [] ->
   figure = Some (Js.Num (rounding (displayed 16 (mean data))))) /\
  (data <> [] -> mean data == 0 -> figure = Some (Js.Num 0)).

End Averages.

(** * Further vocabulary *)

From Stdlib Require Import Sorted Qpower Lqa.

(** ** Environments, outcomes and routes *)

(** An environment in which nobody else touches the store: the n-th query
    of the handler fails with the n-th error of the list, if there is
    one. *)
Definition failing (errors : list (option Pg.Error)) : list World.Tick :=
  map (fun e => {| World.before := fun s => s; World.failure := e |}) errors.

(** The handler answers, and with one of the given status codes. *)
Definition answers (m : Async.t Response.t) (ticks : list World.Tick)
           (s : Store) (codes : list Z) : Prop :=
  exists r s' log,
    World.run m ticks s = (inr r, s', log) /\ In (Response.status r) codes.

(** Every value a handler body can return satisfies [P]. *)
Inductive returns {A : Type} (P : A -> Prop) : Async.t A -> Prop :=
| returns_return (a : A) : P a -> returns P (Async.Return a)
| returns_throw (e : Async.Exception) : returns P (Async.Throw e)
| returns_await {R : Type} (q : Sql.Query R) (k : Sql.Result R -> Async.t A) :
    (forall r, returns P (k r)) -> returns P (Async.Await q k).

(** A statement that leaves the store as it is. *)
Definition reads {R : Type} (q : Sql.Query R) : Prop :=
  forall s, snd (Db.exec q s) = s.

(** A handler body that issues such statements only. *)
Inductive reads_only {A : Type} : Async.t A -> Prop :=
| reads_return (a : A) : reads_only (Async.Return a)
| reads_throw (e : Async.Exception) : reads_only (Async.Throw e)
| reads_await {R : Type} (q : Sql.Query R) (k : Sql.Result R -> Async.t A) :
    reads q -> (forall r, reads_only (k r)) -> reads_only (Async.Await q k).

(** A text in which a character does not occur. *)
Fixpoint without (c : ascii) (s : string) : bool :=
  match s with
  | EmptyString => true
  | String x s' => negb (Ascii.eqb x c) && without c s'
  end.

(** A text that can stand for [:id] in a path as it is: not empty, without
    a slash, and without a percent sign, so that decoding leaves it
    alone. *)
Definition path_segment (x : string) : bool :=
  negb (String.eqb x EmptyString) && without "/" x && without "%" x.

(** ** Bodies, rows and their bounds *)

Module Bounds.

(** A text that is not empty and whose length is within the bounds. *)
Definition text (lo hi : nat) (x : string) : bool :=
  negb (String.eqb x EmptyString) &&
  Nat.leb lo (String.length x) && Nat.leb (String.length x) hi.

Definition required {A : Type} (o : option A) (f : A -> bool) : bool :=
  match o with
  | Some x => f x
  | None => false
  end.

Definition whole (x : Q) : bool := Qeq_bool x (inject_Z (Qfloor x)).

(** The bounds of the create body, key by key; the bounds on the rent and
    on the bathrooms are those of the rounded value. *)
Definition create (body : CreateBody.t) : bool :=
  required (CreateBody.address body) (text 5 500) &&
  required (CreateBody.city body) (text 2 100) &&
  required (CreateBody.state body) (text 2 50) &&
  required (CreateBody.zip_code body) Joi.zip_format &&
  Filter.supplied (CreateBody.rent_amount body)
    (fun x => Joi.safe x && Joi.Qlt_bool 0 (Joi.precision 2 x) &&
              Qle_bool (Joi.precision 2 x) 50000) &&
  Filter.supplied (CreateBody.bedrooms body)
    (fun x => Joi.safe x && whole x && Qle_bool 0 x && Qle_bool x 20) &&
  Filter.supplied (CreateBody.bathrooms body)
    (fun x => Joi.safe x && Joi.Qlt_bool 0 (Joi.precision 1 x) &&
              Qle_bool (Joi.precision 1 x) 20) &&
  Filter.supplied (CreateBody.square_feet body)
    (fun x => Joi.safe x && whole x && Joi.Qlt_bool 0 x && Qle_bool x 50000) &&
  Filter.supplied (CreateBody.description body) (text 0 2000) &&
  required (CreateBody.landlord_id body) (fun x => Joi.safe x && whole x) &&
  match CreateBody.other_keys body with [] => true | _ :: _ => false end.

(** The bounds of the search query, key by key.  The bound of a range is
    compared with the validated lower bound, which has to be there: a
    reference to a key that is absent fails the rule. *)
Definition search (q : SearchQuery.t) : bool :=
  let p1 := Joi.precision 1 in
  Filter.supplied (SearchQuery.city q) (text 2 100) &&
  Filter.supplied (SearchQuery.state q) (text 2 50) &&
  Filter.supplied (SearchQuery.zip_code q) Joi.zip_format &&
  Filter.supplied (SearchQuery.min_rent q)
    (fun a => Joi.safe a && Joi.Qlt_bool 0 a && Qle_bool a 50000) &&
  Filter.supplied (SearchQuery.max_rent q)
    (fun b => Joi.safe b && Joi.Qlt_bool 0 b && Qle_bool b 50000 &&
              required (SearchQuery.min_rent q) (fun a => Joi.Qlt_bool a b)) &&
  Filter.supplied (SearchQuery.min_bedrooms q)
    (fun a => Joi.safe a && whole a && Qle_bool 0 a && Qle_bool a 20) &&
  Filter.supplied (SearchQuery.max_bedrooms q)
    (fun b => Joi.safe b && whole b && Qle_bool 0 b && Qle_bool b 20 &&
              required (SearchQuery.min_bedrooms q) (fun a => Qle_bool a b)) &&
  Filter.supplied (SearchQuery.min_bathrooms q)
    (fun a => Joi.safe a && Joi.Qlt_bool 0 (p1 a) && Qle_bool (p1 a) 20) &&
  Filter.supplied (SearchQuery.max_bathrooms q)
    (fun b => Joi.safe b && Joi.Qlt_bool 0 (p1 b) && Qle_bool (p1 b) 20 &&
              required (SearchQuery.min_bathrooms q)
                       (fun a => Qle_bool (p1 a) (p1 b))) &&
  Filter.supplied (SearchQuery.min_sqft q)
    (fun a => Joi.safe a && whole a && Joi.Qlt_bool 0 a && Qle_bool a 50000) &&
  Filter.supplied (SearchQuery.max_sqft q)
    (fun b => Joi.safe b && whole b && Joi.Qlt_bool 0 b && Qle_bool b 50000 &&
              required (SearchQuery.min_sqft q) (fun a => Qle_bool a b)) &&
  Filter.supplied (SearchQuery.sort_by q)
    (fun x => existsb (String.eqb x)
                ["rent_asc"; "rent_desc"; "newest"; "oldest"; "sqft_asc"; "sqft_desc"]) &&
  Filter.supplied (SearchQuery.limit q)
    (fun x => Joi.safe x && whole x && Qle_bool 1 x && Qle_bool x 100) &&
  Filter.supplied (SearchQuery.offset q)
    (fun x => Joi.safe x && whole x && Qle_bool 0 x) &&
  match SearchQuery.other_keys q with [] => true | _ :: _ => false end.

End Bounds.

(** The validated value holds the body's keys, the rent rounded to two
    decimal places and the bathrooms to one. *)
Definition described (body : CreateBody.t) (value : Sql.NewProperty) : Prop :=
  CreateBody.address body = Some (Sql.new_address value) /\
  CreateBody.city body = Some (Sql.new_city value) /\
  CreateBody.state body = Some (Sql.new_state value) /\
  CreateBody.zip_code body = Some (Sql.new_zip_code value) /\
  Sql.new_rent_amount value
  = option_map (Joi.precision 2) (CreateBody.rent_amount body) /\
  Sql.new_bedrooms value = CreateBody.bedrooms body /\
  Sql.new_bathrooms value
  = option_map (Joi.precision 1) (CreateBody.bathrooms body) /\
  Sql.new_square_feet value = CreateBody.square_feet body /\
  Sql.new_description value = CreateBody.description body /\
  CreateBody.landlord_id body = Some (Sql.new_landlord_id value).

(** The row of a validated value: the values as they are, the id from the
    sequence, unverified, both timestamps the time of the insert. *)
Definition row_of (s : Store) (value : Sql.NewProperty) : Property :=
  {| id := next_id s;
     address := Sql.new_address value;
     city := Sql.new_city value;
     state := Sql.new_state value;
     zip_code := Sql.new_zip_code value;
     rent_amount := Sql.new_rent_amount value;
     bedrooms := option_map Qfloor (Sql.new_bedrooms value);
     bathrooms := Sql.new_bathrooms value;
     square_feet := option_map Qfloor (Sql.new_square_feet value);
     description := Sql.new_description value;
     landlord_id := Some (Qfloor (Sql.new_landlord_id value));
     landlord_verified := Some false;
     created_at := now s;
     updated_at := now s |}.

(** The store with one more row. *)
Definition with_row (s : Store) (row : Property) : Store :=
  {| users := users s; properties := properties s ++ [row];
     next_id := next_id s + 1; now := now s |}.

(** The three queries of a create request that inserts. *)
Definition creation_log (value : Sql.NewProperty) : list World.Issued :=
  [ lookup value; duplicate_check value;
    World.issued (Sql.insert_property value) None ].

(** The values of an [INTEGER] column.  The store refuses a parameter
    beyond them where it expects one; statements about the answer to an
    id are made for ids within the range. *)
Definition int4 (i : Z) : Prop := - 2 ^ 31 <= i < 2 ^ 31.

(** The sequence behind [id] is ahead of every id in the table. *)
Definition sequence_ahead (s : Store) : Prop :=
  0 <= next_id s /\ Forall (fun p => id p < next_id s) (properties s).

Definition property_not_found : Response.t :=
  Response.json 404
    (Response.failed "Property not found" "No property found with the specified ID").

(** A property with the display fields of a user. *)
Definition with_landlord (p : Property) (u : User) : Joined :=
  {| prop := p;
     landlord_first_name := first_name u;
     landlord_last_name := last_name u;
     landlord_email := email u |}.

(** Texts PostgreSQL can hold have no code unit 0; it refuses a parameter
    that has one, a failure the model of the store does not have. *)
Definition storable (value : Sql.NewProperty) : bool :=
  without "000" (Sql.new_address value) &&
  without "000" (Sql.new_city value) &&
  without "000" (Sql.new_state value) &&
  Filter.supplied (Sql.new_description value) (without "000").

(** ** The search response *)

(** A range of the echo: nothing when neither bound was supplied. *)
Definition echoed (lo hi : option Q) : option Response.Range :=
  match lo, hi with
  | None, None => None
  | _, _ => Some {| Response.min := lo; Response.max := hi |}
  end.


(** A text without the characters LIKE gives a meaning to. *)
Definition plain_text (c : string) : bool :=
  without "%" c && without "_" c && without "\" c.

(** [part] occurs in [text]. *)
Definition contains (part text : string) : Prop :=
  exists before after, text = before ++ part ++ after.

(** The text parameters of a search that the store accepts. *)
Definition sendable (q : SearchQuery.t) : bool :=
  Filter.supplied (SearchQuery.city q) (without "000") &&
  Filter.supplied (SearchQuery.state q) (without "000").

(** GET /properties?city=c *)
Definition city_like (c : string) : SearchQuery.t :=
  {| SearchQuery.city := Some c; SearchQuery.state := None;
     SearchQuery.zip_code := None;
     SearchQuery.min_rent := None; SearchQuery.max_rent := None;
     SearchQuery.min_bedrooms := None; SearchQuery.max_bedrooms := None;
     SearchQuery.min_bathrooms := None; SearchQuery.max_bathrooms := None;
     SearchQuery.min_sqft := None; SearchQuery.max_sqft := None;
     SearchQuery.landlord_verified := None; SearchQuery.sort_by := None;
     SearchQuery.limit := None; SearchQuery.offset := None;
     SearchQuery.other_keys := [] |}.

(** ** Statistics *)

(** The number of distinct names among rows: the length of a list that
    holds each of the names once. *)
Definition distinct_names (name : Property -> string) (rows : list Property)
           (count : Z) : Prop :=
  exists names,
    List.NoDup names /\
    (forall c, In c names <-> exists p, In p rows /\ name p = c) /\
    count = Z.of_nat (List.length names).

(** [landlord_verified = true]; NULL does not count. *)
Definition verified (p : Property) : bool :=
  match landlord_verified p with
  | Some true => true
  | _ => false
  end.

(** * Properties *)

(** ** The embedding on concrete inputs *)

Example parseInt_number : Js.parseInt "42" = Js.Num 42.
Proof. reflexivity. Qed.

Example parseInt_prefix : Js.parseInt "12abc" = Js.Num 12.
Proof. reflexivity. Qed.

Example parseInt_signed : Js.parseInt "  -7" = Js.Num (-7).
Proof. reflexivity. Qed.

Example parseInt_hex : Js.parseInt "0x1f" = Js.Num 31.
Proof. reflexivity. Qed.

Example parseInt_word : Js.parseInt "stats" = Js.NaN.
Proof. reflexivity. Qed.

Example parseInt_empty : Js.parseInt EmptyString = Js.NaN.
Proof. reflexivity. Qed.

Example parseFloat_average :
  Js.parseFloat "1500.2500000000000000" = Js.Num (6001 # 4).
Proof. vm_compute. reflexivity. Qed.

Example parseFloat_zero : Js.parseFloat "0.00000000000000000000" = Js.Num 0.
Proof. vm_compute. reflexivity. Qed.

Example zero_text_is_truthy : Js.truthy_string "0.00000000000000000000" = true.
Proof. reflexivity. Qed.

Example numeric_out_average : Pg.numeric_out 16 (3 # 2) = "1.5000000000000000".
Proof. vm_compute. reflexivity. Qed.

Example numeric_out_rent : Pg.numeric_out 2 (-1 # 3) = "-0.33".
Proof. vm_compute. reflexivity. Qed.

Example bigint_out_count : Pg.bigint_out 1203 = "1203".
Proof. vm_compute. reflexivity. Qed.

Example zip_five : Joi.zip_format "78701" = true.
Proof. reflexivity. Qed.

Example zip_nine : Joi.zip_format "78701-1234" = true.
Proof. reflexivity. Qed.

Example zip_short : Joi.zip_format "7870" = false.
Proof. reflexivity. Qed.

Example zip_trailing : Joi.zip_format "78701-12345" = false.
Proof. reflexivity. Qed.

Example precision_rounds : Joi.precision 1 (144 # 100) = (7 # 5).
Proof. vm_compute. reflexivity. Qed.

(** The double nearest to one tenth, and the doubles around a tie: 1.005
    is held as the double below it, and 1.8499999999999999 as the double
    below 1.85, whose tenfold rounds to 18.5. *)
Example nearest_double_tenth :
  Js.nearest_double (1 # 10) = (3602879701896397 # 36028797018963968).
Proof. vm_compute. reflexivity. Qed.

Example nearest_double_whole : Js.nearest_double 50000 = 50000%Q.
Proof. vm_compute. reflexivity. Qed.

(** 23 of 40 is a rate of 57: the quotient is the double below 0.575,
    and its hundredfold the double below 57.5. *)
Example rate_below_a_tie :
  Js.round (Js.product (Js.quotient (Js.Num 23) (Js.Num 40)) 100) = Js.Num 57.
Proof. vm_compute. reflexivity. Qed.

Example precision_below_a_tie : Joi.precision 2 (1005 # 1000) = 1%Q.
Proof. vm_compute. reflexivity. Qed.

Example precision_onto_a_tie :
  Joi.precision 1 (18499999999999999 # 10000000000000000) = (19 # 10).
Proof. vm_compute. reflexivity. Qed.

Example precision_of_a_tie : Joi.precision 1 (185 # 100) = (19 # 10).
Proof. vm_compute. reflexivity. Qed.

(** min_bathrooms=1.85 with max_bathrooms=1.8499999999999999 is accepted:
    both bounds are rounded to 1.9. *)
Example bathrooms_rounded_onto_each_other :
  Ranges.accepted
    (Ranges.bathrooms_between (185 # 100) (18499999999999999 # 10000000000000000))
  = true.
Proof. vm_compute. reflexivity. Qed.

(** A rent of 1.005 is validated as 1, and stored as 1.00. *)
Example rent_below_a_tie :
  option_map Sql.new_rent_amount
    (match createPropertySchema
             {| CreateBody.address := Some "123 Main St";
                CreateBody.city := Some "Austin";
                CreateBody.state := Some "TX";
                CreateBody.zip_code := Some "78701";
                CreateBody.rent_amount := Some (1005 # 1000);
                CreateBody.bedrooms := None; CreateBody.bathrooms := None;
                CreateBody.square_feet := None; CreateBody.description := None;
                CreateBody.landlord_id := Some 5%Q;
                CreateBody.other_keys := [] |} with
     | inr value => Some value
     | inl _ => None
     end)
  = Some (Some 1%Q).
Proof. vm_compute. reflexivity. Qed.

Example like_inside : Sql.LIKE (Sql.LOWER "Austin") (Sql.LOWER "%UST%") = true.
Proof. reflexivity. Qed.

Example like_outside : Sql.LIKE (Sql.LOWER "Austin") (Sql.LOWER "%dal%") = false.
Proof. reflexivity. Qed.

Example like_one : Sql.LIKE "austin" "a_stin" = true.
Proof. reflexivity. Qed.

Example route_health :
  Express.route (Sample.get "/health") = Some (Express.health, []).
Proof. reflexivity. Qed.

Example route_property :
  Express.route (Sample.get "/properties/7")
  = Some (Express.get_property, [("id", "7")]).
Proof. reflexivity. Qed.

Example route_search :
  Express.route (Sample.get "/properties/") = Some (Express.search_properties, []).
Proof. reflexivity. Qed.

Example route_none : Express.route (Sample.get "/tenants") = None.
Proof. reflexivity. Qed.

(** The example of the specification: the listing is created with
    [landlord_verified] false and the next id of the sequence. *)
Example create_main_street :
  exists row s',
    World.run (Handlers.create_property (Sample.main_street 5)) [] Sample.store
    = (inr (Response.json 201
              (Response.created "Property created successfully" row)),
       s',
       [World.issued (Sql.select_user 5) None;
        World.issued (Sql.select_duplicate "123 Main St" "78701") None;
        World.issued (Sql.insert_property (Sample.main_street_value 5)) None]) /\
    id row = 1 /\ landlord_verified row = Some false /\
    properties s' = [row] /\ next_id s' = 2.
Proof.
  do 2 eexists. split; [vm_compute; reflexivity|]. repeat split; reflexivity.
Qed.

Example limit_zero_refused :
  searchPropertiesSchema
    {| SearchQuery.city := None; SearchQuery.state := None;
       SearchQuery.zip_code := None;
       SearchQuery.min_rent := None; SearchQuery.max_rent := None;
       SearchQuery.min_bedrooms := None; SearchQuery.max_bedrooms := None;
       SearchQuery.min_bathrooms := None; SearchQuery.max_bathrooms := None;
       SearchQuery.min_sqft := None; SearchQuery.max_sqft := None;
       SearchQuery.landlord_verified := None; SearchQuery.sort_by := None;
       SearchQuery.limit := Some 0%Q; SearchQuery.offset := None;
       SearchQuery.other_keys := [] |}
  = inl {| Joi.key := "limit"; Joi.type := "number.min" |}.
Proof. reflexivity. Qed.

(** The allowed values of sort_by are looked at first: the empty text is
    refused for not being one of them. *)
Example empty_sort_by_refused :
  searchPropertiesSchema
    {| SearchQuery.city := None; SearchQuery.state := None;
       SearchQuery.zip_code := None;
       SearchQuery.min_rent := None; SearchQuery.max_rent := None;
       SearchQuery.min_bedrooms := None; SearchQuery.max_bedrooms := None;
       SearchQuery.min_bathrooms := None; SearchQuery.max_bathrooms := None;
       SearchQuery.min_sqft := None; SearchQuery.max_sqft := None;
       SearchQuery.landlord_verified := None;
       SearchQuery.sort_by := Some EmptyString;
       SearchQuery.limit := None; SearchQuery.offset := None;
       SearchQuery.other_keys := [] |}
  = inl {| Joi.key := "sort_by"; Joi.type := "any.only" |}.
Proof. reflexivity. Qed.

(** An id beyond the INTEGERs: the store refuses the query and the
    handler answers 500. *)
Example get_property_beyond_integer :
  World.run (Handlers.get_property "2147483648") [] Sample.store
  = (inr (Response.json 500
            (Response.failed "Internal server error" "Failed to fetch property")),
     Sample.store,
     [World.issued (Sql.select_property (Js.Num 2147483648))
                   (Some Pg.numeric_value_out_of_range)]).
Proof. vm_compute. reflexivity. Qed.

Example empty_body_refused :
  createPropertySchema Sample.no_body
  = inl {| Joi.key := "address"; Joi.type := "any.required" |}.
Proof. reflexivity. Qed.

(** ** Digits, [parseInt] and the text of a [bigint] *)

Section Digits.

(** The code unit of a character, as an opaque integer for [lia]. *)
Ltac code_unit c :=
  generalize dependent (Z.of_N (N_of_ascii c)); intros.

Lemma digit_of_range (c : ascii) (d : Z) :
  Js.digit_of c = Some d -> 0 <= d <= 9.
Proof.
  unfold Js.digit_of. intros H.
  destruct (_ && _) eqn:E; [|discriminate].
  injection H as <-. apply andb_prop in E. destruct E as [E1 E2].
  apply Z.leb_le in E1, E2. code_unit c. lia.
Qed.

Lemma digit_of_digit_char (d : Z) :
  0 <= d <= 9 -> Js.digit_of (Pg.digit_char d) = Some d.
Proof.
  intros H.
  assert (d = 0 \/ d = 1 \/ d = 2 \/ d = 3 \/ d = 4 \/
          d = 5 \/ d = 6 \/ d = 7 \/ d = 8 \/ d = 9) as C by lia.
  repeat (destruct C as [-> | C]; [reflexivity|]). subst. reflexivity.
Qed.

Lemma digit_char_mod (n : Z) :
  exists d, Js.digit_of (Pg.digit_char (n mod 10)) = Some d.
Proof.
  eexists. apply digit_of_digit_char. pose proof (Z.mod_pos_bound n 10). lia.
Qed.

Lemma digit_not_white_space (c : ascii) (d : Z) :
  Js.digit_of c = Some d -> Js.is_white_space c = false.
Proof.
  unfold Js.digit_of, Js.is_white_space. intros H.
  destruct (_ && _) eqn:E; [|discriminate].
  apply andb_prop in E. destruct E as [E1 E2].
  apply Z.leb_le in E1, E2. code_unit c.
  repeat (apply orb_false_intro); [apply andb_false_iff; right| |];
    first [apply Z.leb_gt | apply Z.eqb_neq]; lia.
Qed.

(** Reading back the digits that [digits_onto] wrote. *)
Lemma read_digits_onto (fuel : nat) :
  forall n acc, 0 <= n < 2 ^ Z.of_nat (S fuel) ->
    Js.read_digits Js.digit_of 10 None (Pg.digits_onto (S fuel) n acc)
    = Js.read_digits Js.digit_of 10 (Some n) acc.
Proof.
  assert (forall n acc, 0 <= n < 10 ->
            Js.read_digits Js.digit_of 10 None
              (String (Pg.digit_char (n mod 10)) acc)
            = Js.read_digits Js.digit_of 10 (Some n) acc) as Hsmall.
  { intros n acc Hn. cbn [Js.read_digits]. rewrite Z.mod_small by lia.
    rewrite digit_of_digit_char by lia. reflexivity. }
  induction fuel as [|fuel IH]; intros n acc [Hn Hlt].
  - change (2 ^ Z.of_nat 1) with 2 in Hlt.
    cbn [Pg.digits_onto]. destruct (n <? 10) eqn:E.
    + apply Hsmall. lia.
    + apply Z.ltb_ge in E. lia.
  - cbn [Pg.digits_onto]. destruct (n <? 10) eqn:E.
    + apply Z.ltb_lt in E. apply Hsmall. lia.
    + apply Z.ltb_ge in E.
      change (if n / 10 <? 10
              then String (Pg.digit_char (n / 10 mod 10))
                          (String (Pg.digit_char (n mod 10)) acc)
              else Pg.digits_onto fuel (n / 10 / 10)
                     (String (Pg.digit_char (n / 10 mod 10))
                             (String (Pg.digit_char (n mod 10)) acc)))
        with (Pg.digits_onto (S fuel) (n / 10)
                (String (Pg.digit_char (n mod 10)) acc)).
      rewrite IH.
      * cbn [Js.read_digits].
        rewrite digit_of_digit_char
          by (pose proof (Z.mod_pos_bound n 10); clear Hlt; lia).
        do 3 f_equal. pose proof (Z.div_mod n 10). clear Hlt. lia.
      * rewrite (Nat2Z.inj_succ (S fuel)), Z.pow_succ_r in Hlt by lia.
        split; [apply Z.div_pos; lia|].
        apply Z.div_lt_upper_bound; [lia|].
        generalize dependent (2 ^ Z.of_nat (S fuel)). intros. lia.
Qed.

Lemma log2_fuel (n : Z) : 0 <= n -> 0 <= n < 2 ^ Z.of_nat (S (Z.to_nat (Z.log2 n))).
Proof.
  intros H. split; [exact H|].
  rewrite Nat2Z.inj_succ, Z2Nat.id by apply Z.log2_nonneg.
  destruct (Z.eq_dec n 0) as [->|Hz]; [reflexivity|].
  apply Z.log2_spec. lia.
Qed.

Lemma read_natural_out (n : Z) (rest : string) :
  0 <= n ->
  Js.read_digits Js.digit_of 10 None (Pg.digits_onto (S (Z.to_nat (Z.log2 n))) n rest)
  = Js.read_digits Js.digit_of 10 (Some n) rest.
Proof. intros H. apply read_digits_onto, log2_fuel, H. Qed.

Lemma digits_onto_starts (fuel : nat) :
  forall n acc, 0 <= n ->
    (acc = EmptyString \/ exists c t d, acc = String c t /\ Js.digit_of c = Some d) ->
    starts_with_digits (Pg.digits_onto (S fuel) n acc).
Proof.
  induction fuel as [|fuel IH]; intros n acc Hn Hacc.
  - pose proof (digit_char_mod n) as Hd.
    cbn [Pg.digits_onto]. destruct (n <? 10);
      (destruct Hacc as [-> | (c & t & d & -> & Hc)]; simpl; eauto).
  - cbn [Pg.digits_onto]. destruct (n <? 10) eqn:E.
    + pose proof (digit_char_mod n) as Hd.
      destruct Hacc as [-> | (c & t & d & -> & Hc)]; simpl; eauto.
    + apply (IH (n / 10)).
      * apply Z.div_pos; lia.
      * right. destruct (digit_char_mod n) as [d Hd]. eauto.
Qed.

Lemma split_sign_digit (c : ascii) (d : Z) (s : string) :
  Js.digit_of c = Some d -> Js.split_sign (String c s) = (false, String c s).
Proof.
  intros Hd.
  destruct c as [[] [] [] [] [] [] [] []]; try discriminate Hd; reflexivity.
Qed.

(** On a text that starts with digits, [parseInt] is the decimal reading. *)
Lemma parseInt_decimal (s : string) (z : Z) (rest : string) :
  starts_with_digits s ->
  Js.read_digits Js.digit_of 10 None s = (Some z, rest) ->
  Js.parseInt s = Js.Num (inject_Z z).
Proof.
  intros Hs Hr. destruct s as [|c s]; [contradiction|].
  assert (exists d, Js.digit_of c = Some d) as [d Hd].
  { destruct s; simpl in Hs; [exact Hs | exact (proj1 Hs)]. }
  unfold Js.parseInt. cbn [Js.trim_start].
  rewrite (digit_not_white_space c d Hd), (split_sign_digit c d s Hd).
  destruct c as [[] [] [] [] [] [] [] []]; try discriminate Hd;
    try (rewrite Hr; reflexivity).
  (* the text starts with 0: the next character is no x *)
  destruct s as [|c' s].
  - rewrite Hr. reflexivity.
  - destruct Hs as [_ [d' Hd']].
    destruct c' as [[] [] [] [] [] [] [] []]; try discriminate Hd';
      (rewrite Hr; reflexivity).
Qed.

Lemma parseInt_bigint_out (n : Z) :
  0 <= n -> Js.parseInt (Pg.bigint_out n) = Js.Num (inject_Z n).
Proof.
  intros H. unfold Pg.bigint_out.
  destruct (n <? 0) eqn:E; [apply Z.ltb_lt in E; lia|].
  eapply parseInt_decimal.
  - apply digits_onto_starts; [exact H | left; reflexivity].
  - unfold Pg.natural_out. rewrite read_natural_out by exact H. reflexivity.
Qed.

End Digits.

(** ** Doubles: how far the nearest double is *)

Section Doubles.

Lemma two_to_power (k : Z) : (Js.two_to k == 2 ^ k)%Q.
Proof.
  unfold Js.two_to. destruct (0 <=? k) eqn:E.
  - apply Z.leb_le in E. rewrite Zpower_Qpower by exact E. reflexivity.
  - apply Z.leb_gt in E.
    assert (H : 0 < 2 ^ (- k)) by (apply Z.pow_pos_nonneg; lia).
    rewrite Qmake_Qdiv, Z2Pos.id by exact H.
    rewrite Zpower_Qpower by lia.
    unfold Qdiv. rewrite Qmult_1_l, <- Qpower_opp, Z.opp_involutive. reflexivity.
Qed.

Lemma two_to_nonneg (k : Z) : 0 <= k -> Js.two_to k = inject_Z (2 ^ k).
Proof. intros H. unfold Js.two_to. apply Z.leb_le in H. rewrite H. reflexivity. Qed.

Lemma two_to_pos (k : Z) : (0 < Js.two_to k)%Q.
Proof. rewrite two_to_power. apply Qpower_0_lt. reflexivity. Qed.

Lemma two_to_plus (j k : Z) : (Js.two_to (j + k) == Js.two_to j * Js.two_to k)%Q.
Proof. rewrite !two_to_power. apply Qpower_plus. discriminate. Qed.

Lemma two_to_succ (k : Z) : (Js.two_to (k + 1) == 2 * Js.two_to k)%Q.
Proof. rewrite two_to_plus. change (Js.two_to 1) with 2%Q. ring. Qed.

(** A quotient of integers against a bound. *)
Lemma le_quotient (x : Q) (n : Z) (d : positive) :
  (x * inject_Z (Z.pos d) <= inject_Z n)%Q -> (x <= n # d)%Q.
Proof.
  intros H. rewrite (Qmake_Qdiv n d). apply Qle_shift_div_l; [reflexivity | exact H].
Qed.

Lemma quotient_lt (x : Q) (n : Z) (d : positive) :
  (inject_Z n < x * inject_Z (Z.pos d))%Q -> (n # d < x)%Q.
Proof.
  intros H. rewrite (Qmake_Qdiv n d). apply Qlt_shift_div_r; [reflexivity | exact H].
Qed.

(** The leading bit of a positive number: 2^b <= q < 2^(b+1). *)
Lemma binade_spec (q : Q) :
  (0 < q)%Q ->
  (Js.two_to (Js.binade q) <= q)%Q /\ (q < Js.two_to (Js.binade q + 1))%Q.
Proof.
  intros Hq. destruct q as [n d]. unfold Qlt in Hq. cbn [Qnum Qden] in Hq.
  assert (Hn : 0 < n) by lia.
  unfold Js.binade. cbn [Qnum Qden].
  set (ln := Z.log2 n). set (ld := Z.log2 (Z.pos d)).
  pose proof (Z.log2_spec n Hn) as [Hn1 Hn2]. fold ln in Hn1, Hn2.
  pose proof (Z.log2_spec (Z.pos d) ltac:(lia)) as [Hd1 Hd2]. fold ld in Hd1, Hd2.
  pose proof (Z.log2_nonneg n) as Hln. fold ln in Hln.
  pose proof (Z.log2_nonneg (Z.pos d)) as Hld. fold ld in Hld.
  replace (Z.succ ln) with (ln + 1) in Hn2 by lia.
  replace (Z.succ ld) with (ld + 1) in Hd2 by lia.
  assert (Hlow : (Js.two_to (ln - ld - 1) <= n # d)%Q).
  { apply le_quotient.
    apply (Qle_trans _ (Js.two_to (ln - ld - 1) * inject_Z (2 ^ (ld + 1)))).
    - apply Qmult_le_l; [apply two_to_pos|]. rewrite <- Zle_Qle. lia.
    - rewrite <- (two_to_nonneg (ld + 1)) by lia. rewrite <- two_to_plus.
      replace (ln - ld - 1 + (ld + 1)) with ln by lia.
      rewrite two_to_nonneg by lia. rewrite <- Zle_Qle. exact Hn1. }
  assert (Hhigh : (n # d < Js.two_to (ln - ld + 1))%Q).
  { apply quotient_lt.
    apply (Qlt_le_trans _ (Js.two_to (ln - ld + 1) * inject_Z (2 ^ ld))).
    - rewrite <- (two_to_nonneg ld) by lia. rewrite <- two_to_plus.
      replace (ln - ld + 1 + ld) with (ln + 1) by lia.
      rewrite two_to_nonneg by lia. rewrite <- Zlt_Qlt. exact Hn2.
    - apply Qmult_le_l; [apply two_to_pos|]. rewrite <- Zle_Qle. exact Hd1. }
  destruct (Qle_bool (Js.two_to (ln - ld)) (n # d)) eqn:E.
  - apply Qle_bool_iff in E. split; assumption.
  - replace (ln - ld - 1 + 1) with (ln - ld) by lia. split; [exact Hlow|].
    destruct (Qlt_le_dec (n # d) (Js.two_to (ln - ld))) as [H|H]; [exact H|].
    apply Qle_bool_iff in H. congruence.
Qed.

(** The nearest integer is within one half. *)
Lemma round_half_even_near (t : Q) :
  (Qabs (inject_Z (Js.round_half_even t) - t) <= 1 # 2)%Q.
Proof.
  unfold Js.round_half_even.
  pose proof (Qfloor_le t) as Hlo. pose proof (Qlt_floor t) as Hhi.
  set (f := Qfloor t) in *. rewrite inject_Z_plus in Hhi.
  change (inject_Z 1) with 1%Q in Hhi.
  apply Qabs_Qle_condition.
  destruct (t - inject_Z f ?= 1 # 2)%Q eqn:E.
  - apply Qeq_alt in E. destruct (Z.even f); [|rewrite inject_Z_plus];
      change (inject_Z 1) with 1%Q; split; lra.
  - apply Qlt_alt in E. split; lra.
  - apply Qgt_alt in E. rewrite inject_Z_plus. change (inject_Z 1) with 1%Q.
    split; lra.
Qed.

Lemma round_half_even_nonneg (t : Q) : (0 <= t)%Q -> 0 <= Js.round_half_even t.
Proof.
  intros Ht. unfold Js.round_half_even.
  assert (0 <= Qfloor t).
  { change 0 with (Qfloor 0). apply Qfloor_resp_le, Ht. }
  destruct (_ ?= _)%Q; [destruct (Z.even _)| |]; lia.
Qed.

(** A positive number and the double nearest to it: a whole number of
    units of 2^e, within half a unit, and half a unit is at most 2^-53 of
    the number (or 2^-1075, for a number below the normal range). *)
Lemma nearest_double_positive (q : Q) :
  (0 < q)%Q ->
  exists m e,
    (Js.nearest_double q == inject_Z m * Js.two_to e)%Q /\ 0 <= m /\
    (Qabs (inject_Z m * Js.two_to e - q) <= Js.two_to (e - 1))%Q /\
    (Js.two_to (e - 1) <= q * Js.two_to (- 53) + Js.two_to (- 1075))%Q.
Proof.
  intros Hq. unfold Js.nearest_double.
  destruct q as [n d]. unfold Qlt in Hq. cbn [Qnum Qden] in Hq.
  destruct n as [|n|n]; try lia. cbn [Qnum].
  assert (Hpos : (0 < Z.pos n # d)%Q) by reflexivity.
  assert (Habs : Qabs (Z.pos n # d) = (Z.pos n # d)) by reflexivity.
  rewrite Habs.
  assert (Hle : Qle_bool 0 (Z.pos n # d) = true) by reflexivity.
  rewrite Hle.
  set (q := Z.pos n # d) in *.
  set (e := Z.max (Js.binade q - 52) (- 1074)).
  set (m := Js.round_half_even (q / Js.two_to e)).
  exists m, e. split; [apply Qred_correct|].
  pose proof (two_to_pos e) as He.
  split.
  { apply round_half_even_nonneg. apply Qle_shift_div_l; [exact He|]. lra. }
  split.
  - pose proof (round_half_even_near (q / Js.two_to e)) as Hm. fold m in Hm.
    assert (E : (inject_Z m * Js.two_to e - q
                 == (inject_Z m - q / Js.two_to e) * Js.two_to e)%Q).
    { field. lra. }
    rewrite E, Qabs_Qmult, (Qabs_pos (Js.two_to e)) by lra.
    assert (Ee : (Js.two_to e == 2 * Js.two_to (e - 1))%Q).
    { rewrite <- two_to_succ. replace (e - 1 + 1) with e by lia. reflexivity. }
    revert Hm. generalize (Qabs (inject_Z m - q / Js.two_to e)). intros a Ha.
    rewrite Ee. pose proof (two_to_pos (e - 1)) as Hw.
    revert Hw. generalize (Js.two_to (e - 1)). intros w Hw.
    apply (Qle_trans _ ((1 # 2) * (2 * w))); [|lra].
    apply Qmult_le_compat_r; lra.
  - destruct (binade_spec q Hpos) as [Hb _].
    pose proof (two_to_pos (- 1075)). pose proof (two_to_pos (- 53)).
    destruct (Z.max_spec (Js.binade q - 52) (- 1074)) as [[_ E]|[_ E]];
      fold e in E; rewrite E.
    + change (- 1074 - 1) with (- 1075). nra.
    + replace (Js.binade q - 52 - 1) with (Js.binade q + - 53) by lia.
      rewrite two_to_plus. nra.
Qed.

(** The double nearest to a number that is not negative is not negative,
    and as near as that. *)
Lemma nearest_double_near (q : Q) :
  (0 <= q)%Q ->
  (0 <= Js.nearest_double q)%Q /\
  (Qabs (Js.nearest_double q - q) <= q * Js.two_to (- 53) + Js.two_to (- 1075))%Q.
Proof.
  intros Hq. pose proof (two_to_pos (- 53)) as Hu.
  pose proof (two_to_pos (- 1075)) as Ht.
  destruct (Qlt_le_dec 0 q) as [Hpos|Hzero].
  - destruct (nearest_double_positive q Hpos) as (m & e & Hv & Hm & Hnear & Hhalf).
    split.
    + rewrite Hv. apply Qmult_le_0_compat; [|apply Qlt_le_weak, two_to_pos].
      change 0%Q with (inject_Z 0). rewrite <- Zle_Qle. exact Hm.
    + rewrite Hv. apply (Qle_trans _ _ _ Hnear Hhalf).
  - assert (Hq0 : (q == 0)%Q) by lra.
    assert (Hn : Qnum q = 0).
    { unfold Qeq in Hq0. cbn [Qnum Qden] in Hq0. lia. }
    unfold Js.nearest_double. rewrite Hn.
    split; [apply Qle_refl|].
    apply Qabs_Qle_condition. split; nra.
Qed.

End Doubles.

(** ** Routing: which handler a path reaches *)

Section Routing.

Lemma read_digits_some (digit : ascii -> option Z) (radix : Z) (s : string) :
  forall a, exists z rest, Js.read_digits digit radix (Some a) s = (Some z, rest).
Proof.
  induction s as [|c s IH]; intros a; simpl.
  - eauto.
  - destruct (digit c); [apply IH | eauto].
Qed.

Lemma is_digit_digit_of (c : ascii) :
  Joi.is_digit c = true -> exists d, Js.digit_of c = Some d.
Proof. unfold Joi.is_digit. destruct (Js.digit_of c); [eauto | discriminate]. Qed.

Lemma numeric_string_parses (s : string) :
  numeric_string s = true -> Js.isNaN (Js.parseInt s) = false.
Proof.
  intros H. destruct s as [|c s]; [discriminate|].
  simpl in H. apply andb_prop in H. destruct H as [Hc Hs].
  destruct (is_digit_digit_of c Hc) as [d Hd].
  destruct (read_digits_some Js.digit_of 10 s d) as (z & rest & Hr).
  rewrite (parseInt_decimal (String c s) z rest); [reflexivity | |].
  - destruct s as [|c' s]; simpl; [eauto|].
    simpl in Hs. apply andb_prop in Hs. destruct Hs as [Hc' _].
    split; [eauto | apply is_digit_digit_of, Hc'].
  - cbn [Js.read_digits]. rewrite Hd. exact Hr.
Qed.

(** A text that starts with a digit from 1 to 9 is parsed, whatever
    follows the digits. *)
Lemma leading_digit_parses (c : ascii) (rest : string) (d : Z) :
  Js.digit_of c = Some d -> 0 < d ->
  Js.isNaN (Js.parseInt (String c rest)) = false.
Proof.
  intros Hd Hpos. unfold Js.parseInt. cbn [Js.trim_start].
  rewrite (digit_not_white_space c d Hd), (split_sign_digit c d rest Hd).
  destruct c as [[] [] [] [] [] [] [] []]; try discriminate Hd.
  all: try (exfalso; injection Hd as <-; lia).
  all: cbn [Js.read_digits]; rewrite Hd.
  all: destruct (read_digits_some Js.digit_of 10 rest d) as (z & t & ->).
  all: reflexivity.
Qed.

(** What the handler of GET /properties/:id does with its parameter. *)
Lemma get_property_run (id : string) (ticks : list World.Tick) (s : Store) :
  exists r s' log,
    World.run (Handlers.get_property id) ticks s = (inr r, s', log) /\
    if Js.isNaN (Js.parseInt id)
    then r = invalid_property_id /\ s' = s /\ log = []
    else Response.status r <> 400 /\
         exists e, log = [World.issued (Sql.select_property (Js.parseInt id)) e].
Proof.
  unfold Handlers.get_property.
  destruct (Js.isNaN (Js.parseInt id)) eqn:E.
  - do 3 eexists. split; [reflexivity|]. auto.
  - cbn [Async.try_catch Async.bind Async.query World.run].
    destruct (World.answer _ _ s) as [[rows|e] s1] eqn:A.
    + destruct rows as [|row rows]; cbn;
        do 3 eexists; (split; [reflexivity|]); (split; [discriminate | eauto]).
    + cbn. do 3 eexists. split; [reflexivity|]. split; [discriminate | eauto].
Qed.

End Routing.

(** C1: GET /properties/stats is answered by the handler of
    GET /properties/:id, which is registered first and takes [stats] for
    the id: whatever the store holds, the response is 400 "Invalid
    property ID" and the statistics query is never issued. *)
Theorem stats_path_reaches_get_property :
  forall (q : SearchQuery.t) (b : CreateBody.t)
         (ticks : list World.Tick) (s : Store),
    let req := {| Express.method := Express.GET;
                  Express.path := "/properties/stats";
                  Express.query := q; Express.body := b |} in
    Express.route req = Some (Express.get_property, [("id", "stats")]) /\
    World.run (Express.app req) ticks s = (inr invalid_property_id, s, []).
Proof. intros q b ticks s. split; reflexivity. Qed.

(** The statistics handler itself, were it reached, answers 200 with the
    statistics object, and 500 when its query fails. *)
Lemma property_stats_run (s : Store) :
  World.run Handlers.property_stats [] s
  = (inr (Response.json 200
            (Response.statistics (Handlers.statistics_of (Db.statistics_row s)))),
     s, [World.issued Sql.statistics None]).
Proof. reflexivity. Qed.

Lemma property_stats_query_error (e : Pg.Error) (s : Store) :
  World.run Handlers.property_stats
            [{| World.before := fun s => s; World.failure := Some e |}] s
  = (inr (Response.json 500
            (Response.failed "Internal server error"
               "Failed to fetch property statistics")),
     s, [World.issued Sql.statistics (Some e)]).
Proof. reflexivity. Qed.

(** C7 as stated fails: [12abc] is not a numeric string, yet the request
    is not refused with 400; the store is queried for property 12. *)
Lemma get_property_12abc_not_400 :
  numeric_string "12abc" = false /\
  World.run (Express.app (Sample.get "/properties/12abc")) [] Sample.store
  = (inr (Response.json 404
            (Response.failed "Property not found"
               "No property found with the specified ID")),
     Sample.store,
     [World.issued (Sql.select_property (Js.Num 12)) None]) /\
  (404 <> 400)%Z.
Proof. split; [reflexivity|]. split; [reflexivity | discriminate]. Qed.

(** C7, amended: the response to GET /properties/:id is 400 exactly when
    [parseInt] of the path parameter is [NaN], and then no query is
    issued; otherwise exactly one query is issued, for the parsed number,
    and the response is not 400.  Every numeric string is parsed, and so
    is every text that starts with a digit from 1 to 9, whatever follows
    its digits. *)
Theorem get_property_400_iff_parseInt_NaN :
  forall (id : string) (ticks : list World.Tick) (s : Store),
    (exists r s' log,
       World.run (Handlers.get_property id) ticks s = (inr r, s', log) /\
       if Js.isNaN (Js.parseInt id)
       then r = invalid_property_id /\ s' = s /\ log = []
       else Response.status r <> 400 /\
            exists e, log = [World.issued (Sql.select_property (Js.parseInt id)) e]) /\
    (numeric_string id = true -> Js.isNaN (Js.parseInt id) = false) /\
    (forall c rest d,
       id = String c rest -> Js.digit_of c = Some d -> 0 < d ->
       Js.isNaN (Js.parseInt id) = false).
Proof.
  intros id ticks s. split; [|split].
  - apply get_property_run.
  - apply numeric_string_parses.
  - intros c rest d -> Hd Hpos. apply (leading_digit_parses c rest d Hd Hpos).
Qed.

(** ** Validation of search requests *)

(** One step through the chain of keys of an accepted request. *)
Ltac key_by_key H :=
  repeat match type of H with
  | Joi.bind ?v _ = inr _ =>
      let E := fresh "E" in
      destruct v as [?e|?x] eqn:E; cbn [Joi.bind] in H; [discriminate H|]
  end.

Section Validation.

Import Ranges.

(** One step through the chain of keys: the next key's outcome. *)
Ltac next_key :=
  match goal with
  | |- context [Joi.bind ?v _] =>
      let E := fresh "E" in
      destruct v as [?e|?x] eqn:E; cbn [Joi.bind]; [try reflexivity|]
  end.

Lemma number_plain (rules : list (Joi.Rule Q)) (k : string) (x : Q) (o : option Q) :
  Joi.number None rules k (Some x) = inr o -> o = Some x.
Proof.
  unfold Joi.number. destruct (negb (Joi.safe x)); [discriminate|].
  destruct (Joi.first_failure rules x); [discriminate|].
  intros H. injection H as <-. reflexivity.
Qed.

Lemma number_rounded (n : nat) (rules : list (Joi.Rule Q)) (k : string)
      (x : Q) (o : option Q) :
  Joi.number (Some n) rules k (Some x) = inr o -> o = Some (Joi.precision n x).
Proof.
  unfold Joi.number. destruct (negb (Joi.safe x)); [discriminate|].
  destruct (Joi.first_failure rules _); [discriminate|].
  intros H. injection H as <-. reflexivity.
Qed.

(** A present number passes when it is safe and, once converted, breaks
    no rule. *)
Lemma number_ok (places : option nat) (rules : list (Joi.Rule Q)) (k : string) (x : Q) :
  ok (Joi.number places rules k (Some x))
  = Joi.safe x &&
    unbroken rules (match places with Some n => Joi.precision n x | None => x end).
Proof.
  unfold Joi.number, unbroken. destruct (Joi.safe x); [|reflexivity].
  cbn [negb andb]. destruct (Joi.first_failure rules _); reflexivity.
Qed.

Ltac expose_keys f :=
  unfold accepted, searchPropertiesSchema;
  cbn [f SearchQuery.city SearchQuery.state SearchQuery.zip_code
       SearchQuery.min_rent SearchQuery.max_rent SearchQuery.min_bedrooms
       SearchQuery.max_bedrooms SearchQuery.min_bathrooms
       SearchQuery.max_bathrooms SearchQuery.min_sqft SearchQuery.max_sqft
       SearchQuery.landlord_verified SearchQuery.sort_by SearchQuery.limit
       SearchQuery.offset SearchQuery.other_keys].

(** The max key of a pair: with the key absent the chain goes on; with
    the key present it goes on exactly when the key's rules pass. *)
Ltac max_key k b :=
  match goal with
  | |- context [Joi.number ?places ?rules k (Some b)] =>
      let Eb := fresh "Eb" in
      pose proof (number_ok places rules k b) as Eb;
      change (Joi.number places rules k None)
        with (@inr Joi.ValidationError _ (@None Q));
      destruct (Joi.number places rules k (Some b)) as [?e|?o];
      cbn [ok Joi.bind] in Eb |- *
  end.

Ltac rules_of Eb :=
  cbv [unbroken Joi.first_failure Joi.positive Joi.integer Joi.max Joi.min
       Joi.min_ref Joi.greater_ref Joi.with_ref Joi.rule] in Eb.

Ltac settle Eb :=
  rules_of Eb;
  repeat match type of Eb with
  | context [Joi.safe ?x] => destruct (Joi.safe x)
  | context [Qle_bool ?x ?y] => destruct (Qle_bool x y)
  | context [Qeq_bool ?x ?y] => destruct (Qeq_bool x y)
  | context [Joi.Qlt_bool ?x ?y] => destruct (Joi.Qlt_bool x y)
  end;
  cbn [andb] in Eb; try discriminate Eb;
  repeat rewrite andb_false_r; repeat rewrite andb_true_r;
  try reflexivity; repeat next_key; reflexivity.

Lemma rent_pair (q : SearchQuery.t) (a b : Q) :
  SearchQuery.min_rent q = Some a ->
  accepted (with_max_rent (Some b) q)
  = accepted (with_max_rent None q) &&
    (Joi.safe b && Joi.Qlt_bool 0 b && Qle_bool b 50000) && Joi.Qlt_bool a b.
Proof.
  intros Ha. expose_keys with_max_rent. rewrite Ha.
  do 4 next_key. apply number_plain in E2. subst.
  max_key "max_rent" b; settle Eb.
Qed.

Lemma bedrooms_pair (q : SearchQuery.t) (a b : Q) :
  SearchQuery.min_bedrooms q = Some a ->
  accepted (with_max_bedrooms (Some b) q)
  = accepted (with_max_bedrooms None q) &&
    (Joi.safe b && Qeq_bool b (inject_Z (Qfloor b)) &&
     Qle_bool 0 b && Qle_bool b 20) && Qle_bool a b.
Proof.
  intros Ha. expose_keys with_max_bedrooms. rewrite Ha.
  do 6 next_key. apply number_plain in E4. subst.
  max_key "max_bedrooms" b; settle Eb.
Qed.

Lemma bathrooms_pair (q : SearchQuery.t) (a b : Q) :
  SearchQuery.min_bathrooms q = Some a ->
  accepted (with_max_bathrooms (Some b) q)
  = accepted (with_max_bathrooms None q) &&
    (Joi.safe b && Joi.Qlt_bool 0 (Joi.precision 1 b) &&
     Qle_bool (Joi.precision 1 b) 20) &&
    Qle_bool (Joi.precision 1 a) (Joi.precision 1 b).
Proof.
  intros Ha. expose_keys with_max_bathrooms. rewrite Ha.
  do 8 next_key. apply number_rounded in E6. subst.
  max_key "max_bathrooms" b; settle Eb.
Qed.

Lemma sqft_pair (q : SearchQuery.t) (a b : Q) :
  SearchQuery.min_sqft q = Some a ->
  accepted (with_max_sqft (Some b) q)
  = accepted (with_max_sqft None q) &&
    (Joi.safe b && Qeq_bool b (inject_Z (Qfloor b)) &&
     Joi.Qlt_bool 0 b && Qle_bool b 50000) && Qle_bool a b.
Proof.
  intros Ha. expose_keys with_max_sqft. rewrite Ha.
  do 10 next_key. apply number_plain in E8. subst.
  max_key "max_sqft" b; settle Eb.
Qed.

(** A max bound refers to its min bound: supplied without it, the
    reference does not resolve to a number and the request is refused. *)
Lemma max_rent_needs_min_rent (q : SearchQuery.t) :
  accepted q = true ->
  SearchQuery.min_rent q = None -> SearchQuery.max_rent q = None.
Proof.
  intros Hq Hmin. destruct (SearchQuery.max_rent q) as [b|] eqn:Hmax; [|reflexivity].
  exfalso. unfold accepted in Hq.
  destruct (searchPropertiesSchema q) as [e|v] eqn:H; [discriminate|]. clear Hq.
  unfold searchPropertiesSchema in H. rewrite Hmin, Hmax in H.
  key_by_key H.
  injection E2 as <-.
  apply (f_equal ok) in E3. rewrite number_ok in E3.
  cbv [ok unbroken Joi.first_failure Joi.positive Joi.max Joi.greater_ref
       Joi.with_ref Joi.rule] in E3.
  destruct (Joi.safe b), (Joi.Qlt_bool 0 b), (Qle_bool b 50000); discriminate E3.
Qed.

(** A request that validation refuses is answered 400 at once. *)
Lemma search_refused (q : SearchQuery.t) (ticks : list World.Tick) (s : Store) :
  accepted q = false ->
  exists e,
    searchPropertiesSchema q = inl e /\
    World.run (Handlers.search_properties q) ticks s
    = (inr (Response.json 400 (Response.invalid "Invalid search parameters" [e])),
       s, []).
Proof.
  unfold accepted, Handlers.search_properties.
  destruct (searchPropertiesSchema q) as [e|v]; [|discriminate].
  intros _. exists e. split; reflexivity.
Qed.

End Validation.

(** C4 as stated fails on two counts.  With [max_rent = min_rent = 1000]
    the comparison max >= min holds, yet the request is refused with 400:
    the rent pair asks for strictly greater.  With [max_bathrooms = 1.42]
    below [min_bathrooms = 1.44] the request is accepted and answered 200:
    both bounds are rounded to 1.4 before they are compared. *)
Lemma equal_rent_refused_and_close_bathrooms_accepted :
  (Qle_bool 1000 1000 = true /\
   World.run (Handlers.search_properties (Ranges.rent_between 1000 1000))
             [] Sample.store
   = (inr (Response.json 400
             (Response.invalid "Invalid search parameters"
                [ {| Joi.key := "max_rent"; Joi.type := "number.greater" |} ])),
      Sample.store, [])) /\
  (Joi.Qlt_bool (142 # 100) (144 # 100) = true /\
   Ranges.accepted (Ranges.bathrooms_between (144 # 100) (142 # 100)) = true /\
   exists r log,
     World.run (Handlers.search_properties
                  (Ranges.bathrooms_between (144 # 100) (142 # 100)))
               [] Sample.store
     = (inr r, Sample.store, log) /\ Response.status r = 200).
Proof.
  split; [split; reflexivity|].
  split; [reflexivity|]. split; [reflexivity|].
  do 2 eexists. split; [vm_compute; reflexivity | reflexivity].
Qed.

(** C4, amended: when both members of a range pair are supplied, the
    request is accepted exactly when the request without the max member is
    accepted, the max member satisfies the bounds of its own key, and
    [max_rent > min_rent] (strictly: equal bounds are refused),
    [max_bedrooms >= min_bedrooms], [max_sqft >= min_sqft], or
    [max_bathrooms >= min_bathrooms] once both are rounded to one decimal
    place.  A request that is not accepted is answered 400 and no query
    is issued. *)
Theorem range_pairs_accepted_iff :
  forall (q : SearchQuery.t) (a b : Q) (ticks : list World.Tick) (s : Store),
    (Ranges.accepted q = false ->
     exists e,
       searchPropertiesSchema q = inl e /\
       World.run (Handlers.search_properties q) ticks s
       = (inr (Response.json 400
                 (Response.invalid "Invalid search parameters" [e])), s, [])) /\
    (SearchQuery.min_rent q = Some a ->
     Ranges.accepted (Ranges.with_max_rent (Some b) q)
     = Ranges.accepted (Ranges.with_max_rent None q) &&
       (Joi.safe b && Joi.Qlt_bool 0 b && Qle_bool b 50000) &&
       Joi.Qlt_bool a b) /\
    (SearchQuery.min_bedrooms q = Some a ->
     Ranges.accepted (Ranges.with_max_bedrooms (Some b) q)
     = Ranges.accepted (Ranges.with_max_bedrooms None q) &&
       (Joi.safe b && Qeq_bool b (inject_Z (Qfloor b)) &&
        Qle_bool 0 b && Qle_bool b 20) &&
       Qle_bool a b) /\
    (SearchQuery.min_bathrooms q = Some a ->
     Ranges.accepted (Ranges.with_max_bathrooms (Some b) q)
     = Ranges.accepted (Ranges.with_max_bathrooms None q) &&
       (Joi.safe b && Joi.Qlt_bool 0 (Joi.precision 1 b) &&
        Qle_bool (Joi.precision 1 b) 20) &&
       Qle_bool (Joi.precision 1 a) (Joi.precision 1 b)) /\
    (SearchQuery.min_sqft q = Some a ->
     Ranges.accepted (Ranges.with_max_sqft (Some b) q)
     = Ranges.accepted (Ranges.with_max_sqft None q) &&
       (Joi.safe b && Qeq_bool b (inject_Z (Qfloor b)) &&
        Joi.Qlt_bool 0 b && Qle_bool b 50000) &&
       Qle_bool a b).
Proof.
  intros q a b ticks s. repeat split.
  - apply search_refused.
  - apply rent_pair.
  - apply bedrooms_pair.
  - apply bathrooms_pair.
  - apply sqft_pair.
Qed.

(** ** The search: the WHERE clause and what it means *)

Section Where.

Import Handlers Filter.

Lemma string_truthy (rules : list (Joi.Rule string)) (k : string)
      (o o' : option string) :
  Joi.string_ rules k o = inr o' -> truthy o'.
Proof.
  unfold Joi.string_, truthy, Js.truthy_string. destruct o as [x|].
  - destruct (String.eqb x EmptyString) eqn:E; [discriminate|].
    destruct (Joi.first_failure rules x); [discriminate|].
    intros H t Ht. injection H as <-. injection Ht as <-. rewrite E. reflexivity.
  - intros H t Ht. injection H as <-. discriminate.
Qed.

Lemma default_whole (d lo : Q) (rules : list (Joi.Rule Q)) (k : string)
      (o o' : option Q) :
  Qeq_bool d (inject_Z (Qfloor d)) = true -> Qle_bool lo d = true ->
  (forall x, Joi.first_failure rules x = None ->
             Qeq_bool x (inject_Z (Qfloor x)) = true /\ Qle_bool lo x = true) ->
  Joi.default d (Joi.number None rules k o) = inr o' ->
  whole_number lo o'.
Proof.
  intros Hd Hlo Hrules. unfold Joi.number, whole_number. destruct o as [x|].
  - destruct (negb (Joi.safe x)); [discriminate|].
    destruct (Joi.first_failure rules x) eqn:E; [discriminate|].
    cbn. intros H. injection H as <-. exists x. split; [reflexivity|].
    apply Hrules, E.
  - cbn. intros H. injection H as <-. exists d. auto.
Qed.

Lemma schema_validated (q v : SearchQuery.t) :
  searchPropertiesSchema q = inr v -> validated v.
Proof.
  unfold searchPropertiesSchema. intros H. key_by_key H.
  injection H as <-.
  constructor; cbn [SearchQuery.city SearchQuery.state SearchQuery.zip_code
                    SearchQuery.limit SearchQuery.offset].
  - eapply string_truthy; eassumption.
  - eapply string_truthy; eassumption.
  - eapply string_truthy; eassumption.
  - eapply (default_whole 20%Q 1%Q); [reflexivity | reflexivity | | eassumption].
    intros y. cbv [Joi.first_failure Joi.integer Joi.min Joi.max Joi.rule].
    destruct (Qeq_bool y _); [|discriminate].
    destruct (Qle_bool 1 y); [|discriminate]. auto.
  - intros y Hy. subst.
    revert E11. unfold Joi.number. destruct (SearchQuery.limit q) as [z|]; cbn.
    + destruct (negb (Joi.safe z)); [discriminate|].
      cbv [Joi.first_failure Joi.integer Joi.min Joi.max Joi.rule].
      destruct (Qeq_bool z _); [|discriminate].
      destruct (Qle_bool 1 z); [|discriminate].
      destruct (Qle_bool z 100) eqn:Ez; [|discriminate].
      intros H. injection H as <-. exact Ez.
    + intros H. injection H as <-. reflexivity.
  - eapply (default_whole 0%Q 0%Q); [reflexivity | reflexivity | | eassumption].
    intros y. cbv [Joi.first_failure Joi.integer Joi.min Joi.rule].
    destruct (Qeq_bool y _); [|discriminate].
    destruct (Qle_bool 0 y); [|discriminate]. auto.
Qed.

Lemma number_value (places : option nat) (rules : list (Joi.Rule Q)) (k : string)
      (o o' : option Q) :
  Joi.number places rules k o = inr o' ->
  o' = option_map (fun x => match places with
                            | Some n => Joi.precision n x
                            | None => x
                            end) o.
Proof.
  unfold Joi.number. destruct o as [x|]; [|intros H; injection H as <-; reflexivity].
  destruct (negb (Joi.safe x)); [discriminate|].
  destruct (Joi.first_failure rules _); [discriminate|].
  intros H. injection H as <-. reflexivity.
Qed.

Lemma string_value (rules : list (Joi.Rule string)) (k : string)
      (o o' : option string) :
  Joi.string_ rules k o = inr o' -> o' = o.
Proof.
  unfold Joi.string_. destruct o as [x|]; [|intros H; injection H as <-; reflexivity].
  destruct (String.eqb x EmptyString); [discriminate|].
  destruct (Joi.first_failure rules x); [discriminate|].
  intros H. injection H as <-. reflexivity.
Qed.

Lemma valid_value (allowed : list string) (k : string) (o o' : option string) :
  Joi.valid allowed k o = inr o' -> o' = o.
Proof.
  unfold Joi.valid. destruct o as [x|]; [|intros H; injection H as <-; reflexivity].
  destruct (existsb _ allowed); [|discriminate].
  intros H. injection H as <-. reflexivity.
Qed.

Lemma default_value (d : Q) (rules : list (Joi.Rule Q)) (k : string)
      (o o' : option Q) :
  Joi.default d (Joi.number None rules k o) = inr o' ->
  o' = Some (or_default d o).
Proof.
  destruct (Joi.number None rules k o) as [e|x] eqn:E; [discriminate|].
  apply number_value in E. subst. destruct o; cbn; intros H; injection H as <-;
    reflexivity.
Qed.

Lemma schema_converted (q v : SearchQuery.t) :
  searchPropertiesSchema q = inr v -> v = converted q.
Proof.
  unfold searchPropertiesSchema. intros H. key_by_key H.
  injection H as <-. unfold converted.
  repeat match goal with
  | E : Joi.string_ _ _ _ = inr _ |- _ => apply string_value in E
  | E : Joi.valid _ _ _ = inr _ |- _ => apply valid_value in E
  | E : Joi.default _ _ = inr _ |- _ => apply default_value in E
  | E : Joi.number _ _ _ _ = inr _ |- _ => apply number_value in E
  end.
  subst. repeat f_equal;
    match goal with |- _ = ?o => destruct o; reflexivity end.
Qed.

Lemma where_seq (conditions : list Sql.Condition) (params extra : list Sql.Param)
      (r : Joined) (first : nat) :
  map Sql.placeholder conditions = seq (S first) (List.length conditions) ->
  (first + List.length conditions <= List.length params)%nat ->
  Db.where_ conditions (params ++ extra) r = Db.where_ conditions params r.
Proof.
  revert first. unfold Db.where_.
  induction conditions as [|c conditions IH]; intros first Hseq Hlen.
  - reflexivity.
  - cbn [map List.length seq] in Hseq, Hlen. injection Hseq as Hc Hrest.
    cbn [forallb]. f_equal.
    + unfold Db.holds. rewrite Hc. cbn [Nat.pred].
      rewrite nth_error_app1 by lia. reflexivity.
    + apply (IH (S first)); [exact Hrest | lia].
Qed.

Lemma where_in_step (w : Where) (extra : list Sql.Param) (r : Joined) :
  in_step w ->
  Db.where_ (whereConditions w) (queryParams w ++ extra) r = meaning w r.
Proof.
  intros [Hcount Hseq]. apply (where_seq _ _ _ _ O).
  - rewrite Hseq. f_equal.
    rewrite <- (length_map Sql.placeholder), Hseq, length_seq. reflexivity.
  - rewrite <- (length_map Sql.placeholder), Hseq, length_seq. lia.
Qed.

Lemma push_in_step (t : Sql.Test) (value : Sql.Param) (w : Where) :
  in_step w -> in_step (push t value w).
Proof.
  intros [Hcount Hseq]. split; cbn [push paramCount queryParams whereConditions].
  - rewrite length_app. cbn. lia.
  - rewrite map_app, Hseq, seq_S. reflexivity.
Qed.

Lemma push_meaning (t : Sql.Test) (value : Sql.Param) (w : Where) (r : Joined) :
  in_step w ->
  meaning (push t value w) r = meaning w r && Db.passes t (Some value) r.
Proof.
  intros Hw. unfold meaning. cbn [push queryParams whereConditions].
  unfold Db.where_ at 1. rewrite forallb_app. f_equal.
  - apply where_in_step, Hw.
  - cbn [forallb]. rewrite andb_true_r. unfold Db.holds.
    cbn [Sql.test Sql.placeholder Nat.pred].
    destruct Hw as [-> _]. rewrite nth_error_app2 by lia.
    rewrite Nat.sub_diag. reflexivity.
Qed.

Lemma if_defined_step {A : Type} (o : option A) (t : Sql.Test)
      (value : A -> Sql.Param) (w : Where) (r : Joined) :
  in_step w ->
  in_step (if_defined o t value w) /\
  meaning (if_defined o t value w) r
  = meaning w r && supplied o (fun x => Db.passes t (Some (value x)) r).
Proof.
  intros Hw. destruct o as [x|]; cbn [if_defined supplied].
  - split; [apply push_in_step, Hw | apply push_meaning, Hw].
  - split; [exact Hw | rewrite andb_true_r; reflexivity].
Qed.

Lemma if_defined_tests {A : Type} (o : option A) (t : Sql.Test)
      (value : A -> Sql.Param) (w : Where) :
  map Sql.test (whereConditions (if_defined o t value w))
  = (map Sql.test (whereConditions w) ++ asks o t)%list.
Proof.
  destruct o as [x|]; cbn [if_defined asks push whereConditions].
  - rewrite map_app. reflexivity.
  - symmetry. apply app_nil_r.
Qed.

Lemma if_truthy_tests (o : option string) (t : Sql.Test)
      (value : string -> Sql.Param) (w : Where) :
  truthy o ->
  map Sql.test (whereConditions (if_truthy o t value w))
  = (map Sql.test (whereConditions w) ++ asks o t)%list.
Proof.
  intros Ho. destruct o as [x|]; cbn [if_truthy asks].
  - rewrite (Ho x eq_refl). cbn [push whereConditions]. rewrite map_app. reflexivity.
  - symmetry. apply app_nil_r.
Qed.

(** The WHERE clause holds one condition for each supplied parameter and
    none for an omitted one. *)
Lemma build_where_tests (v : SearchQuery.t) :
  validated v ->
  map Sql.test (whereConditions (build_where v)) = supplied_tests v.
Proof.
  intros Hv. unfold build_where.
  rewrite !if_defined_tests.
  rewrite !if_truthy_tests by apply Hv.
  cbn [whereConditions map app]. unfold supplied_tests.
  rewrite <- !app_assoc. reflexivity.
Qed.

Lemma if_truthy_step (o : option string) (t : Sql.Test)
      (value : string -> Sql.Param) (w : Where) (r : Joined) :
  truthy o -> in_step w ->
  in_step (if_truthy o t value w) /\
  meaning (if_truthy o t value w) r
  = meaning w r && supplied o (fun x => Db.passes t (Some (value x)) r).
Proof.
  intros Ho Hw. destruct o as [x|]; cbn [if_truthy supplied].
  - rewrite (Ho x eq_refl).
    split; [apply push_in_step, Hw | apply push_meaning, Hw].
  - split; [exact Hw | rewrite andb_true_r; reflexivity].
Qed.

(** The WHERE clause the handler builds means the filter of the
    specification. *)
Lemma build_where_meaning (v : SearchQuery.t) (r : Joined) :
  validated v ->
  in_step (build_where v) /\ meaning (build_where v) r = satisfies v r.
Proof.
  intros Hv. unfold build_where.
  set (w0 := {| whereConditions := []; queryParams := []; paramCount := 0 |}).
  assert (in_step w0) as H0 by (split; reflexivity).
  destruct (if_truthy_step (SearchQuery.city v) Sql.city_like
              (fun city => Sql.PText (percent city)) w0 r
              (city_truthy v Hv) H0) as [H1 M1].
  set (w1 := if_truthy (SearchQuery.city v) _ _ w0) in *.
  destruct (if_truthy_step (SearchQuery.state v) Sql.state_equals Sql.PText w1 r
              (state_truthy v Hv) H1) as [H2 M2].
  set (w2 := if_truthy (SearchQuery.state v) _ _ w1) in *.
  destruct (if_truthy_step (SearchQuery.zip_code v) Sql.zip_equals Sql.PText w2 r
              (zip_code_truthy v Hv) H2) as [H3 M3].
  set (w3 := if_truthy (SearchQuery.zip_code v) _ _ w2) in *.
  destruct (if_defined_step (SearchQuery.min_rent v)
              (Sql.at_least Sql.col_rent_amount) Sql.PNumber w3 r H3) as [H4 M4].
  set (w4 := if_defined (SearchQuery.min_rent v) _ _ w3) in *.
  destruct (if_defined_step (SearchQuery.max_rent v)
              (Sql.at_most Sql.col_rent_amount) Sql.PNumber w4 r H4) as [H5 M5].
  set (w5 := if_defined (SearchQuery.max_rent v) _ _ w4) in *.
  destruct (if_defined_step (SearchQuery.min_bedrooms v)
              (Sql.at_least Sql.col_bedrooms) Sql.PNumber w5 r H5) as [H6 M6].
  set (w6 := if_defined (SearchQuery.min_bedrooms v) _ _ w5) in *.
  destruct (if_defined_step (SearchQuery.max_bedrooms v)
              (Sql.at_most Sql.col_bedrooms) Sql.PNumber w6 r H6) as [H7 M7].
  set (w7 := if_defined (SearchQuery.max_bedrooms v) _ _ w6) in *.
  destruct (if_defined_step (SearchQuery.min_bathrooms v)
              (Sql.at_least Sql.col_bathrooms) Sql.PNumber w7 r H7) as [H8 M8].
  set (w8 := if_defined (SearchQuery.min_bathrooms v) _ _ w7) in *.
  destruct (if_defined_step (SearchQuery.max_bathrooms v)
              (Sql.at_most Sql.col_bathrooms) Sql.PNumber w8 r H8) as [H9 M9].
  set (w9 := if_defined (SearchQuery.max_bathrooms v) _ _ w8) in *.
  destruct (if_defined_step (SearchQuery.min_sqft v)
              (Sql.at_least Sql.col_square_feet) Sql.PNumber w9 r H9) as [H10 M10].
  set (w10 := if_defined (SearchQuery.min_sqft v) _ _ w9) in *.
  destruct (if_defined_step (SearchQuery.max_sqft v)
              (Sql.at_most Sql.col_square_feet) Sql.PNumber w10 r H10) as [H11 M11].
  set (w11 := if_defined (SearchQuery.max_sqft v) _ _ w10) in *.
  destruct (if_defined_step (SearchQuery.landlord_verified v)
              Sql.verified_equals Sql.PBool w11 r H11) as [H12 M12].
  split; [exact H12|].
  rewrite M12, M11, M10, M9, M8, M7, M6, M5, M4, M3, M2, M1.
  reflexivity.
Qed.

Lemma arity_seq (n first : nat) :
  Db.arity (seq first n) = match n with O => O | S _ => (first + n - 1)%nat end.
Proof.
  revert first. induction n as [|n IH]; intros first; [reflexivity|].
  cbn [seq Db.arity fold_right]. fold (Db.arity (seq (S first) n)).
  rewrite IH. destruct n; lia.
Qed.

Lemma positive_seq (n first : nat) :
  forallb (fun k => Nat.ltb 0 k) (seq (S first) n) = true.
Proof.
  apply forallb_forall. intros k Hk. apply in_seq in Hk.
  apply Nat.ltb_lt. lia.
Qed.

Lemma row_count_whole (lo x : Q) :
  Qle_bool 0 lo = true ->
  Qeq_bool x (inject_Z (Qfloor x)) = true -> Qle_bool lo x = true ->
  Db.row_count (Some (Sql.PNumber x)) = Some (Z.to_nat (Qfloor x)).
Proof.
  intros Hlo Hint Hx. unfold Db.row_count. rewrite Hint.
  assert (Qle_bool 0 x = true) as ->; [|reflexivity].
  apply Qle_bool_iff. apply Qle_bool_iff in Hlo, Hx.
  eapply Qle_trans; eassumption.
Qed.

Lemma last_but_one {A : Type} (l : list A) (x y : A) :
  nth_error (l ++ [x; y]) (List.length l) = Some x.
Proof. induction l as [|a l IH]; [reflexivity | exact IH]. Qed.

Lemma last_of_two {A : Type} (l : list A) (x y : A) :
  nth_error (l ++ [x; y]) (S (List.length l)) = Some y.
Proof. induction l as [|a l IH]; [reflexivity | exact IH]. Qed.

Lemma exec_search (v : SearchQuery.t) (o : Sql.OrderClause) (limit offset : Q)
      (s : Store) :
  validated v ->
  SearchQuery.limit v = Some limit -> SearchQuery.offset v = Some offset ->
  let w := build_where v in
  Db.exec (Sql.search (whereConditions w) o
                      (S (paramCount w)) (S (S (paramCount w)))
                      (queryParams w ++ [Sql.PNumber limit] ++ [Sql.PNumber offset])) s
  = (Sql.Rows (page o limit offset (matching v s)), s).
Proof.
  intros Hv Hl Ho w.
  destruct (limit_whole v Hv) as (l & El & Hlint & Hlle).
  destruct (offset_whole v Hv) as (f & Ef & Hfint & Hfle).
  rewrite Hl in El. injection El as <-. rewrite Ho in Ef. injection Ef as <-.
  assert (in_step w) as Hw by (apply (build_where_meaning v (Build_Joined
    (Build_Property 0 EmptyString EmptyString EmptyString EmptyString
       None None None None None None None 0 0)
    EmptyString EmptyString EmptyString)), Hv).
  destruct Hw as [Hcount Hseq].
  cbn [Db.exec]. unfold Db.binds.
  cbn [forallb]. rewrite Hseq, positive_seq.
  cbn [Db.arity fold_right]. fold (Db.arity (seq 1 (paramCount w))).
  rewrite arity_seq, !length_app. cbn [List.length Nat.pred].
  replace (Nat.ltb 0 (S (paramCount w)) && (Nat.ltb 0 (S (S (paramCount w))) && true)
           && Nat.eqb (List.length (queryParams w) + (1 + 1))
                (Nat.max (S (paramCount w))
                   (Nat.max (S (S (paramCount w)))
                      match paramCount w with
                      | O => O
                      | S _ => (1 + paramCount w - 1)%nat
                      end)))
    with true.
  2:{ symmetry. apply andb_true_intro. split; [reflexivity|].
      apply Nat.eqb_eq. destruct (paramCount w); lia. }
  rewrite Hcount. cbn [app].
  rewrite last_but_one, last_of_two.
  rewrite (row_count_whole 1 limit), (row_count_whole 0 offset) by (assumption || reflexivity).
  unfold page, matching. do 5 f_equal.
  apply filter_ext. intros r.
  rewrite where_in_step by (split; assumption).
  apply build_where_meaning, Hv.
Qed.

Lemma without_last_two_app {A : Type} (l : list A) (x y : A) :
  without_last_two (l ++ [x] ++ [y]) = l.
Proof.
  unfold without_last_two. rewrite !length_app. cbn [List.length].
  replace (List.length l + (1 + 1) - 2)%nat with (List.length l + 0)%nat by lia.
  rewrite firstn_app_2. cbn [firstn]. apply app_nil_r.
Qed.

Lemma exec_count (v : SearchQuery.t) (s : Store) :
  validated v ->
  let w := build_where v in
  Db.exec (Sql.count (whereConditions w) (queryParams w)) s
  = (Sql.Rows [ {| Sql.total :=
                     Pg.bigint_out (Z.of_nat (List.length (matching v s))) |} ], s).
Proof.
  intros Hv w.
  assert (in_step w /\ forall r, meaning w r = satisfies v r) as [[Hcount Hseq] Hm].
  { split; [|intros r; apply build_where_meaning, Hv].
    apply (build_where_meaning v (Build_Joined
      (Build_Property 0 EmptyString EmptyString EmptyString EmptyString
         None None None None None None None 0 0)
      EmptyString EmptyString EmptyString)), Hv. }
  cbn [Db.exec]. unfold Db.binds. rewrite Hseq, positive_seq, arity_seq.
  replace (Nat.eqb (List.length (queryParams w))
             match paramCount w with O => O | S _ => (1 + paramCount w - 1)%nat end)
    with true by (symmetry; apply Nat.eqb_eq; destruct (paramCount w); lia).
  cbn [andb]. unfold matching. do 7 f_equal.
  apply filter_ext. exact Hm.
Qed.

(** The response to a valid search request in a quiet environment. *)
Lemma search_run (q v : SearchQuery.t) (s : Store) :
  searchPropertiesSchema q = inr v ->
  exists limit offset filters,
    SearchQuery.limit v = Some limit /\ SearchQuery.offset v = Some offset /\
    World.run (search_properties q) [] s
    = (inr (Response.json 200
              (Response.listing
                 (page (orderClause (or_default "newest" (SearchQuery.sort_by v)))
                       limit offset (matching v s))
                 (pagination
                    (Js.Num (inject_Z (Z.of_nat (List.length (matching v s)))))
                    limit offset)
                 filters)),
       s,
       [World.issued
          (Sql.search (whereConditions (build_where v))
             (orderClause (or_default "newest" (SearchQuery.sort_by v)))
             (S (paramCount (build_where v))) (S (S (paramCount (build_where v))))
             (queryParams (build_where v) ++ [Sql.PNumber limit] ++ [Sql.PNumber offset]))
          None;
        World.issued
          (Sql.count (whereConditions (build_where v)) (queryParams (build_where v)))
          None]).
Proof.
  intros Hq. pose proof (schema_validated q v Hq) as Hv.
  destruct (limit_whole v Hv) as (limit & El & _).
  destruct (offset_whole v Hv) as (offset & Eo & _).
  exists limit, offset. eexists. split; [exact El|]. split; [exact Eo|].
  unfold search_properties. rewrite Hq, El, Eo. cbn [or_default].
  rewrite without_last_two_app.
  cbn [Async.try_catch Async.bind Async.query_all World.run World.answer
       World.quiet World.before World.failure List.tl].
  rewrite (exec_search v _ limit offset s Hv El Eo).
  rewrite (exec_count v s Hv).
  cbn [Async.try_catch Async.bind World.run World.error_of Sql.total].
  rewrite parseInt_bigint_out by lia.
  reflexivity.
Qed.

Lemma place_In (le : Joined -> Joined -> bool) (x y : Joined) (l : list Joined) :
  In y (Db.place le x l) <-> y = x \/ In y l.
Proof.
  induction l as [|z l IH]; cbn [Db.place].
  - cbn. intuition.
  - destruct (le x z); cbn [In]; [intuition|].
    rewrite IH. intuition.
Qed.

Lemma order_by_In (o : Sql.OrderClause) (y : Joined) (l : list Joined) :
  In y (Db.order_by o l) <-> In y l.
Proof.
  unfold Db.order_by. induction l as [|x l IH]; cbn [fold_right].
  - reflexivity.
  - rewrite place_In, IH. cbn [In]. intuition.
Qed.

(** A returned row is one of the rows that match. *)
(** Ordering rearranges the rows and does nothing else. *)
Lemma place_rearranges (le : Joined -> Joined -> bool) (x : Joined)
      (l : list Joined) :
  Permutation (Db.place le x l) (x :: l).
Proof.
  induction l as [|y l IH]; cbn [Db.place]; [reflexivity|].
  destruct (le x y); [reflexivity|].
  rewrite IH. apply perm_swap.
Qed.

Lemma order_by_rearranges (o : Sql.OrderClause) (l : list Joined) :
  Permutation (Db.order_by o l) l.
Proof.
  unfold Db.order_by. induction l as [|x l IH]; cbn [fold_right]; [reflexivity|].
  rewrite place_rearranges. apply perm_skip, IH.
Qed.

Lemma page_In (o : Sql.OrderClause) (limit offset : Q) (rows : list Joined)
      (r : Joined) :
  In r (page o limit offset rows) -> In r rows.
Proof.
  unfold page. intros H.
  apply (order_by_In o).
  rewrite <- (firstn_skipn (Z.to_nat (Qfloor offset))). apply in_or_app. right.
  rewrite <- (firstn_skipn (Z.to_nat (Qfloor limit))). apply in_or_app. left.
  exact H.
Qed.

Lemma matching_In (v : SearchQuery.t) (s : Store) (r : Joined) :
  In r (matching v s) <-> In r (Db.joined s) /\ satisfies v r = true.
Proof. apply filter_In. Qed.

(** Without a rent bound the rent plays no part in the filter. *)
Lemma satisfies_any_rent (v : SearchQuery.t) (rent : option Q) (r : Joined) :
  SearchQuery.min_rent v = None -> SearchQuery.max_rent v = None ->
  satisfies v (with_rent rent r) = satisfies v r.
Proof.
  intros Hmin Hmax. unfold satisfies. rewrite Hmin, Hmax. reflexivity.
Qed.

Lemma Qle_bool_left (x y z : Q) : x == y -> Qle_bool x z = Qle_bool y z.
Proof.
  intros H. apply eq_true_iff_eq. rewrite !Qle_bool_iff, H. reflexivity.
Qed.

Lemma Qle_bool_right (x y z : Q) : x == y -> Qle_bool z x = Qle_bool z y.
Proof.
  intros H. apply eq_true_iff_eq. rewrite !Qle_bool_iff, H. reflexivity.
Qed.

(** With bathroom bounds of one decimal place the validated value filters
    by the parameters exactly as they were supplied. *)
Lemma satisfies_as_supplied (q : SearchQuery.t) (r : Joined) :
  one_decimal (SearchQuery.min_bathrooms q) ->
  one_decimal (SearchQuery.max_bathrooms q) ->
  satisfies (converted q) r = satisfies q r.
Proof.
  intros Hmin Hmax. unfold satisfies, converted.
  cbn [SearchQuery.city SearchQuery.state SearchQuery.zip_code
       SearchQuery.min_rent SearchQuery.max_rent SearchQuery.min_bedrooms
       SearchQuery.max_bedrooms SearchQuery.min_bathrooms
       SearchQuery.max_bathrooms SearchQuery.min_sqft SearchQuery.max_sqft
       SearchQuery.landlord_verified].
  assert (supplied (option_map (Joi.precision 1) (SearchQuery.min_bathrooms q))
                   (not_below (bathrooms (prop r)))
          = supplied (SearchQuery.min_bathrooms q)
                     (not_below (bathrooms (prop r)))) as ->.
  { destruct (SearchQuery.min_bathrooms q) as [x|]; [|reflexivity].
    cbn [option_map supplied]. unfold not_below.
    destruct (bathrooms (prop r)); [|reflexivity].
    apply Qle_bool_left, Hmin. reflexivity. }
  assert (supplied (option_map (Joi.precision 1) (SearchQuery.max_bathrooms q))
                   (not_above (bathrooms (prop r)))
          = supplied (SearchQuery.max_bathrooms q)
                     (not_above (bathrooms (prop r)))) as ->.
  { destruct (SearchQuery.max_bathrooms q) as [x|]; [|reflexivity].
    cbn [option_map supplied]. unfold not_above.
    destruct (bathrooms (prop r)); [|reflexivity].
    apply Qle_bool_right, Hmax. reflexivity. }
  reflexivity.
Qed.

End Where.

(** ** Pagination arithmetic *)

Section Pagination.

Import Handlers.

Lemma ceil_div_least (total limit : Z) :
  0 < limit ->
  total <= ceil_div total limit * limit /\
  (ceil_div total limit - 1) * limit < total.
Proof.
  intros H. unfold ceil_div.
  pose proof (Z.div_mod (- total) limit ltac:(lia)).
  pose proof (Z.mod_pos_bound (- total) limit H). nia.
Qed.

Lemma floor_div_greatest (offset limit : Z) :
  0 < limit ->
  floor_div offset limit * limit <= offset /\
  offset < (floor_div offset limit + 1) * limit.
Proof.
  intros H. unfold floor_div.
  pose proof (Z.div_mod offset limit ltac:(lia)).
  pose proof (Z.mod_pos_bound offset limit H). nia.
Qed.

Lemma whole_is_floor (x : Q) :
  Qeq_bool x (inject_Z (Qfloor x)) = true -> x == inject_Z (Qfloor x).
Proof. apply Qeq_bool_iff. Qed.

Lemma whole_bound (lo : Z) (x : Q) :
  x == inject_Z (Qfloor x) -> (inject_Z lo <= x)%Q -> lo <= Qfloor x.
Proof. intros Hx Hlo. rewrite Hx in Hlo. rewrite Zle_Qle. exact Hlo. Qed.

Lemma quotient_of_wholes (a b : Z) :
  0 < b -> inject_Z a / inject_Z b == a # Z.to_pos b.
Proof.
  intros H. rewrite Qmake_Qdiv. rewrite Z2Pos.id by exact H. reflexivity.
Qed.

Lemma Qred_inject_Z (z : Z) : Qred (inject_Z z) = inject_Z z.
Proof. apply Qcanon.Qred_identity. simpl. apply Z.gcd_1_r. Qed.

Lemma lt_wholes (a b : Z) :
  Js.lt (Js.Num (inject_Z a)) (Js.Num (inject_Z b)) = (a <? b).
Proof.
  unfold Js.lt, Qle_bool. simpl. rewrite !Z.mul_1_r.
  rewrite Z.ltb_antisym. reflexivity.
Qed.

(** The pagination metadata of a whole count, limit and offset. *)
Lemma pagination_whole (total : Z) (limit offset : Q) :
  Qeq_bool limit (inject_Z (Qfloor limit)) = true -> Qle_bool 1 limit = true ->
  Qeq_bool offset (inject_Z (Qfloor offset)) = true -> Qle_bool 0 offset = true ->
  let L := Qfloor limit in
  let O := Qfloor offset in
  let p := pagination (Js.Num (inject_Z total)) limit offset in
  1 <= L /\ 0 <= O /\
  Response.total_pages p = Js.Num (inject_Z (ceil_div total L)) /\
  Response.current_page p = Js.Num (inject_Z (floor_div O L + 1)) /\
  Response.has_next p = (floor_div O L + 1 <? ceil_div total L) /\
  Response.has_previous p = (1 <? floor_div O L + 1).
Proof.
  intros Hlint Hl Hoint Ho L O p.
  apply whole_is_floor in Hlint, Hoint.
  apply Qle_bool_iff in Hl, Ho.
  assert (1 <= L) as HL by (apply (whole_bound 1 limit); assumption).
  assert (0 <= O) as HO by (apply (whole_bound 0 offset); assumption).
  assert (Qeq_bool limit 0 = false) as Hnz.
  { apply not_true_iff_false. intros E. apply Qeq_bool_iff in E.
    rewrite E in Hl. apply Qle_not_lt in Hl. apply Hl. reflexivity. }
  assert (Response.total_pages p = Js.Num (inject_Z (ceil_div total L))) as Htp.
  { unfold p, pagination. cbn [Response.total_pages].
    unfold Js.div, Js.ceil, Js.lift. rewrite Hnz. do 2 f_equal.
    unfold Js.Math_ceil.
    rewrite (Qceiling_comp _ (total # Z.to_pos L)).
    - unfold Qceiling, Qfloor, ceil_div. cbn [Qopp Qnum Qden].
      rewrite Z2Pos.id by lia. reflexivity.
    - rewrite Qred_correct, Hlint. apply quotient_of_wholes. lia. }
  assert (Response.current_page p = Js.Num (inject_Z (floor_div O L + 1))) as Hcp.
  { unfold p, pagination. cbn [Response.current_page].
    unfold Js.div, Js.floor, Js.plus, Js.lift. rewrite Hnz. f_equal.
    unfold Js.Math_floor.
    rewrite (Qfloor_comp _ (O # Z.to_pos L)).
    - rewrite <- (Qred_inject_Z (floor_div O L + 1)). apply Qred_complete.
      unfold Qfloor at 1. rewrite Z2Pos.id by lia.
      unfold floor_div. rewrite inject_Z_plus. reflexivity.
    - rewrite Qred_correct, Hlint, Hoint. apply quotient_of_wholes. lia. }
  repeat split; try assumption.
  - unfold p in *. unfold pagination in *.
    cbn [Response.has_next Response.total_pages Response.current_page] in *.
    rewrite Htp, Hcp. apply lt_wholes.
  - unfold p in *. unfold pagination in *.
    cbn [Response.has_previous Response.total_pages Response.current_page] in *.
    rewrite Hcp. unfold Js.gt. apply (lt_wholes 1).
Qed.

End Pagination.

(** ** The search endpoint *)

(** C2 as stated fails.  GET /properties?min_bathrooms=1.44 passes
    validation and is answered 200 with the listing that has 1.4
    bathrooms, which does not satisfy the bound supplied: validation
    rounds the bound to 1.4 and the query compares with that. *)
Lemma bathrooms_bound_rounded_before_filtering :
  Ranges.accepted (Sample.bathrooms_from (144 # 100)) = true /\
  exists r pagination filters log,
    World.run (Handlers.search_properties (Sample.bathrooms_from (144 # 100)))
              [] Sample.lofts
    = (inr (Response.json 200 (Response.listing [r] pagination filters)),
       Sample.lofts, log) /\
    prop r = Sample.loft /\
    Filter.not_below (bathrooms (prop r)) (144 # 100) = false /\
    Filter.satisfies (Sample.bathrooms_from (144 # 100)) r = false.
Proof.
  split; [reflexivity|].
  do 4 eexists. split; [vm_compute; reflexivity|].
  repeat split; reflexivity.
Qed.

(** C2, amended: a search request that passes validation, with texts the
    store accepts, is answered 200 with rows filtered by the conjunction
    of exactly the conditions of the supplied parameters, each bound taken
    as validation returns it: the bathroom bounds rounded to one decimal
    place, every other parameter as supplied.  The WHERE clause of both
    queries holds one comparison per supplied parameter and none for an
    omitted one; every returned row is a joined row of the store that
    satisfies every one of these conditions; the rows returned are the
    page, by limit and offset, of the rows that satisfy them, in some
    order; the count is the number of rows that satisfy them; when
    [min_rent] is omitted a listing matches whatever its rent, NULL
    included.  When the bathroom bounds have at most one decimal place the
    conditions are those of the parameters as supplied. *)
Theorem search_filters_by_supplied_parameters :
  forall (q v : SearchQuery.t) (s : Store),
    searchPropertiesSchema q = inr v ->
    sendable q = true ->
    v = Filter.converted q /\
    exists rows pagination filters conditions order l o params params',
      World.run (Handlers.search_properties q) [] s
      = (inr (Response.json 200 (Response.listing rows pagination filters)), s,
         [World.issued (Sql.search conditions order l o params) None;
          World.issued (Sql.count conditions params') None]) /\
      map Sql.test conditions = Filter.supplied_tests v /\
      (forall r, In r rows -> In r (Db.joined s) /\ Filter.satisfies v r = true) /\
      (forall r, In r (matching v s) <->
                 In r (Db.joined s) /\ Filter.satisfies v r = true) /\
      (exists sorted limit offset,
         Permutation sorted (matching v s) /\
         SearchQuery.limit v = Some limit /\
         SearchQuery.offset v = Some offset /\
         rows = firstn (Z.to_nat (Qfloor limit))
                       (skipn (Z.to_nat (Qfloor offset)) sorted)) /\
      Response.total_count pagination
      = Js.Num (inject_Z (Z.of_nat (List.length (matching v s)))) /\
      (SearchQuery.min_rent q = None ->
       forall rent r,
         Filter.satisfies v (Filter.with_rent rent r) = Filter.satisfies v r) /\
      (Filter.one_decimal (SearchQuery.min_bathrooms q) ->
       Filter.one_decimal (SearchQuery.max_bathrooms q) ->
       forall r, Filter.satisfies v r = Filter.satisfies q r).
Proof.
  intros q v s Hq _. split; [apply schema_converted, Hq|].
  destruct (search_run q v s Hq) as (limit & offset & filters & Hl & Ho & Hrun).
  do 9 eexists. split; [exact Hrun|].
  split; [apply build_where_tests, (schema_validated q), Hq|].
  split.
  { intros r Hr. apply matching_In. eapply page_In, Hr. }
  split; [intros r; apply matching_In|].
  split.
  { eexists. exists limit, offset. split; [apply order_by_rearranges|].
    split; [exact Hl|]. split; [exact Ho | reflexivity]. }
  split; [reflexivity|].
  split.
  - intros Hmin rent r.
    assert (Hmax : SearchQuery.max_rent q = None).
    { apply max_rent_needs_min_rent; [|exact Hmin].
      unfold Ranges.accepted. rewrite Hq. reflexivity. }
    apply satisfies_any_rent.
    + rewrite (schema_converted q v Hq). exact Hmin.
    + rewrite (schema_converted q v Hq). exact Hmax.
  - intros Hmin Hmax r. rewrite (schema_converted q v Hq).
    apply satisfies_as_supplied; assumption.
Qed.

(** C3: for a valid search request the limit is a whole number from 1 to
    100, the offset a whole number from 0, the total count the number of
    matching rows, and the response carries
    [total_pages = ceil(total_count / limit)], the least number of pages
    of [limit] rows that hold [total_count] rows, and
    [current_page = floor(offset / limit) + 1]. *)
Theorem pagination_total_pages_and_current_page :
  forall (q v : SearchQuery.t) (s : Store),
    searchPropertiesSchema q = inr v ->
    exists rows pagination filters log limit offset,
      World.run (Handlers.search_properties q) [] s
      = (inr (Response.json 200 (Response.listing rows pagination filters)), s, log) /\
      SearchQuery.limit v = Some limit /\ SearchQuery.offset v = Some offset /\
      let L := Qfloor limit in
      let O := Qfloor offset in
      let T := Z.of_nat (List.length (matching v s)) in
      limit == inject_Z L /\ 1 <= L <= 100 /\ offset == inject_Z O /\ 0 <= O /\
      Response.total_count pagination = Js.Num (inject_Z T) /\
      Response.total_pages pagination = Js.Num (inject_Z (ceil_div T L)) /\
      Response.current_page pagination = Js.Num (inject_Z (floor_div O L + 1)) /\
      (T <= ceil_div T L * L /\ (ceil_div T L - 1) * L < T) /\
      (floor_div O L * L <= O /\ O < (floor_div O L + 1) * L).
Proof.
  intros q v s Hq.
  destruct (search_run q v s Hq) as (limit & offset & filters & Hl & Ho & Hrun).
  pose proof (schema_validated q v Hq) as Hv.
  destruct (Filter.limit_whole v Hv) as (l & El & Hlint & Hlle).
  destruct (Filter.offset_whole v Hv) as (f & Ef & Hfint & Hfle).
  rewrite Hl in El. injection El as <-. rewrite Ho in Ef. injection Ef as <-.
  pose proof (Filter.limit_at_most v Hv limit Hl) as Hmax.
  destruct (pagination_whole (Z.of_nat (List.length (matching v s)))
              limit offset Hlint Hlle Hfint Hfle)
    as (HL & HO & Htp & Hcp & _).
  do 6 eexists. split; [exact Hrun|]. split; [exact Hl|]. split; [exact Ho|].
  cbv zeta.
  split; [apply whole_is_floor, Hlint|].
  split.
  { split; [exact HL|].
    apply Qle_bool_iff in Hmax.
    rewrite (whole_is_floor limit Hlint) in Hmax.
    change 100%Q with (inject_Z 100) in Hmax. rewrite <- Zle_Qle in Hmax.
    exact Hmax. }
  split; [apply whole_is_floor, Hfint|].
  split; [exact HO|].
  split; [reflexivity|].
  split; [exact Htp|]. split; [exact Hcp|].
  split; [apply ceil_div_least; lia | apply floor_div_greatest; lia].
Qed.

(** C10: in the response to a valid search request, [has_next] says
    whether [current_page] is below [total_pages] and [has_previous]
    whether [current_page] is above 1, for the page numbers that the same
    response carries. *)
Theorem pagination_has_next_and_has_previous :
  forall (q v : SearchQuery.t) (s : Store),
    searchPropertiesSchema q = inr v ->
    exists rows pagination filters log current total,
      World.run (Handlers.search_properties q) [] s
      = (inr (Response.json 200 (Response.listing rows pagination filters)), s, log) /\
      Response.current_page pagination = Js.Num (inject_Z current) /\
      Response.total_pages pagination = Js.Num (inject_Z total) /\
      Response.has_next pagination = (current <? total) /\
      Response.has_previous pagination = (1 <? current) /\
      Response.has_next pagination
      = Js.lt (Response.current_page pagination) (Response.total_pages pagination) /\
      Response.has_previous pagination
      = Js.gt (Response.current_page pagination) (Js.Num 1).
Proof.
  intros q v s Hq.
  destruct (search_run q v s Hq) as (limit & offset & filters & Hl & Ho & Hrun).
  pose proof (schema_validated q v Hq) as Hv.
  destruct (Filter.limit_whole v Hv) as (l & El & Hlint & Hlle).
  destruct (Filter.offset_whole v Hv) as (f & Ef & Hfint & Hfle).
  rewrite Hl in El. injection El as <-. rewrite Ho in Ef. injection Ef as <-.
  destruct (pagination_whole (Z.of_nat (List.length (matching v s)))
              limit offset Hlint Hlle Hfint Hfle)
    as (_ & _ & Htp & Hcp & Hnext & Hprev).
  do 6 eexists. split; [exact Hrun|].
  split; [exact Hcp|]. split; [exact Htp|].
  split; [exact Hnext|]. split; [exact Hprev|].
  split; reflexivity.
Qed.

(** The listings with two bedrooms or more, cheapest first, the one
    without a rent last. *)
Lemma two_bedrooms_search :
  exists pagination filters log,
    World.run (Handlers.search_properties Sample.two_bedrooms) [] Sample.listed
    = (inr (Response.json 200
              (Response.listing
                 (flat_map (Db.join_landlord Sample.listed)
                    [ Sample.oak_street 4 "4 Oak St" (Some 1500%Q) 2;
                      Sample.oak_street 1 "1 Oak St" (Some 2000%Q) 3;
                      Sample.oak_street 3 "3 Oak St" None 2 ])
                 pagination filters)),
       Sample.listed, log) /\
    Response.total_count pagination = Js.Num 3 /\
    Response.total_pages pagination = Js.Num 1 /\
    Response.current_page pagination = Js.Num 1 /\
    Response.has_next pagination = false /\
    Response.has_previous pagination = false.
Proof.
  do 3 eexists. split; [vm_compute; reflexivity|].
  repeat split; reflexivity.
Qed.

Lemma search_filters_by_supplied_parameters_witness :
  searchPropertiesSchema Sample.two_bedrooms = inr (Filter.converted Sample.two_bedrooms) /\
  exists rows pagination filters log,
    World.run (Handlers.search_properties Sample.two_bedrooms) [] Sample.listed
    = (inr (Response.json 200 (Response.listing rows pagination filters)),
       Sample.listed, log) /\
    forall r, In r rows ->
      Filter.satisfies (Filter.converted Sample.two_bedrooms) r = true.
Proof.
  split; [reflexivity|].
  destruct (search_filters_by_supplied_parameters
              Sample.two_bedrooms (Filter.converted Sample.two_bedrooms) Sample.listed
              eq_refl eq_refl)
    as (_ & rows & pagination & filters & c & o & l & f & ps & ps' &
        Hrun & _ & Hrows & _).
  exists rows, pagination, filters. eexists. split; [exact Hrun|].
  intros r Hr. apply (Hrows r Hr).
Defined.

Lemma pagination_total_pages_and_current_page_witness :
  searchPropertiesSchema Sample.two_bedrooms = inr (Filter.converted Sample.two_bedrooms) /\
  exists rows pagination filters log,
    World.run (Handlers.search_properties Sample.two_bedrooms) [] Sample.listed
    = (inr (Response.json 200 (Response.listing rows pagination filters)),
       Sample.listed, log) /\
    Response.total_pages pagination
    = Js.Num (inject_Z (ceil_div
        (Z.of_nat (List.length (matching (Filter.converted Sample.two_bedrooms) Sample.listed)))
        10)) /\
    Response.current_page pagination = Js.Num (inject_Z (floor_div 0 10 + 1)).
Proof.
  split; [reflexivity|].
  destruct (pagination_total_pages_and_current_page
              Sample.two_bedrooms (Filter.converted Sample.two_bedrooms) Sample.listed eq_refl)
    as (rows & pagination & filters & log & limit & offset &
        Hrun & Hl & Ho & H).
  injection Hl as <-. injection Ho as <-.
  exists rows, pagination, filters, log. split; [exact Hrun|].
  cbv zeta in H. destruct H as (_ & _ & _ & _ & _ & Htp & Hcp & _).
  split; [exact Htp | exact Hcp].
Defined.

Lemma pagination_has_next_and_has_previous_witness :
  searchPropertiesSchema Sample.two_bedrooms = inr (Filter.converted Sample.two_bedrooms) /\
  exists rows pagination filters log current total,
    World.run (Handlers.search_properties Sample.two_bedrooms) [] Sample.listed
    = (inr (Response.json 200 (Response.listing rows pagination filters)),
       Sample.listed, log) /\
    Response.current_page pagination = Js.Num (inject_Z current) /\
    Response.total_pages pagination = Js.Num (inject_Z total) /\
    Response.has_next pagination = (current <? total) /\
    Response.has_previous pagination = (1 <? current).
Proof.
  split; [reflexivity|].
  destruct (pagination_has_next_and_has_previous
              Sample.two_bedrooms (Filter.converted Sample.two_bedrooms) Sample.listed eq_refl)
    as (rows & pagination & filters & log & current & total &
        Hrun & Hcp & Htp & Hnext & Hprev & _).
  exists rows, pagination, filters, log, current, total. auto.
Defined.

(** ** Creating a property *)

Section Create.

Import Handlers.

(** A handler whose [catch] clause answers: nothing escapes it, and what
    it answers to a thrown error is what the clause returns. *)
Lemma run_try_catch {A : Type} (m : Async.t A) (f : Async.Exception -> A)
      (ticks : list World.Tick) (s : Store) :
  World.run (Async.try_catch m (fun e => Async.Return (f e))) ticks s
  = let '(out, s', log) := World.run m ticks s in
    (inr match out with inl e => f e | inr a => a end, s', log).
Proof.
  revert ticks s. induction m as [a|e|R q k IH]; intros ticks s.
  - reflexivity.
  - reflexivity.
  - cbn [Async.try_catch World.run].
    destruct (World.answer _ q s) as [r s1].
    rewrite IH. destruct (World.run (k r) (List.tl ticks) s1) as [[out s2] log].
    reflexivity.
Qed.

(** A handler on its own in a quiet environment is the interleaving of
    that one handler: [run] and [interleave] agree. *)
Lemma run_alone {A : Type} (m : Async.t A) :
  forall s out s' log,
    World.run m [] s = (out, s', log) ->
    World.interleave (repeat 0%nat (List.length log)) [m] s = ([settled out], s').
Proof.
  induction m as [a|e|R q k IH]; intros s out s' log Hrun.
  - injection Hrun as <- <- <-. reflexivity.
  - injection Hrun as <- <- <-. reflexivity.
  - cbn [World.run World.answer World.quiet World.before World.failure List.tl]
      in Hrun.
    destruct (Db.exec q s) as [r s1] eqn:Hq.
    destruct (World.run (k r) [] s1) as [[out1 s2] log1] eqn:Hk.
    injection Hrun as <- <- <-.
    cbn [List.length repeat World.interleave nth_error World.step firstn skipn app].
    rewrite Hq. apply (IH r s1 out1 s2 log1 Hk).
Qed.

Lemma fail_stop_bind {A B : Type} (m : Async.t A) (f : A -> Async.t B) :
  fail_stop m -> (forall a, fail_stop (f a)) -> fail_stop (Async.bind m f).
Proof.
  intros Hm Hf. induction Hm as [a|e|R q k Hfail Hrows IH]; cbn [Async.bind].
  - apply Hf.
  - constructor.
  - constructor.
    + intros e. rewrite Hfail. reflexivity.
    + exact IH.
Qed.

Lemma fail_stop_query {R : Type} (q : Sql.Query R) : fail_stop (Async.query q).
Proof. constructor; [reflexivity | intros rows; constructor]. Qed.

(** In the log of a fail-stop body a failed query is the last one, and
    its error is what the body throws. *)
Lemma fail_stop_run {A : Type} (m : Async.t A) :
  fail_stop m ->
  forall ticks s out s' log,
    World.run m ticks s = (out, s', log) ->
    forall R (q : Sql.Query R) e,
      In (World.issued q (Some e)) log -> out = inl (Async.rejection e).
Proof.
  induction 1 as [a|e0|R0 q0 k Hfail Hrows IH];
    intros ticks s out s' log Hrun R q e Hin.
  - injection Hrun as <- <- <-. destruct Hin.
  - injection Hrun as <- <- <-. destruct Hin.
  - cbn [World.run] in Hrun.
    destruct (World.answer _ q0 s) as [r s1].
    destruct (World.run (k r) (List.tl ticks) s1) as [[out1 s2] log1] eqn:Hk.
    injection Hrun as <- <- <-.
    destruct r as [rows|e1].
    + destruct Hin as [Hin|Hin]; [discriminate Hin|].
      eapply IH; eassumption.
    + rewrite Hfail in Hk. injection Hk as <- <- <-.
      destruct Hin as [Hin|[]].
      cbn [World.error_of] in Hin. injection Hin as _ _ <-. reflexivity.
Qed.

Lemma create_try_fail_stop (body : CreateBody.t) :
  fail_stop (create_property_try body).
Proof.
  unfold create_property_try.
  destruct (createPropertySchema body) as [e|value]; [constructor|].
  apply fail_stop_bind; [apply fail_stop_query|].
  intros [|landlord rest]; [constructor|].
  destruct (negb _); [constructor|].
  apply fail_stop_bind; [apply fail_stop_query|].
  intros [|existing rest']; [|constructor].
  apply fail_stop_bind; [apply fail_stop_query|].
  intros [|newProperty rest'']; constructor.
Qed.

Lemma catch_rejection (e : Pg.Error) :
  create_property_catch (Async.rejection e)
  = if String.eqb (Pg.sqlstate e) "23503" then invalid_landlord_id else create_failed.
Proof. reflexivity. Qed.

(** What validation guarantees of a create body. *)
Lemma create_schema_facts (body : CreateBody.t) (value : Sql.NewProperty) :
  createPropertySchema body = inr value ->
  Joi.zip_format (Sql.new_zip_code value) = true /\
  Db.integer_in (Sql.new_landlord_id value)
  = Some (Qfloor (Sql.new_landlord_id value)).
Proof.
  unfold createPropertySchema. intros H.
  key_by_key H.
  injection H as <-. cbn [Sql.new_zip_code Sql.new_landlord_id]. split.
  - revert E2. unfold Joi.required, Joi.string_.
    destruct (CreateBody.zip_code body) as [z|]; [|discriminate].
    destruct (String.eqb z EmptyString); [discriminate|].
    cbv [Joi.first_failure Joi.pattern Joi.rule].
    destruct (Joi.zip_format z) eqn:Ez; [|discriminate].
    intros H. injection H as <-. exact Ez.
  - revert E8. unfold Joi.required, Joi.number.
    destruct (CreateBody.landlord_id body) as [l|]; [|discriminate].
    destruct (negb (Joi.safe l)); [discriminate|].
    cbv [Joi.first_failure Joi.integer Joi.rule].
    destruct (Qeq_bool l (inject_Z (Qfloor l))) eqn:El; [|discriminate].
    intros H. injection H as <-. unfold Db.integer_in. rewrite El. reflexivity.
Qed.

(** The create handler, case by case, in a quiet environment. *)
Lemma create_refused (body : CreateBody.t) (e : Joi.ValidationError)
      (ticks : list World.Tick) (s : Store) :
  createPropertySchema body = inl e ->
  World.run (create_property body) ticks s
  = (inr (Response.json 400 (Response.invalid "Validation failed" [e])), s, []).
Proof.
  intros H. unfold create_property, create_property_try. rewrite H. reflexivity.
Qed.

Lemma create_landlord_missing (body : CreateBody.t) (value : Sql.NewProperty)
      (s : Store) :
  createPropertySchema body = inr value ->
  users s !! Qfloor (Sql.new_landlord_id value) = None ->
  Db.integer_range (Qfloor (Sql.new_landlord_id value)) = true ->
  World.run (create_property body) [] s
  = (inr landlord_not_found, s, [lookup value]).
Proof.
  intros H Hu Hi. destruct (create_schema_facts body value H) as [_ Hl].
  unfold create_property, create_property_try. rewrite H.
  cbn [Async.try_catch Async.bind Async.query World.run World.answer
       World.quiet World.before World.failure Db.exec].
  rewrite Hl, Hu, Hi. reflexivity.
Qed.

(** A landlord_id beyond the INTEGERs: the lookup is refused by the
    store, and the [catch] clause answers 500. *)
Lemma create_landlord_out_of_range (body : CreateBody.t)
      (value : Sql.NewProperty) (s : Store) :
  createPropertySchema body = inr value ->
  users s !! Qfloor (Sql.new_landlord_id value) = None ->
  Db.integer_range (Qfloor (Sql.new_landlord_id value)) = false ->
  World.run (create_property body) [] s
  = (inr create_failed, s, [lookup_refused value]).
Proof.
  intros H Hu Hi. destruct (create_schema_facts body value H) as [_ Hl].
  unfold create_property, create_property_try. rewrite H.
  cbn [Async.try_catch Async.bind Async.query World.run World.answer
       World.quiet World.before World.failure Db.exec].
  rewrite Hl, Hu, Hi. reflexivity.
Qed.

Lemma integer_range_int4 (i : Z) : Db.integer_range i = true <-> int4 i.
Proof.
  unfold Db.integer_range, int4. rewrite andb_true_iff, Z.leb_le, Z.ltb_lt.
  tauto.
Qed.

Lemma create_not_landlord (body : CreateBody.t) (value : Sql.NewProperty)
      (s : Store) (u : User) :
  createPropertySchema body = inr value ->
  users s !! Qfloor (Sql.new_landlord_id value) = Some u ->
  String.eqb (role u) "landlord" = false ->
  World.run (create_property body) [] s
  = (inr invalid_user_role, s, [lookup value]).
Proof.
  intros H Hu Hr. destruct (create_schema_facts body value H) as [_ Hl].
  unfold create_property, create_property_try. rewrite H.
  cbn [Async.try_catch Async.bind Async.query World.run World.answer
       World.quiet World.before World.failure Db.exec].
  rewrite Hl, Hu.
  cbn [Async.try_catch Async.bind World.run Sql.user_role].
  rewrite Hr. reflexivity.
Qed.

Lemma create_duplicate (body : CreateBody.t) (value : Sql.NewProperty)
      (s : Store) (u : User) (p : Property) (rest : list Property) :
  createPropertySchema body = inr value ->
  users s !! Qfloor (Sql.new_landlord_id value) = Some u ->
  String.eqb (role u) "landlord" = true ->
  duplicates value s = p :: rest ->
  World.run (create_property body) [] s
  = (inr (already_exists (id p)), s, [lookup value; duplicate_check value]).
Proof.
  intros H Hu Hr Hd. destruct (create_schema_facts body value H) as [_ Hl].
  unfold create_property, create_property_try. rewrite H.
  cbn [Async.try_catch Async.bind Async.query World.run World.answer
       World.quiet World.before World.failure Db.exec].
  rewrite Hl, Hu.
  cbn [Async.try_catch Async.bind World.run Sql.user_role].
  rewrite Hr.
  cbn [negb Async.try_catch Async.bind Async.query World.run World.answer
       World.quiet World.before World.failure Db.exec List.tl].
  fold (duplicates value s). rewrite Hd. reflexivity.
Qed.

Lemma create_inserted (body : CreateBody.t) (value : Sql.NewProperty)
      (s : Store) (u : User) :
  createPropertySchema body = inr value ->
  users s !! Qfloor (Sql.new_landlord_id value) = Some u ->
  String.eqb (role u) "landlord" = true ->
  duplicates value s = [] ->
  World.run (create_property body) [] s
  = match Db.inserted s value with
    | inr row =>
        (inr (Response.json 201
                (Response.created "Property created successfully" row)),
         Db.advance s (properties s ++ [row]),
         [lookup value; duplicate_check value;
          World.issued (Sql.insert_property value) None])
    | inl e =>
        (inr (create_property_catch (Async.rejection e)), s,
         [lookup value; duplicate_check value;
          World.issued (Sql.insert_property value) (Some e)])
    end.
Proof.
  intros H Hu Hr Hd. destruct (create_schema_facts body value H) as [_ Hl].
  unfold create_property, create_property_try. rewrite H.
  cbn [Async.try_catch Async.bind Async.query World.run World.answer
       World.quiet World.before World.failure Db.exec].
  rewrite Hl, Hu.
  cbn [Async.try_catch Async.bind World.run Sql.user_role].
  rewrite Hr.
  cbn [negb Async.try_catch Async.bind Async.query World.run World.answer
       World.quiet World.before World.failure Db.exec List.tl].
  fold (duplicates value s). rewrite Hd.
  cbn [map Async.try_catch Async.bind Async.query World.run World.answer
       World.quiet World.before World.failure Db.exec List.tl].
  destruct (Db.inserted s value) as [e|row] eqn:Hi; [reflexivity|].
  assert (landlord_id row = Some (Qfloor (Sql.new_landlord_id value))) as Hrow.
  { revert Hi. unfold Db.inserted. rewrite Hl.
    destruct (Db.nullable Db.integer_in _); [|discriminate].
    destruct (Db.nullable Db.integer_in _); [|discriminate].
    destruct (Db.nullable _ _); [|discriminate].
    destruct (Db.nullable _ _); [|discriminate].
    intros Hi. injection Hi as <-. reflexivity. }
  rewrite Hrow. cbn [mbind option_bind]. rewrite Hu. reflexivity.
Qed.

(** *** Listings are told apart by address and zip code, letter case apart *)

Lemma lower_text_app (a b : string) :
  Sql.lower_text (a ++ b) = Sql.lower_text a ++ Sql.lower_text b.
Proof.
  induction a as [|c a IH]; simpl; [reflexivity | rewrite IH; reflexivity].
Qed.

Lemma lower_digit (c : ascii) : Joi.is_digit c = true -> Sql.lower_char c = c.
Proof.
  unfold Joi.is_digit, Js.digit_of, Sql.lower_char.
  destruct (_ && _)%bool eqn:E; [|discriminate]. intros _.
  apply andb_prop in E. destruct E as [E1 E2]. apply Z.leb_le in E1, E2.
  assert ((65 <=? N_of_ascii c)%N = false) as ->; [|reflexivity].
  apply N.leb_gt. generalize dependent (N_of_ascii c). intros n E1 E2. lia.
Qed.

Lemma digits_lower (n : nat) :
  forall s rest, Joi.digits n s = Some rest ->
    exists front, s = front ++ rest /\ Sql.lower_text front = front.
Proof.
  induction n as [|n IH]; intros s rest H; cbn [Joi.digits] in H.
  - injection H as <-. exists EmptyString. split; reflexivity.
  - destruct s as [|c s]; [discriminate|].
    destruct (Joi.is_digit c) eqn:Ec; [|discriminate].
    destruct (IH s rest H) as (front & -> & Hf).
    exists (String c front). split; [reflexivity|].
    cbn [Sql.lower_text]. rewrite (lower_digit c Ec), Hf. reflexivity.
Qed.

(** A zip code has no letters: case folding leaves it alone. *)
Lemma lower_zip (z : string) : Joi.zip_format z = true -> Sql.LOWER z = z.
Proof.
  unfold Joi.zip_format, Sql.LOWER. intros H.
  destruct (Joi.digits 5 z) as [rest|] eqn:E5; [|discriminate].
  destruct (digits_lower 5 z rest E5) as (front & -> & Hf).
  rewrite lower_text_app, Hf. f_equal.
  destruct rest as [|c rest]; [reflexivity|].
  destruct c as [[] [] [] [] [] [] [] []]; try discriminate H.
  destruct (Joi.digits 4 rest) as [rest'|] eqn:E4; [|discriminate].
  destruct rest'; [|discriminate].
  destruct (digits_lower 4 rest EmptyString E4) as (front' & -> & Hf').
  cbn [Sql.lower_text]. rewrite lower_text_app, Hf'. reflexivity.
Qed.

Lemma NoDup_snoc {A : Type} (l : list A) (x : A) :
  List.NoDup l -> ~ In x l -> List.NoDup (l ++ [x]).
Proof.
  induction 1 as [|y l Hy Hl IH]; intros Hx; cbn.
  - constructor; [intros [] | constructor].
  - constructor.
    + rewrite in_app_iff. cbn. intros [H|[H|[]]]; [tauto|].
      subst. apply Hx. left. reflexivity.
    + apply IH. intros H. apply Hx. right. exact H.
Qed.

Lemma NoDup_map_eq {A B : Type} (f : A -> B) (l : list A) (x y : A) :
  List.NoDup (map f l) -> In x l -> In y l -> f x = f y -> x = y.
Proof.
  induction l as [|a l IH]; intros Hn Hx Hy Hf; [destruct Hx|].
  cbn in Hn. inversion Hn as [|? ? Ha Hl]; subst.
  destruct Hx as [->|Hx], Hy as [->|Hy].
  - reflexivity.
  - exfalso. apply Ha. rewrite Hf. apply in_map, Hy.
  - exfalso. apply Ha. rewrite <- Hf. apply in_map, Hx.
  - apply IH; assumption.
Qed.

(** The duplicate check finds the rows with the key of the request. *)
Lemma duplicates_In (value : Sql.NewProperty) (s : Store) (p : Property) :
  Joi.zip_format (Sql.new_zip_code value) = true ->
  Joi.zip_format (zip_code p) = true ->
  In p (duplicates value s) <->
  In p (properties s) /\
  key_of p = listing_key (Sql.new_address value) (Sql.new_zip_code value).
Proof.
  intros Hz Hp. unfold duplicates. rewrite filter_In.
  unfold key_of, listing_key.
  rewrite (lower_zip _ Hz), (lower_zip _ Hp).
  split; intros [Hin H]; (split; [exact Hin|]).
  - apply andb_prop in H. destruct H as [Ha Hzip].
    apply String.eqb_eq in Ha, Hzip. rewrite Ha, Hzip. reflexivity.
  - injection H as Ha Hzip. rewrite Ha, Hzip, !String.eqb_refl. reflexivity.
Qed.

Lemma inserted_fields (s : Store) (value : Sql.NewProperty) (row : Property) :
  Db.inserted s value = inr row ->
  address row = Sql.new_address value /\ zip_code row = Sql.new_zip_code value.
Proof.
  unfold Db.inserted.
  destruct (Db.integer_in _); [|discriminate].
  destruct (Db.nullable Db.integer_in _); [|discriminate].
  destruct (Db.nullable Db.integer_in _); [|discriminate].
  destruct (Db.nullable _ _); [|discriminate].
  destruct (Db.nullable _ _); [|discriminate].
  intros H. injection H as <-. split; reflexivity.
Qed.

(** One create request, handled on its own, keeps the listings distinct. *)
Lemma create_keeps_distinct (body : CreateBody.t) (s : Store) :
  distinct_listings s ->
  distinct_listings (store_after (World.run (create_property body) [] s)).
Proof.
  intros [Hn Hz].
  destruct (createPropertySchema body) as [e|value] eqn:Hv.
  { rewrite (create_refused body e [] s Hv). split; assumption. }
  destruct (users s !! Qfloor (Sql.new_landlord_id value)) as [u|] eqn:Hu.
  2:{ destruct (Db.integer_range (Qfloor (Sql.new_landlord_id value))) eqn:Hi.
      - rewrite (create_landlord_missing body value s Hv Hu Hi). split; assumption.
      - rewrite (create_landlord_out_of_range body value s Hv Hu Hi).
        split; assumption. }
  destruct (String.eqb (role u) "landlord") eqn:Hr.
  2:{ rewrite (create_not_landlord body value s u Hv Hu Hr). split; assumption. }
  destruct (duplicates value s) as [|p rest] eqn:Hd.
  2:{ rewrite (create_duplicate body value s u p rest Hv Hu Hr Hd).
      split; assumption. }
  rewrite (create_inserted body value s u Hv Hu Hr Hd).
  destruct (Db.inserted s value) as [e|row] eqn:Hi; [split; assumption|].
  destruct (create_schema_facts body value Hv) as [Hzip _].
  destruct (inserted_fields s value row Hi) as [Ha Hzr].
  unfold distinct_listings, store_after. cbn [fst snd Db.advance properties].
  split.
  - rewrite map_app. apply NoDup_snoc; [exact Hn|].
    cbn [map]. intros Hin. apply in_map_iff in Hin.
    destruct Hin as (p & Hkey & Hp).
    assert (In p (duplicates value s)) as Hdup.
    { apply duplicates_In; [exact Hzip | | split; [exact Hp|]].
      - rewrite List.Forall_forall in Hz. apply Hz, Hp.
      - rewrite Hkey. unfold key_of. rewrite Ha, Hzr. reflexivity. }
    rewrite Hd in Hdup. destruct Hdup.
  - apply List.Forall_app. split; [exact Hz|].
    constructor; [|constructor]. rewrite Hzr. exact Hzip.
Qed.

Lemma reachable_distinct (s : Store) : reachable s -> distinct_listings s.
Proof.
  induction 1 as [s Hs | s body _ IH | s users' now' _ IH].
  - unfold distinct_listings. rewrite Hs. split; constructor.
  - apply create_keeps_distinct, IH.
  - exact IH.
Qed.

(** A request for a listing that exists is not served with an insert. *)
Lemma create_existing (body : CreateBody.t) (value : Sql.NewProperty)
      (s : Store) (p : Property) :
  distinct_listings s ->
  createPropertySchema body = inr value ->
  In p (properties s) ->
  key_of p = listing_key (Sql.new_address value) (Sql.new_zip_code value) ->
  (exists r log,
     World.run (create_property body) [] s = (inr r, s, log) /\
     In (Response.status r) [404; 403; 409; 500] /\
     (Response.status r = 500 -> ~ int4 (Qfloor (Sql.new_landlord_id value)))) /\
  (forall u,
     users s !! Qfloor (Sql.new_landlord_id value) = Some u ->
     role u = "landlord" ->
     World.run (create_property body) [] s
     = (inr (already_exists (id p)), s, [lookup value; duplicate_check value])).
Proof.
  intros [Hn Hz] Hv Hp Hkey.
  destruct (create_schema_facts body value Hv) as [Hzip _].
  assert (In p (duplicates value s)) as Hdup.
  { apply duplicates_In; [exact Hzip | | split; assumption].
    rewrite List.Forall_forall in Hz. apply Hz, Hp. }
  destruct (duplicates value s) as [|p' rest] eqn:Hd; [destruct Hdup|].
  assert (p' = p) as ->.
  { assert (In p' (duplicates value s)) as Hp' by (rewrite Hd; left; reflexivity).
    apply duplicates_In in Hp'; [|exact Hzip|].
    - destruct Hp' as [Hin' Hkey'].
      apply (NoDup_map_eq key_of (properties s)); try assumption.
      rewrite Hkey, Hkey'. reflexivity.
    - unfold duplicates in Hp'. apply filter_In in Hp'.
      rewrite List.Forall_forall in Hz. apply Hz, Hp'. }
  assert (forall u,
            users s !! Qfloor (Sql.new_landlord_id value) = Some u ->
            String.eqb (role u) "landlord" = true ->
            World.run (create_property body) [] s
            = (inr (already_exists (id p)), s,
               [lookup value; duplicate_check value])) as H409.
  { intros u Hu Hr. exact (create_duplicate body value s u p rest Hv Hu Hr Hd). }
  split.
  - destruct (users s !! Qfloor (Sql.new_landlord_id value)) as [u|] eqn:Hu.
    + destruct (String.eqb (role u) "landlord") eqn:Hr.
      * do 2 eexists. split; [apply (H409 u eq_refl Hr)|].
        cbn. split; [tauto | discriminate].
      * do 2 eexists.
        split; [apply (create_not_landlord body value s u Hv Hu Hr)|].
        cbn. split; [tauto | discriminate].
    + destruct (Db.integer_range (Qfloor (Sql.new_landlord_id value))) eqn:Hi.
      * do 2 eexists.
        split; [apply (create_landlord_missing body value s Hv Hu Hi)|].
        cbn. split; [tauto | discriminate].
      * do 2 eexists.
        split; [apply (create_landlord_out_of_range body value s Hv Hu Hi)|].
        cbn. split; [tauto|]. intros _ H. apply integer_range_int4 in H.
        congruence.
  - intros u Hu Hr. apply (H409 u Hu). rewrite Hr. reflexivity.
Qed.

End Create.

(** C6 as stated fails.  The body of the specification's example with
    landlord_id 3000000000 passes validation, which asks for an integer
    and sets no bound; no users row has that id; and the answer is 500,
    not 404: the number is beyond the INTEGERs of [users.id], the store
    refuses the lookup with SQLSTATE 22003 and the [catch] clause answers
    for it. *)
Lemma landlord_id_beyond_integer_is_500 :
  createPropertySchema (Sample.main_street 3000000000)
  = inr (Sample.main_street_value 3000000000) /\
  users Sample.store !! 3000000000 = None /\
  World.run (Handlers.create_property (Sample.main_street 3000000000))
            [] Sample.store
  = (inr (Response.json 500
            (Response.failed "Internal server error" "Failed to create property")),
     Sample.store,
     [World.issued (Sql.select_user 3000000000)
                   (Some Pg.numeric_value_out_of_range)]).
Proof.
  split; [reflexivity|]. split; [reflexivity|]. vm_compute. reflexivity.
Qed.

(** C6, amended: a create request that passes body validation is answered
    404 when no users row has its landlord_id and the landlord_id is
    within the range of INTEGER, 500 when it is beyond that range, and
    403 when a users row has it and that row's role is not "landlord".
    In each case the landlord lookup is the only query: the duplicate
    check and the insert are not reached, the store is left as it was,
    and the response is not 201. *)
Theorem create_checks_the_landlord_first :
  forall (body : CreateBody.t) (value : Sql.NewProperty) (s : Store),
    createPropertySchema body = inr value ->
    let landlord := Qfloor (Sql.new_landlord_id value) in
    let lookup := World.issued (Sql.select_user (Sql.new_landlord_id value)) in
    Sql.new_landlord_id value == inject_Z landlord /\
    (users s !! landlord = None -> int4 landlord ->
     World.run (Handlers.create_property body) [] s
     = (inr (Response.json 404
               (Response.failed "Landlord not found"
                  "The specified landlord_id does not exist")),
        s, [lookup None])) /\
    (users s !! landlord = None -> ~ int4 landlord ->
     World.run (Handlers.create_property body) [] s
     = (inr (Response.json 500
               (Response.failed "Internal server error"
                  "Failed to create property")),
        s, [lookup (Some Pg.numeric_value_out_of_range)])) /\
    (forall u,
       users s !! landlord = Some u -> role u <> "landlord" ->
       World.run (Handlers.create_property body) [] s
       = (inr (Response.json 403
                 (Response.failed "Invalid user role"
                    "Only users with landlord role can create properties")),
          s, [lookup None])).
Proof.
  intros body value s Hv landlord lookup. split; [|split; [|split]].
  - destruct (create_schema_facts body value Hv) as [_ Hl].
    unfold Db.integer_in in Hl.
    destruct (Qeq_bool _ _) eqn:E; [|discriminate].
    apply Qeq_bool_iff, E.
  - intros Hu Hi. apply create_landlord_missing; [exact Hv | exact Hu|].
    apply integer_range_int4, Hi.
  - intros Hu Hi. apply create_landlord_out_of_range; [exact Hv | exact Hu|].
    apply not_true_iff_false. intros H. apply Hi, integer_range_int4, H.
  - intros u Hu Hr. apply (create_not_landlord body value s u Hv Hu).
    apply String.eqb_neq, Hr.
Qed.

(** User 6 is a tenant: the request is answered 403; and no user has the
    id 7: the request is answered 404. *)
Lemma create_checks_the_landlord_first_witness :
  createPropertySchema (Sample.main_street 6) = inr (Sample.main_street_value 6) /\
  users Sample.store !! 6 = Some (Sample.person "tenant") /\
  World.run (Handlers.create_property (Sample.main_street 6)) [] Sample.store
  = (inr (Response.json 403
            (Response.failed "Invalid user role"
               "Only users with landlord role can create properties")),
     Sample.store,
     [World.issued (Sql.select_user 6) None]) /\
  createPropertySchema (Sample.main_street 7) = inr (Sample.main_street_value 7) /\
  users Sample.store !! 7 = None /\
  World.run (Handlers.create_property (Sample.main_street 7)) [] Sample.store
  = (inr (Response.json 404
            (Response.failed "Landlord not found"
               "The specified landlord_id does not exist")),
     Sample.store,
     [World.issued (Sql.select_user 7) None]).
Proof.
  split; [reflexivity|]. split; [reflexivity|].
  destruct (create_checks_the_landlord_first
              (Sample.main_street 6) (Sample.main_street_value 6) Sample.store eq_refl)
    as (_ & _ & _ & H403).
  split.
  { apply (H403 (Sample.person "tenant")).
    - reflexivity.
    - discriminate. }
  split; [reflexivity|]. split; [reflexivity|].
  destruct (create_checks_the_landlord_first
              (Sample.main_street 7) (Sample.main_street_value 7) Sample.store eq_refl)
    as (_ & H404 & _).
  apply H404; [reflexivity|].
  unfold int4. split; [apply Z.leb_le | apply Z.ltb_lt]; reflexivity.
Defined.

(** C8: whatever the environment does, a create request is answered; if
    one of its queries failed with a foreign-key violation (SQLSTATE
    23503) the answer is 400 "Invalid landlord_id", and if one failed
    with any other error it is 500. *)
Theorem foreign_key_violation_is_400 :
  forall (body : CreateBody.t) (ticks : list World.Tick) (s : Store),
    exists r s' log,
      World.run (Handlers.create_property body) ticks s = (inr r, s', log) /\
      forall R (q : Sql.Query R) (e : Pg.Error),
        In (World.issued q (Some e)) log ->
        r = if String.eqb (Pg.sqlstate e) "23503"
            then Response.json 400
                   (Response.failed "Invalid landlord_id"
                      "The specified landlord does not exist")
            else Response.json 500
                   (Response.failed "Internal server error"
                      "Failed to create property").
Proof.
  intros body ticks s. unfold Handlers.create_property.
  rewrite run_try_catch.
  destruct (World.run (Handlers.create_property_try body) ticks s)
    as [[out s'] log] eqn:Hrun.
  do 3 eexists. split; [reflexivity|].
  intros R q e Hin.
  rewrite (fail_stop_run _ (create_try_fail_stop body) _ _ _ _ _ Hrun R q e Hin).
  apply catch_rejection.
Qed.

Lemma landlord_deleted_before_insert :
  exists s',
    World.run (Handlers.create_property (Sample.main_street 5))
              Sample.landlord_deleted Sample.store
    = (inr invalid_landlord_id, s',
       [World.issued (Sql.select_user 5) None;
        World.issued (Sql.select_duplicate "123 Main St" "78701") None;
        World.issued (Sql.insert_property (Sample.main_street_value 5))
                     (Some Pg.foreign_key_violation)]) /\
    properties s' = [].
Proof. eexists. split; [vm_compute; reflexivity | reflexivity]. Qed.

(** C5 as stated fails.  Two create requests for the same listing, their
    queries answered in turns, both pass the duplicate check before
    either inserts: both are answered 201 and the table holds the listing
    twice.  And a request for an existing listing made for a user who is
    no landlord is answered 403, not 409. *)
Lemma interleaved_creates_insert_a_listing_twice :
  (exists r1 r2 s2,
     properties Sample.store = [] /\
     World.interleave [0; 1; 0; 1; 0; 1]%nat
       [Handlers.create_property (Sample.main_street 5);
        Handlers.create_property (Sample.MAIN_STREET 5)]
       Sample.store
     = ([Async.Return r1; Async.Return r2], s2) /\
     Response.status r1 = 201 /\ Response.status r2 = 201 /\
     map key_of (properties s2)
     = [("123 main st", "78701"); ("123 main st", "78701")] /\
     ~ List.NoDup (map key_of (properties s2))) /\
  (let s1 := store_after (World.run (Handlers.create_property
                                      (Sample.main_street 5)) [] Sample.store) in
   map key_of (properties s1) = [("123 main st", "78701")] /\
   World.run (Handlers.create_property (Sample.MAIN_STREET 6)) [] s1
   = (inr invalid_user_role, s1, [World.issued (Sql.select_user 6) None])).
Proof.
  split.
  - do 3 eexists. split; [reflexivity|].
    split; [vm_compute; reflexivity|].
    split; [reflexivity|]. split; [reflexivity|].
    split; [reflexivity|].
    intros H. inversion H as [|? ? Hin _]; subst. apply Hin. left. reflexivity.
  - split; [reflexivity | vm_compute; reflexivity].
Qed.

(** C5, amended: in every state reached from an empty properties table
    by create requests that are handled one at a time, no two properties
    share the same (address, zip_code) pair compared case-insensitively.
    There, a create request that passes validation, with texts the store
    can hold, and whose address and zip_code match an existing row
    case-insensitively leaves the store as it was and is answered 404,
    403 or 409, or 500 when its landlord_id is beyond the range of
    INTEGER; when its landlord_id is that of a user with role "landlord"
    the answer is 409 with the id of the conflicting row, after the
    landlord lookup and the duplicate check and without an insert. *)
Theorem sequential_creates_keep_listings_distinct :
  forall (s : Store),
    reachable s ->
    List.NoDup (map key_of (properties s)) /\
    forall (body : CreateBody.t) (value : Sql.NewProperty) (p : Property),
      createPropertySchema body = inr value ->
      storable value = true ->
      In p (properties s) ->
      key_of p = listing_key (Sql.new_address value) (Sql.new_zip_code value) ->
      (exists r log,
         World.run (Handlers.create_property body) [] s = (inr r, s, log) /\
         In (Response.status r) [404; 403; 409; 500] /\
         (Response.status r = 500 ->
          ~ int4 (Qfloor (Sql.new_landlord_id value)))) /\
      (forall u,
         users s !! Qfloor (Sql.new_landlord_id value) = Some u ->
         role u = "landlord" ->
         World.run (Handlers.create_property body) [] s
         = (inr (Response.json 409
                   (Response.conflict "Property already exists"
                      "A property with this address and zip code already exists"
                      (id p))),
            s,
            [World.issued (Sql.select_user (Sql.new_landlord_id value)) None;
             World.issued (Sql.select_duplicate (Sql.new_address value)
                                                (Sql.new_zip_code value)) None])).
Proof.
  intros s Hs. pose proof (reachable_distinct s Hs) as Hd.
  split; [exact (proj1 Hd)|].
  intros body value p Hv _ Hp Hkey.
  exact (create_existing body value s p Hd Hv Hp Hkey).
Qed.

(** The listing of the specification's example, created once and asked
    for again in capitals: 409 with the id of the first. *)
Lemma sequential_creates_keep_listings_distinct_witness :
  let s1 := store_after (World.run (Handlers.create_property
                                      (Sample.main_street 5)) [] Sample.store) in
  reachable s1 /\
  List.NoDup (map key_of (properties s1)) /\
  World.run (Handlers.create_property (Sample.MAIN_STREET 5)) [] s1
  = (inr (already_exists 1), s1,
     [World.issued (Sql.select_user 5) None;
      World.issued (Sql.select_duplicate "123 MAIN ST" "78701") None]).
Proof.
  intros s1.
  assert (reachable s1) as Hs.
  { apply reach_create, reach_empty. reflexivity. }
  split; [exact Hs|].
  destruct (sequential_creates_keep_listings_distinct s1 Hs) as [Hn _].
  split; [exact Hn | vm_compute; reflexivity].
Defined.

(** ** Statistics: the text of a [numeric] and [parseFloat] *)

Section Numeric.

Lemma digits_onto_app (fuel : nat) :
  forall n acc rest,
    Pg.digits_onto fuel n acc ++ rest = Pg.digits_onto fuel n (acc ++ rest).
Proof.
  induction fuel as [|fuel IH]; intros n acc rest; cbn [Pg.digits_onto].
  - reflexivity.
  - destruct (n <? 10); [reflexivity|]. rewrite IH. reflexivity.
Qed.

Lemma digits_onto_length (fuel : nat) :
  forall n acc (k : nat),
    0 <= n < 10 ^ Z.of_nat (S k) ->
    (String.length (Pg.digits_onto fuel n acc) <= S k + String.length acc)%nat.
Proof.
  induction fuel as [|fuel IH]; intros n acc k [H0 Hn]; cbn [Pg.digits_onto].
  - lia.
  - destruct (n <? 10) eqn:E.
    + cbn [String.length]. lia.
    + apply Z.ltb_ge in E. destruct k as [|k].
      * change (10 ^ Z.of_nat 1) with 10 in Hn. lia.
      * eapply Nat.le_trans; [apply (IH (n / 10) _ k)|cbn [String.length]; lia].
        split; [apply Z.div_pos; lia|].
        apply Z.div_lt_upper_bound; [lia|].
        rewrite (Nat2Z.inj_succ (S k)), Z.pow_succ_r in Hn by lia. exact Hn.
Qed.

(** Reading the fraction digits that [digits_onto] wrote. *)
Lemma read_fraction_onto (fuel : nat) :
  forall n acc len, 0 <= n < 2 ^ Z.of_nat (S fuel) ->
    exists k,
      String.length (Pg.digits_onto (S fuel) n acc) = (k + String.length acc)%nat /\
      Js.read_fraction 0 len (Pg.digits_onto (S fuel) n acc)
      = Js.read_fraction n (len + k) acc.
Proof.
  assert (forall n acc len, 0 <= n < 10 ->
            Js.read_fraction 0 len (String (Pg.digit_char (n mod 10)) acc)
            = Js.read_fraction n (len + 1) acc) as Hsmall.
  { intros n acc len Hn. cbn [Js.read_fraction]. rewrite Z.mod_small by lia.
    rewrite digit_of_digit_char by lia. rewrite Nat.add_1_r. reflexivity. }
  induction fuel as [|fuel IH]; intros n acc len [Hn Hlt].
  - change (2 ^ Z.of_nat 1) with 2 in Hlt.
    cbn [Pg.digits_onto]. destruct (n <? 10) eqn:E.
    + exists 1%nat. split; [reflexivity | apply Hsmall; lia].
    + apply Z.ltb_ge in E. lia.
  - cbn [Pg.digits_onto]. destruct (n <? 10) eqn:E.
    + apply Z.ltb_lt in E. exists 1%nat. split; [reflexivity | apply Hsmall; lia].
    + apply Z.ltb_ge in E.
      change (if n / 10 <? 10
              then String (Pg.digit_char (n / 10 mod 10))
                          (String (Pg.digit_char (n mod 10)) acc)
              else Pg.digits_onto fuel (n / 10 / 10)
                     (String (Pg.digit_char (n / 10 mod 10))
                             (String (Pg.digit_char (n mod 10)) acc)))
        with (Pg.digits_onto (S fuel) (n / 10)
                (String (Pg.digit_char (n mod 10)) acc)).
      destruct (IH (n / 10) (String (Pg.digit_char (n mod 10)) acc) len)
        as (k & Hk & Hr).
      { rewrite (Nat2Z.inj_succ (S fuel)), Z.pow_succ_r in Hlt by lia.
        split; [apply Z.div_pos; lia|].
        apply Z.div_lt_upper_bound; [lia|].
        generalize dependent (2 ^ Z.of_nat (S fuel)). intros. lia. }
      exists (S k). split.
      * rewrite Hk. cbn [String.length]. lia.
      * rewrite Hr. cbn [Js.read_fraction].
        rewrite digit_of_digit_char
          by (pose proof (Z.mod_pos_bound n 10); clear Hlt; lia).
        replace (n / 10 * 10 + n mod 10) with n
          by (pose proof (Z.div_mod n 10); clear Hlt; lia).
        replace (S (len + k)) with (len + S k)%nat by lia. reflexivity.
Qed.

Lemma read_fraction_zeros (k : nat) :
  forall len s,
    Js.read_fraction 0 len (Pg.zeros k ++ s) = Js.read_fraction 0 (len + k) s.
Proof.
  induction k as [|k IH]; intros len s; cbn [Pg.zeros append].
  - rewrite Nat.add_0_r. reflexivity.
  - change (Js.read_fraction 0 len (String "0" (Pg.zeros k) ++ s))
      with (Js.read_fraction 0 (S len) (Pg.zeros k ++ s)).
    rewrite IH. f_equal. lia.
Qed.

(** The fraction digits of a [numeric], read back. *)
Lemma read_fraction_padded (scale : nat) (n : Z) :
  0 <= n < 10 ^ Z.of_nat (S scale) ->
  Js.read_fraction 0 0 (Pg.padded_out (S scale) n) = (n, S scale, EmptyString).
Proof.
  intros Hn. unfold Pg.padded_out, Pg.natural_out.
  rewrite read_fraction_zeros.
  destruct (read_fraction_onto (Z.to_nat (Z.log2 n)) n EmptyString
              (0 + (S scale - String.length
                      (Pg.digits_onto (S (Z.to_nat (Z.log2 n))) n EmptyString)))
              (log2_fuel n (proj1 Hn))) as (k & Hk & Hr).
  rewrite Hr. cbn [Js.read_fraction]. do 2 f_equal.
  pose proof (digits_onto_length (S (Z.to_nat (Z.log2 n))) n EmptyString scale Hn)
    as Hlen.
  rewrite Hk in *. cbn [String.length] in *. lia.
Qed.

Lemma append_empty (s : string) : EmptyString ++ s = s.
Proof. reflexivity. Qed.

Lemma append_cons (c : ascii) (a b : string) : String c a ++ b = String c (a ++ b).
Proof. reflexivity. Qed.

Lemma pow10_pos (n : nat) : 0 < Js.pow10 n.
Proof. unfold Js.pow10. apply Z.pow_pos_nonneg; lia. Qed.

(** The text of a natural number starts with a digit. *)
Lemma natural_out_first (n : Z) :
  0 <= n -> exists c rest d,
    Pg.natural_out n = String c rest /\ Js.digit_of c = Some d.
Proof.
  intros H.
  pose proof (digits_onto_starts (Z.to_nat (Z.log2 n)) n EmptyString H
                (or_introl eq_refl)) as Hs.
  unfold Pg.natural_out. destruct (Pg.digits_onto _ n EmptyString) as [|c rest].
  - contradiction.
  - destruct rest; cbn in Hs; [destruct Hs as [d Hd] | destruct Hs as [[d Hd] _]];
      eauto.
Qed.

(** Reading back digits, a point and [S scale] fraction digits. *)
Lemma read_magnitude_numeric (scale : nat) (i f : Z) :
  0 <= i -> 0 <= f < Js.pow10 (S scale) ->
  Js.read_magnitude
    (Pg.natural_out i ++ String "." (Pg.padded_out (S scale) f))
  = Some (Qred (Qred ((i * Js.pow10 (S scale) + f) # Z.to_pos (Js.pow10 (S scale)))
                * inject_Z (10 ^ 0)),
          EmptyString).
Proof.
  intros Hi Hf. unfold Js.read_magnitude, Pg.natural_out.
  rewrite digits_onto_app, append_empty.
  rewrite read_natural_out by exact Hi.
  cbn [Js.read_digits].
  change (Js.digit_of ".") with (@None Z). cbv iota beta.
  rewrite read_fraction_padded by exact Hf.
  reflexivity.
Qed.

(** [parseFloat] reads the text of a [numeric] back to its value. *)
Lemma parseFloat_numeric_out (scale : nat) (q : Q) :
  Js.parseFloat (Pg.numeric_out (S scale) q) = Js.Num (displayed (S scale) q).
Proof.
  unfold Pg.numeric_out, displayed.
  set (u := Pg.numeric_units (S scale) q).
  set (P := Js.pow10 (S scale)).
  pose proof (pow10_pos (S scale)) as HP. fold P in HP.
  assert (0 <= Z.abs u / P) as Hi by (apply Z.div_pos; lia).
  pose proof (Z.mod_pos_bound (Z.abs u) P HP) as Hf.
  pose proof (Z.div_mod (Z.abs u) P ltac:(lia)) as Hdm.
  pose proof (read_magnitude_numeric scale (Z.abs u / P) (Z.abs u mod P) Hi Hf)
    as Hread. fold P in Hread.
  replace (Z.abs u / P * P + Z.abs u mod P) with (Z.abs u) in Hread by lia.
  destruct (natural_out_first (Z.abs u / P) Hi) as (c & rest & d & Hc & Hd).
  assert (String.prefix "Infinity"
            (Pg.natural_out (Z.abs u / P) ++
             String "." (Pg.padded_out (S scale) (Z.abs u mod P))) = false) as Hinf.
  { rewrite Hc, append_cons. cbn [String.prefix].
    destruct (ascii_dec "I" c) as [<-|_]; [discriminate Hd | reflexivity]. }
  assert (forall x : Q, Qred (Qred x * inject_Z (10 ^ 0)) = Qred x) as Hone.
  { intros x. apply Qred_complete. rewrite Qred_correct.
    change (inject_Z (10 ^ 0)) with 1%Q. apply Qmult_1_r. }
  destruct (u <? 0) eqn:Eu.
  - apply Z.ltb_lt in Eu.
    unfold Js.parseFloat. cbn [Js.trim_start].
    change (Js.is_white_space "-") with false. cbv iota.
    unfold Js.read_decimal.
    change (Js.split_sign (String "-" ?s)) with (true, s).
    cbv iota beta. rewrite Hinf, Hread. cbn [fst]. f_equal.
    rewrite Hone. apply Qred_complete. rewrite Qred_correct.
    unfold Qeq. cbn [Qopp Qnum Qden]. f_equal. lia.
  - apply Z.ltb_ge in Eu.
    unfold Js.parseFloat.
    assert (Js.trim_start
              (Pg.natural_out (Z.abs u / P) ++
               String "." (Pg.padded_out (S scale) (Z.abs u mod P)))
            = Pg.natural_out (Z.abs u / P) ++
              String "." (Pg.padded_out (S scale) (Z.abs u mod P))) as ->.
    { rewrite Hc, append_cons. cbn [Js.trim_start].
      rewrite (digit_not_white_space c d Hd). reflexivity. }
    unfold Js.read_decimal.
    assert (Js.split_sign
              (Pg.natural_out (Z.abs u / P) ++
               String "." (Pg.padded_out (S scale) (Z.abs u mod P)))
            = (false,
               Pg.natural_out (Z.abs u / P) ++
               String "." (Pg.padded_out (S scale) (Z.abs u mod P)))) as ->.
    { rewrite Hc, append_cons. apply (split_sign_digit c d), Hd. }
    rewrite Hinf, Hread. cbn [fst]. f_equal.
    rewrite Hone. f_equal. f_equal. lia.
Qed.

(** The text of a [numeric] is never the empty text. *)
Lemma numeric_out_truthy (scale : nat) (q : Q) :
  Js.truthy_string (Pg.numeric_out scale q) = true.
Proof.
  unfold Pg.numeric_out.
  destruct (natural_out_first
              (Z.abs (Pg.numeric_units scale q) / Js.pow10 scale))
    as (c & rest & d & Hc & _).
  { apply Z.div_pos; [lia | apply pow10_pos]. }
  rewrite Hc. destruct (_ <? 0); reflexivity.
Qed.

(** A [numeric] that is zero is displayed as zero. *)
Lemma displayed_zero (scale : nat) (q : Q) :
  q == 0 -> displayed scale q = 0%Q.
Proof.
  intros Hq. unfold displayed, Pg.numeric_units, Pg.round_half_away.
  assert (q * inject_Z (Js.pow10 scale) == 0) as Hz
    by (rewrite Hq; apply Qmult_0_l).
  assert (Qle_bool 0 (q * inject_Z (Js.pow10 scale)) = true) as ->.
  { apply Qle_bool_iff. rewrite Hz. apply Qle_refl. }
  rewrite (Qfloor_comp _ (1 # 2)) by (rewrite Hz; reflexivity).
  change (Qfloor (1 # 2)) with 0.
  apply (Qred_complete (0 # Z.to_pos (Js.pow10 scale)) 0). reflexivity.
Qed.

End Numeric.

(** ** The statistics endpoint *)

Section Statistics.

Import Averages.

Lemma AVG_None (data : list (option Q)) :
  Db.AVG data = None <-> Db.present data = [].
Proof.
  unfold Db.AVG. destruct (Db.present data); split; intros H;
    reflexivity || discriminate H.
Qed.

Lemma if_present_round (data : list (option Q)) :
  Handlers.if_present (option_map (Pg.numeric_out Db.avg_scale) (Db.AVG data))
                      Handlers.round_to_whole
  = reported whole data.
Proof.
  unfold reported. destruct (Db.AVG data) as [q|]; [|reflexivity].
  cbn [option_map Handlers.if_present].
  rewrite numeric_out_truthy.
  change Db.avg_scale with (S 15). rewrite parseFloat_numeric_out. reflexivity.
Qed.

Lemma if_present_tenth (data : list (option Q)) :
  Handlers.if_present (option_map (Pg.numeric_out Db.avg_scale) (Db.AVG data))
                      Handlers.round_to_tenth
  = reported tenth data.
Proof.
  unfold reported. destruct (Db.AVG data) as [q|]; [|reflexivity].
  cbn [option_map Handlers.if_present].
  rewrite numeric_out_truthy.
  change Db.avg_scale with (S 15). rewrite parseFloat_numeric_out. reflexivity.
Qed.

Lemma reported_zero (data : list (option Q)) (q : Q) :
  Db.AVG data = Some q -> q == 0 ->
  reported whole data = Some (Js.Num 0) /\ reported tenth data = Some (Js.Num 0).
Proof.
  intros Ha Hq. unfold reported. rewrite Ha. cbn [option_map].
  rewrite (displayed_zero Db.avg_scale q Hq). split; reflexivity.
Qed.

(** The rows of the statistics query are the listings with a rent, and
    the values an aggregate sees are the values of the column among
    them. *)
Lemma rented_In (s : Store) (p : Property) :
  In p (rented s) <-> In p (properties s) /\ rent_amount p <> None.
Proof.
  unfold rented. rewrite filter_In.
  destruct (rent_amount p); split; intros [H1 H2]; split;
    congruence || assumption || reflexivity.
Qed.

Lemma present_map {A : Type} (column : A -> option Q) (rows : list A) :
  Db.present (map column rows)
  = flat_map (fun p => match column p with Some x => [x] | None => [] end) rows.
Proof.
  unfold Db.present. induction rows as [|p rows IH]; [reflexivity|].
  cbn [map flat_map]. rewrite IH. reflexivity.
Qed.

Lemma present_priced_values (column : Property -> option Q) (s : Store) :
  Db.present (map column (Db.priced s)) = values column s.
Proof. apply present_map. Qed.

Lemma values_nil (column : Property -> option Q) (s : Store) :
  values column s = [] <->
  forall p, In p (properties s) -> rent_amount p <> None -> column p = None.
Proof.
  unfold values. split.
  - intros H p Hp Hr.
    assert (Hin : In p (rented s)) by (apply rented_In; split; assumption).
    destruct (column p) as [x|] eqn:Hc; [|reflexivity]. exfalso.
    assert (Hx : In x (flat_map
                         (fun p => match column p with Some x => [x] | None => [] end)
                         (rented s))).
    { apply in_flat_map. exists p. split; [exact Hin|]. rewrite Hc. left. reflexivity. }
    rewrite H in Hx. exact Hx.
  - intros H. induction (rented s) as [|p rows IH] eqn:E in H |- *.
    + reflexivity.
    + assert (Hall : forall p', In p' (p :: rows) -> column p' = None).
      { intros p' Hp'. rewrite <- E in Hp'. apply rented_In in Hp' as [Hp' Hr].
        apply H; assumption. }
      clear E H IH. induction (p :: rows) as [|p' l IHl]; [reflexivity|].
      cbn [flat_map]. rewrite (Hall p' (or_introl eq_refl)). cbn [app].
      apply IHl. intros x Hx. apply Hall. right. exact Hx.
Qed.

(** What [reported] gives is what the specification asks for. *)
Lemma reported_null_safe (rounding : Q -> Q) (column : Property -> option Q)
      (s : Store) :
  rounding 0%Q = 0%Q ->
  null_safe (reported rounding (map column (Db.priced s))) rounding (values column s).
Proof.
  intros Hzero. unfold reported, Db.AVG. rewrite present_priced_values.
  destruct (values column s) as [|v vs]; cbn [option_map].
  - split; [tauto|]. split; intros H; exfalso; apply H; reflexivity.
  - split; [split; discriminate|]. split.
    + intros _. reflexivity.
    + intros _ Hmean.
      assert (Hd : displayed 16 (mean (v :: vs)) = 0%Q)
        by (apply displayed_zero, Hmean).
      change (Some (Js.Num (rounding (displayed 16 (mean (v :: vs)))))
              = Some (Js.Num 0)).
      rewrite Hd, Hzero. reflexivity.
Qed.

End Statistics.

Lemma studios_average_bedrooms_zero :
  exists st,
    World.run Handlers.property_stats [] Sample.studios
    = (inr (Response.json 200 (Response.statistics st)), Sample.studios,
       [World.issued Sql.statistics None]) /\
    Response.average st = Some (Js.Num 1000) /\
    Response.avg_bedrooms st = Some (Js.Num 0) /\
    Response.avg_bathrooms st = Some (Js.Num 1) /\
    Response.avg_square_feet st = None.
Proof.
  eexists. split; [reflexivity|].
  repeat split; vm_compute; reflexivity.
Qed.

(** C9: the statistics handler answers 200, and each average field
    (rent average, avg_bedrooms, avg_bathrooms, avg_square_feet) is null
    exactly when the column has no value among the rows with a non-null
    rent_amount, and otherwise the average of those values, rounded to an
    integer or to one decimal place; an average of 0 is reported as 0,
    not as null. *)
Theorem statistics_averages_null_only_without_data :
  forall (s : Store),
    exists st,
      World.run Handlers.property_stats [] s
      = (inr (Response.json 200 (Response.statistics st)), s,
         [World.issued Sql.statistics None]) /\
      (forall p, In p (rented s) <-> In p (properties s) /\ rent_amount p <> None) /\
      (forall column,
         Averages.values column s = [] <->
         forall p, In p (properties s) -> rent_amount p <> None -> column p = None) /\
      Averages.null_safe (Response.average st) Averages.whole
        (Averages.values rent_amount s) /\
      Averages.null_safe (Response.avg_bedrooms st) Averages.tenth
        (Averages.values (fun p => option_map inject_Z (bedrooms p)) s) /\
      Averages.null_safe (Response.avg_bathrooms st) Averages.tenth
        (Averages.values bathrooms s) /\
      Averages.null_safe (Response.avg_square_feet st) Averages.whole
        (Averages.values (fun p => option_map inject_Z (square_feet p)) s).
Proof.
  intros s. eexists. split; [reflexivity|].
  split; [intros p; apply rented_In|].
  split; [intros column; apply values_nil|].
  unfold Handlers.statistics_of, Db.statistics_row.
  cbn [Response.average Response.avg_bedrooms Response.avg_bathrooms
       Response.avg_square_feet Sql.avg_rent Sql.avg_bedrooms Sql.avg_bathrooms
       Sql.avg_sqft].
  rewrite !if_present_round, !if_present_tenth.
  split; [apply reported_null_safe; reflexivity|].
  split; [apply (reported_null_safe _ (Db.column Sql.col_bedrooms)); reflexivity|].
  split; [apply reported_null_safe; reflexivity|].
  apply (reported_null_safe _ (Db.column Sql.col_square_feet)); reflexivity.
Qed.

(** ** Routes that are taken, answers that are given *)

Section Answers.

Import Handlers.

Lemma split_without (x : string) :
  without "/" x = true -> Express.split "/" x = [x].
Proof.
  induction x as [|c x IH]; [reflexivity|].
  cbn [without Express.split]. intros H.
  apply andb_prop in H as [Hc Hx].
  apply negb_true_iff in Hc. rewrite Hc, (IH Hx). reflexivity.
Qed.

Lemma segments_properties (x : string) :
  path_segment x = true ->
  Express.segments ("/properties/" ++ x) = Some ["properties"; x].
Proof.
  unfold path_segment. intros H.
  apply andb_prop in H as [H _]. apply andb_prop in H as [Hne Hx].
  unfold Express.segments.
  change (Express.split "/" ("/properties/" ++ x))
    with (EmptyString :: "properties" :: Express.split "/" x).
  rewrite (split_without x Hx).
  destruct x; [discriminate Hne | reflexivity].
Qed.

Lemma returns_bind {A B : Type} (P : B -> Prop) (m : Async.t A)
      (f : A -> Async.t B) :
  (forall a, returns P (f a)) -> returns P (Async.bind m f).
Proof.
  intros Hf. induction m as [a|e|R q k IH]; cbn [Async.bind].
  - apply Hf.
  - constructor.
  - constructor. intros r. apply IH.
Qed.

Lemma returns_query {R B : Type} (P : B -> Prop) (q : Sql.Query R)
      (f : list R -> Async.t B) :
  (forall rows, returns P (f rows)) -> returns P (Async.bind (Async.query q) f).
Proof. intros Hf. apply returns_bind, Hf. Qed.

(** A body inside [try], its [catch] returning a response: the handler
    answers, with a value the body returns or with the one of [catch]. *)
Lemma returns_run {A : Type} (P : A -> Prop) (m : Async.t A)
      (f : Async.Exception -> A) :
  returns P m -> (forall e, P (f e)) ->
  forall ticks s, exists a s' log,
    World.run (Async.try_catch m (fun e => Async.Return (f e))) ticks s
    = (inr a, s', log) /\ P a.
Proof.
  intros Hm Hf. induction Hm as [a Ha|e|R q k _ IH]; intros ticks s.
  - exists a, s, []. split; [reflexivity | exact Ha].
  - exists (f e), s, []. split; [reflexivity | apply Hf].
  - cbn [Async.try_catch World.run].
    destruct (World.answer _ q s) as [r s1].
    destruct (IH r (List.tl ticks) s1) as (a & s' & log & Hrun & Ha).
    rewrite Hrun. do 3 eexists. split; [reflexivity | exact Ha].
Qed.

Lemma reads_only_bind {A B : Type} (m : Async.t A) (f : A -> Async.t B) :
  reads_only m -> (forall a, reads_only (f a)) -> reads_only (Async.bind m f).
Proof.
  intros Hm Hf. induction Hm as [a|e|R q k Hq _ IH]; cbn [Async.bind].
  - apply Hf.
  - constructor.
  - constructor; [exact Hq | exact IH].
Qed.

Lemma reads_only_try {A : Type} (m : Async.t A) (f : Async.Exception -> A) :
  reads_only m -> reads_only (Async.try_catch m (fun e => Async.Return (f e))).
Proof.
  intros Hm. induction Hm as [a|e|R q k Hq _ IH]; cbn [Async.try_catch].
  - constructor.
  - constructor.
  - constructor; [exact Hq | exact IH].
Qed.

Lemma reads_only_query {R : Type} (q : Sql.Query R) :
  reads q -> reads_only (Async.query q).
Proof.
  intros Hq. constructor; [exact Hq|]. intros [rows|e]; constructor.
Qed.

Lemma reads_only_run {A : Type} (m : Async.t A) :
  reads_only m ->
  forall errors s, store_after (World.run m (failing errors) s) = s.
Proof.
  intros Hm. induction Hm as [a|e|R q k Hq _ IH]; intros errors s;
    [reflexivity | reflexivity |].
  cbn [World.run]. unfold World.answer.
  assert (Ht : exists e,
             match failing errors with t :: _ => t | [] => World.quiet end
             = {| World.before := fun s => s; World.failure := e |}).
  { destruct errors as [|e errors]; [exists None | exists e]; reflexivity. }
  destruct Ht as [e ->]. cbn [World.before World.failure].
  assert (Htl : List.tl (failing errors) = failing (List.tl errors)).
  { destruct errors; reflexivity. }
  rewrite Htl.
  destruct e as [e|].
  - specialize (IH (Sql.Failed e) (List.tl errors) s).
    destruct (World.run (k (Sql.Failed e)) _ s) as [[out s2] log]. exact IH.
  - pose proof (Hq s) as Hs.
    destruct (Db.exec q s) as [r s1]. cbn [snd] in Hs. subst s1.
    specialize (IH r (List.tl errors) s).
    destruct (World.run (k r) _ s) as [[out s2] log]. exact IH.
Qed.

Lemma reads_select_property (n : Js.number) : reads (Sql.select_property n).
Proof.
  intros s. cbn [Db.exec]. destruct n as [| |q]; try reflexivity.
  destruct (Db.integer_in q) as [i|]; [|reflexivity].
  destruct (Db.integer_range i); reflexivity.
Qed.

Lemma reads_search conditions o l f params :
  reads (Sql.search conditions o l f params).
Proof.
  intros s. cbn [Db.exec].
  destruct (Db.binds _ _); [|reflexivity].
  destruct (Db.row_count _); [|reflexivity].
  destruct (Db.row_count _); reflexivity.
Qed.

Lemma reads_count conditions params : reads (Sql.count conditions params).
Proof.
  intros s. cbn [Db.exec]. destruct (Db.binds _ _); reflexivity.
Qed.

Lemma reads_statistics : reads Sql.statistics.
Proof. intros s. reflexivity. Qed.

End Answers.

(** X1: the statistics handler is out of reach: whatever the method, the
    path and its letter case, with or without a trailing slash, no request
    is dispatched to it.  Every path its route matches is matched by
    /properties/:id, which is registered before it. *)
Theorem no_request_reaches_the_statistics_handler :
  forall (req : Express.Request) (params : list (string * string)),
    Express.route req <> Some (Express.property_stats, params).
Proof.
  intros req params. unfold Express.route, Express.routes.
  cbn [Express.first_match].
  destruct (Express.method req); cbn [Express.same_method].
  - change (Express.segments "/health") with (Some ["health"]).
    change (Express.segments "/") with (Some (@nil string)).
    change (Express.segments "/test") with (Some ["test"]).
    change (Express.segments "/setup-database") with (Some ["setup-database"]).
    change (Express.segments "/properties/:id") with (Some ["properties"; ":id"]).
    change (Express.segments "/properties") with (Some ["properties"]).
    change (Express.segments "/properties/stats") with (Some ["properties"; "stats"]).
    destruct (Express.segments (Express.path req)) as [p|]; [|discriminate].
    destruct p as [|x [|y [|z p]]]; cbn [Express.match_path].
    + discriminate.
    + repeat match goal with
             | |- context [String.eqb ?a ?b] => destruct (String.eqb a b)
             end; discriminate.
    + change (Sql.lower_text "stats") with "stats".
      repeat match goal with
             | |- context [String.eqb ?a (Sql.lower_text x)] =>
                 destruct (String.eqb a (Sql.lower_text x))
             end; try discriminate.
      all: destruct y as [|c y]; [discriminate|].
      all: cbn [String.eqb option_map Express.match_path]; discriminate.
    + repeat match goal with
             | |- context [String.eqb ?a ?b] => destruct (String.eqb a b)
             end; try discriminate.
      all: cbn [option_map]; discriminate.
  - destruct (match Express.segments "/properties" with
              | Some r => _ | None => _ end); discriminate.
Qed.

(** X2: GET /properties/x is dispatched to the handler of /properties/:id
    with [x] for the id, whatever text [x] is, as long as it can stand for
    a path segment: the application answers as that handler does. *)
Theorem get_properties_segment_is_the_id :
  forall (req : Express.Request) (x : string),
    Express.method req = Express.GET ->
    Express.path req = "/properties/" ++ x ->
    path_segment x = true ->
    Express.route req = Some (Express.get_property, [("id", x)]) /\
    Express.app req = Handlers.get_property x.
Proof.
  intros req x Hm Hp Hx.
  assert (Hr : Express.route req = Some (Express.get_property, [("id", x)])).
  { unfold Express.route, Express.routes. cbn [Express.first_match].
    rewrite Hm, Hp, (segments_properties x Hx). cbn [Express.same_method].
    change (Express.segments "/health") with (Some ["health"]).
    change (Express.segments "/") with (Some (@nil string)).
    change (Express.segments "/test") with (Some ["test"]).
    change (Express.segments "/setup-database") with (Some ["setup-database"]).
    change (Express.segments "/properties/:id") with (Some ["properties"; ":id"]).
    cbn [Express.match_path].
    change (String.eqb (Sql.lower_text "health") (Sql.lower_text "properties"))
      with false.
    change (String.eqb (Sql.lower_text "test") (Sql.lower_text "properties"))
      with false.
    change (String.eqb (Sql.lower_text "setup-database") (Sql.lower_text "properties"))
      with false.
    change (String.eqb (Sql.lower_text "properties") (Sql.lower_text "properties"))
      with true.
    cbv iota.
    unfold path_segment in Hx. destruct x; [discriminate Hx|]. reflexivity. }
  split; [exact Hr|]. unfold Express.app. rewrite Hr. reflexivity.
Qed.

Lemma get_properties_segment_is_the_id_witness :
  Express.route (Sample.get "/properties/12abc")
  = Some (Express.get_property, [("id", "12abc")]) /\
  Express.app (Sample.get "/properties/12abc") = Handlers.get_property "12abc".
Proof.
  apply (get_properties_segment_is_the_id (Sample.get "/properties/12abc") "12abc");
    reflexivity.
Defined.

(** X3: no handler lets an exception out, whatever the store does: each
    one answers, the create handler with 201, 400, 403, 404, 409 or 500,
    the handler of /properties/:id with 200, 400, 404 or 500, the search
    with 200, 400 or 500, the statistics with 200 or 500. *)
Theorem handlers_always_answer :
  forall (ticks : list World.Tick) (s : Store),
    (forall body,
       answers (Handlers.create_property body) ticks s [201; 400; 403; 404; 409; 500]) /\
    (forall id, answers (Handlers.get_property id) ticks s [200; 400; 404; 500]) /\
    (forall q, answers (Handlers.search_properties q) ticks s [200; 400; 500]) /\
    answers Handlers.property_stats ticks s [200; 500].
Proof.
  intros ticks s.
  assert (Hin : forall codes m (f : Async.Exception -> Response.t),
             returns (fun r => In (Response.status r) codes) m ->
             (forall e, In (Response.status (f e)) codes) ->
             answers (Async.try_catch m (fun e => Async.Return (f e))) ticks s codes).
  { intros codes m f Hm Hf. apply (returns_run _ m f Hm Hf). }
  split; [|split; [|split]].
  - intros body. apply Hin.
    + unfold Handlers.create_property_try.
      destruct (createPropertySchema body) as [e|value].
      { constructor. cbn. tauto. }
      apply returns_query. intros [|landlord rows]; [constructor; cbn; tauto|].
      destruct (negb _); [constructor; cbn; tauto|].
      apply returns_query. intros [|existing dup]; [|constructor; cbn; tauto].
      apply returns_query. intros [|row more]; constructor. cbn. tauto.
    + intros e. unfold Handlers.create_property_catch.
      destruct (Async.code_is e _); cbn; tauto.
  - intros id. apply Hin; [|intros e; cbn; tauto].
    cbv zeta. destruct (Js.isNaN (Js.parseInt id)); [constructor; cbn; tauto|].
    apply returns_query. intros [|row rows]; constructor; cbn; tauto.
  - intros q. apply Hin; [|intros e; cbn; tauto].
    destruct (searchPropertiesSchema q) as [e|value]; [constructor; cbn; tauto|].
    cbv zeta. apply returns_bind. intros [rows [|row count]]; constructor.
    cbn. tauto.
  - apply Hin; [|intros e; cbn; tauto].
    apply returns_query. intros [|row rows]; constructor. cbn. tauto.
Qed.

(** X4: the three reading handlers leave the store as it is, also when
    their queries fail: only the create handler writes. *)
Theorem reading_handlers_leave_the_store :
  forall (errors : list (option Pg.Error)) (s : Store),
    (forall id,
       store_after (World.run (Handlers.get_property id) (failing errors) s) = s) /\
    (forall q,
       store_after (World.run (Handlers.search_properties q) (failing errors) s) = s) /\
    store_after (World.run Handlers.property_stats (failing errors) s) = s.
Proof.
  intros errors s. split; [|split].
  - intros id. apply reads_only_run, reads_only_try.
    cbv zeta. destruct (Js.isNaN (Js.parseInt id)); [constructor|].
    apply reads_only_bind.
    + apply reads_only_query, reads_select_property.
    + intros [|row rows]; constructor.
  - intros q. apply reads_only_run, reads_only_try.
    destruct (searchPropertiesSchema q) as [e|value]; [constructor|].
    cbv zeta. apply reads_only_bind.
    + constructor; [apply reads_search|]. intros r1.
      constructor; [apply reads_count|]. intros r2.
      destruct r1, r2; constructor.
    + intros [rows [|row count]]; constructor.
  - apply reads_only_run, reads_only_try. apply reads_only_bind.
    + apply reads_only_query, reads_statistics.
    + intros [|row rows]; constructor.
Qed.

Lemma fail_stop_last {A : Type} (m : Async.t A) :
  fail_stop m ->
  forall ticks s out s' log,
    World.run m ticks s = (out, s', log) ->
    forall before R (q : Sql.Query R) e after,
      log = (before ++ World.issued q (Some e) :: after)%list -> after = [].
Proof.
  intros Hm. induction Hm as [a|x|R0 q0 k Hfail _ IH];
    intros ticks s out s' log Hrun before R q e after Hlog.
  - injection Hrun as _ _ <-. destruct before; discriminate Hlog.
  - injection Hrun as _ _ <-. destruct before; discriminate Hlog.
  - cbn [World.run] in Hrun.
    destruct (World.answer _ q0 s) as [r s1].
    destruct (World.run (k r) (List.tl ticks) s1) as [[out' s2] log'] eqn:Hk.
    injection Hrun as _ _ <-.
    destruct r as [rows|e0].
    + destruct before as [|b before]; cbn [app] in Hlog.
      * apply (f_equal (fun l => match l with
                                 | World.issued _ x :: _ => x
                                 | [] => None
                                 end)) in Hlog.
        discriminate Hlog.
      * apply (f_equal (@List.tl _)) in Hlog. cbn [List.tl] in Hlog.
        eapply (IH rows); eassumption.
    + rewrite Hfail in Hk. injection Hk as _ _ <-.
      destruct before as [|b [|b' before]]; cbn [app] in Hlog.
      * apply (f_equal (@List.tl _)) in Hlog. cbn [List.tl] in Hlog.
        symmetry. exact Hlog.
      * apply (f_equal (@List.length _)) in Hlog. discriminate Hlog.
      * apply (f_equal (@List.length _)) in Hlog.
        cbn [List.length] in Hlog. discriminate Hlog.
Qed.

(** X18: the create handler stops at the first query that fails: it asks
    nothing of the store after a failure, so that a failed landlord lookup
    or duplicate check is never followed by an insert, and it answers 400
    or 500. *)
Theorem create_stops_at_the_first_failure :
  forall (body : CreateBody.t) (ticks : list World.Tick) (s : Store),
    exists r s' log,
      World.run (Handlers.create_property body) ticks s = (inr r, s', log) /\
      forall before R (q : Sql.Query R) (e : Pg.Error) after,
        log = (before ++ World.issued q (Some e) :: after)%list ->
        after = [] /\ (Response.status r = 400 \/ Response.status r = 500).
Proof.
  intros body ticks s. unfold Handlers.create_property.
  rewrite run_try_catch.
  destruct (World.run (Handlers.create_property_try body) ticks s)
    as [[out s'] log] eqn:Hrun.
  do 3 eexists. split; [reflexivity|].
  intros before R q e after Hlog. split.
  - eapply (fail_stop_last _ (create_try_fail_stop body)); eassumption.
  - assert (Hout : out = inl (Async.rejection e)).
    { eapply (fail_stop_run _ (create_try_fail_stop body)); [exact Hrun|].
      rewrite Hlog. apply in_or_app. right. left. reflexivity. }
    rewrite Hout, catch_rejection.
    destruct (String.eqb (Pg.sqlstate e) "23503"); [left | right]; reflexivity.
Qed.

(** ** What the create handler accepts and what it stores *)

Section Created.

Import Handlers.

Lemma create_bounds (body : CreateBody.t) :
  ok (createPropertySchema body) = Bounds.create body.
Proof.
  destruct body as [a c st z rent beds baths sqft desc l others].
  cbv [Bounds.create Bounds.required Bounds.text Bounds.whole Filter.supplied
       createPropertySchema Joi.bind Joi.required Joi.string_ Joi.number
       Joi.first_failure Joi.min_length Joi.max_length Joi.pattern Joi.positive
       Joi.integer Joi.min Joi.max Joi.rule Joi.fails Joi.known_keys ok
       CreateBody.address CreateBody.city CreateBody.state CreateBody.zip_code
       CreateBody.rent_amount CreateBody.bedrooms CreateBody.bathrooms
       CreateBody.square_feet CreateBody.description CreateBody.landlord_id
       CreateBody.other_keys].
  destruct a as [a|]; [|reflexivity].
  destruct (String.eqb a EmptyString); [reflexivity|].
  destruct (Nat.leb 5 (String.length a)); [|reflexivity].
  destruct (Nat.leb (String.length a) 500); [|reflexivity].
  destruct c as [c|]; [|reflexivity].
  destruct (String.eqb c EmptyString); [reflexivity|].
  destruct (Nat.leb 2 (String.length c)); [|reflexivity].
  destruct (Nat.leb (String.length c) 100); [|reflexivity].
  destruct st as [st|]; [|reflexivity].
  destruct (String.eqb st EmptyString); [reflexivity|].
  destruct (Nat.leb 2 (String.length st)); [|reflexivity].
  destruct (Nat.leb (String.length st) 50); [|reflexivity].
  destruct z as [z|]; [|reflexivity].
  destruct (String.eqb z EmptyString) eqn:Ez.
  { apply String.eqb_eq in Ez. subst z. reflexivity. }
  destruct (Joi.zip_format z); [|reflexivity].
  destruct rent as [rent|].
  1: destruct (Joi.safe rent); [|reflexivity].
  1: destruct (Joi.Qlt_bool 0 (Joi.precision 2 rent)); [|reflexivity].
  1: destruct (Qle_bool (Joi.precision 2 rent) 50000); [|reflexivity].
  all: destruct beds as [beds|].
  all: try (destruct (Joi.safe beds); [|reflexivity]).
  all: try (destruct (Qeq_bool beds (inject_Z (Qfloor beds))); [|reflexivity]).
  all: try (destruct (Qle_bool 0 beds); [|reflexivity]).
  all: try (destruct (Qle_bool beds 20); [|reflexivity]).
  all: destruct baths as [baths|].
  all: try (destruct (Joi.safe baths); [|reflexivity]).
  all: try (destruct (Joi.Qlt_bool 0 (Joi.precision 1 baths)); [|reflexivity]).
  all: try (destruct (Qle_bool (Joi.precision 1 baths) 20); [|reflexivity]).
  all: destruct sqft as [sqft|].
  all: try (destruct (Joi.safe sqft); [|reflexivity]).
  all: try (destruct (Qeq_bool sqft (inject_Z (Qfloor sqft))); [|reflexivity]).
  all: try (destruct (Joi.Qlt_bool 0 sqft); [|reflexivity]).
  all: try (destruct (Qle_bool sqft 50000); [|reflexivity]).
  all: destruct desc as [desc|].
  all: try (destruct (String.eqb desc EmptyString); [reflexivity|]).
  all: try (destruct (Nat.leb (String.length desc) 2000); [|reflexivity]).
  all: destruct l as [l|]; [|reflexivity].
  all: destruct (Joi.safe l); [|reflexivity].
  all: destruct (Qeq_bool l (inject_Z (Qfloor l))); [|reflexivity].
  all: destruct others; reflexivity.
Qed.


Lemma required_value {A : Type} (k : string) (v : Joi.ValidationError + option A)
      (x : A) :
  Joi.required k v = inr x -> v = inr (Some x).
Proof.
  destruct v as [e|[a|]]; cbn; intros H; try discriminate H.
  injection H as <-. reflexivity.
Qed.

Lemma option_map_id {A : Type} (o : option A) : option_map (fun x => x) o = o.
Proof. destruct o; reflexivity. Qed.

Lemma create_schema_described (body : CreateBody.t) (value : Sql.NewProperty) :
  createPropertySchema body = inr value -> described body value.
Proof.
  unfold createPropertySchema. intros H. key_by_key H.
  injection H as <-.
  repeat match goal with
  | E : Joi.required _ _ = inr _ |- _ => apply required_value in E
  end.
  repeat match goal with
  | E : Joi.string_ _ _ _ = inr _ |- _ => apply string_value in E
  | E : Joi.number _ _ _ _ = inr _ |- _ => apply number_value in E
  end.
  unfold described.
  cbn [Sql.new_address Sql.new_city Sql.new_state Sql.new_zip_code
       Sql.new_rent_amount Sql.new_bedrooms Sql.new_bathrooms
       Sql.new_square_feet Sql.new_description Sql.new_landlord_id].
  rewrite ?option_map_id in *.
  repeat split; try (symmetry; assumption); try assumption.
  all: match goal with
       | E : Some ?x = option_map _ ?o |- ?o = Some ?x =>
           destruct o; [injection E as ->; reflexivity | discriminate E]
       end.
Qed.

Lemma create_schema_bounds (body : CreateBody.t) (value : Sql.NewProperty) :
  createPropertySchema body = inr value -> Bounds.create body = true.
Proof. intros H. rewrite <- create_bounds, H. reflexivity. Qed.

(** A number with [k] decimal places, asked to be stored with that many,
    is stored as it is. *)
Lemma floor_of_whole (n : Z) (x : Q) : x == inject_Z n -> Qfloor (x + (1 # 2)) = n.
Proof.
  intros Hx.
  assert (H : Qfloor (x + (1 # 2)) = Qfloor (inject_Z n + (1 # 2))).
  { apply Qfloor_comp. rewrite Hx. reflexivity. }
  rewrite H. unfold Qfloor, inject_Z, Qplus. cbn [Qnum Qden].
  rewrite Z.mul_1_l, Pos.mul_1_l.
  change (Z.pos 2) with 2. symmetry. apply Z.div_unique with (r := 1); lia.
Qed.

Lemma units_of_rounded (k : nat) (x : Q) :
  Qle_bool 0 (Joi.precision k x) = true ->
  Pg.numeric_units k (Joi.precision k x)
  = Js.Math_round (Js.nearest_double (Js.nearest_double x * inject_Z (Js.pow10 k))).
Proof.
  intros Hpos. unfold Pg.numeric_units, Pg.round_half_away.
  set (n := Js.Math_round
              (Js.nearest_double (Js.nearest_double x * inject_Z (Js.pow10 k)))) in *.
  assert (Hq : Joi.precision k x * inject_Z (Js.pow10 k) == inject_Z n).
  { unfold Joi.precision. cbv zeta. fold n. rewrite Qred_correct.
    pose proof (pow10_pos k) as Hp.
    unfold Qeq, Qmult, inject_Z. cbn [Qnum Qden].
    rewrite Pos.mul_1_r, Z.mul_1_r, Z2Pos.id by exact Hp. reflexivity. }
  assert (H0 : Qle_bool 0 (Joi.precision k x * inject_Z (Js.pow10 k)) = true).
  { apply Qle_bool_iff. apply Qle_bool_iff in Hpos.
    apply Qmult_le_0_compat; [exact Hpos|].
    pose proof (pow10_pos k) as Hp.
    change 0%Q with (inject_Z 0). rewrite <- Zle_Qle. lia. }
  rewrite H0. apply floor_of_whole, Hq.
Qed.

Lemma decimal_in_rounded (p k : nat) (hi : Z) (x : Q) :
  Joi.Qlt_bool 0 (Joi.precision k x) = true ->
  Qle_bool (Joi.precision k x) (inject_Z hi) = true ->
  hi * Js.pow10 k < Js.pow10 p ->
  Db.decimal_in p k (Joi.precision k x) = Some (Joi.precision k x).
Proof.
  intros Hpos Hle Hfit.
  assert (H0 : Qle_bool 0 (Joi.precision k x) = true).
  { apply Qle_bool_iff. unfold Joi.Qlt_bool in Hpos.
    apply negb_true_iff in Hpos.
    destruct (Qlt_le_dec 0 (Joi.precision k x)) as [Hlt|Hge].
    - apply Qlt_le_weak, Hlt.
    - apply Qle_bool_iff in Hge. congruence. }
  unfold Db.decimal_in. rewrite (units_of_rounded k x H0).
  set (n := Js.Math_round
              (Js.nearest_double (Js.nearest_double x * inject_Z (Js.pow10 k)))) in *.
  pose proof (pow10_pos k) as Hp.
  assert (Hn : 0 <= n <= hi * Js.pow10 k).
  { unfold Joi.precision in H0, Hle. cbv zeta in H0, Hle. fold n in H0, Hle.
    apply Qle_bool_iff in H0, Hle. rewrite Qred_correct in H0, Hle.
    unfold Qle, inject_Z in H0, Hle. cbn [Qnum Qden] in H0, Hle.
    rewrite Z2Pos.id in Hle by exact Hp. lia. }
  assert (Habs : (Z.abs n <? Js.pow10 p) = true) by (apply Z.ltb_lt; lia).
  rewrite Habs. reflexivity.
Qed.

Lemma integer_in_whole (x : Q) :
  Qeq_bool x (inject_Z (Qfloor x)) = true -> Db.integer_in x = Some (Qfloor x).
Proof. intros H. unfold Db.integer_in. rewrite H. reflexivity. Qed.

Lemma inserted_validated (body : CreateBody.t) (value : Sql.NewProperty)
      (s : Store) :
  createPropertySchema body = inr value ->
  Db.inserted s value = inr (row_of s value).
Proof.
  intros H.
  pose proof (create_schema_bounds body value H) as Hb.
  destruct (create_schema_described body value H)
    as (Ha & Hc & Hst & Hz & Hrent & Hbeds & Hbaths & Hsqft & Hdesc & Hl).
  unfold Bounds.create in Hb. rewrite Ha, Hc, Hst, Hz, Hl in Hb.
  repeat (apply andb_prop in Hb as [Hb ?]).
  cbn [Bounds.required] in *.
  unfold Db.inserted, row_of.
  rewrite Hrent, Hbeds, Hbaths, Hsqft.
  assert (Hland : Db.integer_in (Sql.new_landlord_id value)
                  = Some (Qfloor (Sql.new_landlord_id value))).
  { apply integer_in_whole.
    match goal with
    | E : Joi.safe _ && Bounds.whole _ = true |- _ => apply andb_prop in E as [_ E]; exact E
    end. }
  rewrite Hland.
  assert (Hbd : Db.nullable Db.integer_in (CreateBody.bedrooms body)
                = Some (option_map Qfloor (CreateBody.bedrooms body))).
  { destruct (CreateBody.bedrooms body) as [x|]; [|reflexivity].
    cbn [Db.nullable Filter.supplied option_map] in *.
    rewrite integer_in_whole; [reflexivity|].
    match goal with
    | E : Joi.safe x && Bounds.whole x && _ && _ = true |- _ =>
        repeat (apply andb_prop in E as [E ?]); assumption
    end. }
  assert (Hsq : Db.nullable Db.integer_in (CreateBody.square_feet body)
                = Some (option_map Qfloor (CreateBody.square_feet body))).
  { destruct (CreateBody.square_feet body) as [x|]; [|reflexivity].
    cbn [Db.nullable Filter.supplied option_map] in *.
    rewrite integer_in_whole; [reflexivity|].
    match goal with
    | E : Joi.safe x && Bounds.whole x && _ && _ = true |- _ =>
        repeat (apply andb_prop in E as [E ?]); assumption
    end. }
  assert (Hre : Db.nullable (Db.decimal_in 10 2)
                  (option_map (Joi.precision 2) (CreateBody.rent_amount body))
                = Some (option_map (Joi.precision 2) (CreateBody.rent_amount body))).
  { destruct (CreateBody.rent_amount body) as [x|]; [|reflexivity].
    cbn [Db.nullable Filter.supplied option_map] in *.
    match goal with
    | E : Joi.safe x && _ && Qle_bool (Joi.precision 2 x) _ = true |- _ =>
        apply andb_prop in E as [E Hhi]; apply andb_prop in E as [_ Hlo]
    end.
    rewrite (decimal_in_rounded 10 2 50000 x Hlo Hhi); [reflexivity|].
    vm_compute. reflexivity. }
  assert (Hba : Db.nullable (Db.decimal_in 3 1)
                  (option_map (Joi.precision 1) (CreateBody.bathrooms body))
                = Some (option_map (Joi.precision 1) (CreateBody.bathrooms body))).
  { destruct (CreateBody.bathrooms body) as [x|]; [|reflexivity].
    cbn [Db.nullable Filter.supplied option_map] in *.
    match goal with
    | E : Joi.safe x && _ && Qle_bool (Joi.precision 1 x) _ = true |- _ =>
        apply andb_prop in E as [E Hhi]; apply andb_prop in E as [_ Hlo]
    end.
    rewrite (decimal_in_rounded 3 1 20 x Hlo Hhi); [reflexivity|].
    vm_compute. reflexivity. }
  rewrite Hbd, Hsq, Hre, Hba. reflexivity.
Qed.


(** The create handler in a quiet environment, case by case. *)
Lemma create_outcome (body : CreateBody.t) (s : Store) :
  match createPropertySchema body with
  | inl e =>
      World.run (create_property body) [] s
      = (inr (Response.json 400 (Response.invalid "Validation failed" [e])), s, [])
  | inr value =>
      match users s !! Qfloor (Sql.new_landlord_id value) with
      | None =>
          World.run (create_property body) [] s
          = if Db.integer_range (Qfloor (Sql.new_landlord_id value))
            then (inr landlord_not_found, s, [lookup value])
            else (inr create_failed, s, [lookup_refused value])
      | Some u =>
          if String.eqb (role u) "landlord" then
            match duplicates value s with
            | p :: _ =>
                World.run (create_property body) [] s
                = (inr (already_exists (id p)), s,
                   [lookup value; duplicate_check value])
            | [] =>
                World.run (create_property body) [] s
                = (inr (Response.json 201
                          (Response.created "Property created successfully"
                             (row_of s value))),
                   with_row s (row_of s value), creation_log value)
            end
          else
            World.run (create_property body) [] s
            = (inr invalid_user_role, s, [lookup value])
      end
  end.
Proof.
  destruct (createPropertySchema body) as [e|value] eqn:H.
  { apply create_refused, H. }
  destruct (users s !! Qfloor (Sql.new_landlord_id value)) as [u|] eqn:Hu.
  2: { destruct (Db.integer_range _) eqn:Hi.
       - apply create_landlord_missing; assumption.
       - apply create_landlord_out_of_range; assumption. }
  destruct (String.eqb (role u) "landlord") eqn:Hr.
  2: { apply (create_not_landlord body value s u); assumption. }
  destruct (duplicates value s) as [|p rest] eqn:Hd.
  2: { apply (create_duplicate body value s u p rest); assumption. }
  rewrite (create_inserted body value s u H Hu Hr Hd).
  rewrite (inserted_validated body value s H). reflexivity.
Qed.

End Created.

(** X5: a create body passes validation exactly when every key is within
    its bounds: the four texts present and of the lengths allowed, the zip
    code five digits with an optional four, the numbers that are present
    within their ranges, the rent and the bathrooms after rounding, a
    whole landlord_id, and no key the schema does not name.  Any other
    body is answered 400 before the store is asked anything.  The value
    validation returns holds the keys of the body, the rent rounded to two
    decimal places and the bathrooms to one, as JavaScript rounds them;
    and it fits the columns of the table: with a landlord_id in the range
    of INTEGER and texts the store can hold, the row of the insert is
    built from it as it is. *)
Theorem create_body_is_accepted_within_bounds :
  forall (body : CreateBody.t) (ticks : list World.Tick) (s : Store),
    ok (createPropertySchema body) = Bounds.create body /\
    (Bounds.create body = false ->
     exists e,
       World.run (Handlers.create_property body) ticks s
       = (inr (Response.json 400 (Response.invalid "Validation failed" [e])),
          s, [])) /\
    (forall value,
       createPropertySchema body = inr value ->
       described body value /\
       (int4 (Qfloor (Sql.new_landlord_id value)) -> storable value = true ->
        Db.inserted s value = inr (row_of s value))).
Proof.
  intros body ticks s. split; [apply create_bounds|]. split.
  - intros Hb. rewrite <- create_bounds in Hb.
    destruct (createPropertySchema body) as [e|value] eqn:H; [|discriminate Hb].
    exists e. apply create_refused, H.
  - intros value Hv. split; [apply create_schema_described, Hv|].
    intros _ _. apply (inserted_validated body value s Hv).
Qed.


(** ** Reading a listing back *)

Section Found.

Import Handlers.

Lemma integer_in_inject (i : Z) : Db.integer_in (inject_Z i) = Some i.
Proof.
  unfold Db.integer_in. rewrite Qfloor_Z.
  assert (H : Qeq_bool (inject_Z i) (inject_Z i) = true)
    by (apply Qeq_bool_iff; reflexivity).
  rewrite H. reflexivity.
Qed.

Lemma get_property_quiet (text : string) (i : Z) (s : Store) :
  Js.parseInt text = Js.Num (inject_Z i) ->
  int4 i ->
  World.run (get_property text) [] s
  = (inr match List.filter (fun r => id (prop r) =? i) (Db.joined s) with
         | [] => property_not_found
         | r :: _ => Response.json 200 (Response.found r)
         end,
     s, [World.issued (Sql.select_property (Js.Num (inject_Z i))) None]).
Proof.
  intros H Hi. apply integer_range_int4 in Hi. unfold get_property. rewrite H.
  cbn [Js.isNaN Async.try_catch Async.bind Async.query World.run World.answer
       World.quiet World.before World.failure Db.exec].
  rewrite integer_in_inject, Hi.
  destruct (List.filter _ (Db.joined s)); reflexivity.
Qed.

Lemma joined_In (s : Store) (row : Joined) :
  In row (Db.joined s) <->
  exists p l u,
    In p (properties s) /\ landlord_id p = Some l /\ users s !! l = Some u /\
    row = with_landlord p u.
Proof.
  unfold Db.joined. rewrite in_flat_map. split.
  - intros (p & Hp & Hrow). unfold Db.join_landlord in Hrow.
    destruct (landlord_id p) as [l|] eqn:Hl; [|contradiction].
    destruct (users s !! l) as [u|] eqn:Hu; [|contradiction].
    destruct Hrow as [<-|[]]. exists p, l, u. repeat split; assumption.
  - intros (p & l & u & Hp & Hl & Hu & ->). exists p. split; [exact Hp|].
    unfold Db.join_landlord. rewrite Hl, Hu. left. reflexivity.
Qed.

Lemma filter_none {A : Type} (f : A -> bool) (l : list A) :
  (forall x, In x l -> f x = false) -> List.filter f l = [].
Proof.
  induction l as [|x l IH]; intros H; [reflexivity|].
  cbn [List.filter]. rewrite (H x (or_introl eq_refl)).
  apply IH. intros y Hy. apply H. right. exact Hy.
Qed.

Lemma joined_with_row (s : Store) (row : Property) (l : Z) (u : User) :
  landlord_id row = Some l -> users s !! l = Some u ->
  Db.joined (with_row s row) = (Db.joined s ++ [with_landlord row u])%list.
Proof.
  intros Hl Hu. unfold Db.joined, with_row. cbn [properties].
  change (Db.join_landlord _) with (Db.join_landlord s).
  rewrite flat_map_app. cbn [flat_map]. rewrite app_nil_r.
  f_equal. unfold Db.join_landlord. rewrite Hl, Hu. reflexivity.
Qed.

End Found.

(** X7: GET /properties/:id with an id that parses to a value of the
    column, in a quiet environment: one query, and the answer is 200 with
    a listing of that id and the names of its landlord, or else 404.  It
    is 404 not only when no listing has the id, but also when the listing
    has no landlord among the users: the query joins the two tables. *)
Theorem get_property_answers_the_joined_row :
  forall (text : string) (i : Z) (s : Store),
    Js.parseInt text = Js.Num (inject_Z i) ->
    int4 i ->
    exists r,
      World.run (Handlers.get_property text) [] s
      = (inr r, s, [World.issued (Sql.select_property (Js.Num (inject_Z i))) None]) /\
      ((exists p l u,
          r = Response.json 200 (Response.found (with_landlord p u)) /\
          In p (properties s) /\ id p = i /\
          landlord_id p = Some l /\ users s !! l = Some u) \/
       (r = property_not_found /\
        forall p l,
          In p (properties s) -> id p = i -> landlord_id p = Some l ->
          users s !! l = None)).
Proof.
  intros text i s H Hrange. eexists.
  split; [apply get_property_quiet; assumption|].
  destruct (List.filter _ (Db.joined s)) as [|row rows] eqn:Hf.
  - right. split; [reflexivity|]. intros p l Hp Hi Hl.
    destruct (users s !! l) as [u|] eqn:Hu; [|reflexivity]. exfalso.
    assert (Hin : In (with_landlord p u)
                     (List.filter (fun r => id (prop r) =? i) (Db.joined s))).
    { apply filter_In. split.
      - apply joined_In. exists p, l, u. repeat split; assumption.
      - cbn [with_landlord prop]. apply Z.eqb_eq, Hi. }
    rewrite Hf in Hin. exact Hin.
  - left.
    assert (Hin : In row (List.filter (fun r => id (prop r) =? i) (Db.joined s))).
    { rewrite Hf. left. reflexivity. }
    apply filter_In in Hin as [Hj Hi].
    apply joined_In in Hj as (p & l & u & Hp & Hl & Hu & ->).
    exists p, l, u. cbn [with_landlord prop] in Hi. apply Z.eqb_eq in Hi.
    repeat split; assumption.
Qed.

Lemma get_property_answers_the_joined_row_witness :
  exists r,
    World.run (Handlers.get_property "3") [] Sample.listed
    = (inr r, Sample.listed, [World.issued (Sql.select_property (Js.Num 3)) None]) /\
    ((exists p l u,
        r = Response.json 200 (Response.found (with_landlord p u)) /\
        In p (properties Sample.listed) /\ id p = 3 /\
        landlord_id p = Some l /\ users Sample.listed !! l = Some u) \/
     (r = property_not_found /\
      forall p l,
        In p (properties Sample.listed) -> id p = 3 -> landlord_id p = Some l ->
        users Sample.listed !! l = None)).
Proof.
  apply (get_property_answers_the_joined_row "3" 3 Sample.listed);
    [reflexivity | unfold int4; lia].
Defined.

(** X8: a listing that was created can be read back: when the sequence is
    ahead of the ids in the table and within the range of the column, the
    id a 201 carries, written in decimal, makes GET /properties/:id answer
    200 with the created row and the names of its landlord; and the
    sequence is ahead again. *)
Theorem created_listing_is_read_back :
  forall (body : CreateBody.t) (s s' : Store) (row : Property)
         (log : list World.Issued),
    sequence_ahead s -> int4 (next_id s) ->
    World.run (Handlers.create_property body) [] s
    = (inr (Response.json 201
              (Response.created "Property created successfully" row)), s', log) ->
    exists l u,
      landlord_id row = Some l /\ users s' !! l = Some u /\ role u = "landlord" /\
      World.run (Handlers.get_property (Pg.bigint_out (id row))) [] s'
      = (inr (Response.json 200 (Response.found (with_landlord row u))), s',
         [World.issued (Sql.select_property (Js.Num (inject_Z (id row)))) None]) /\
      sequence_ahead s'.
Proof.
  intros body s s' row log [Hpos Hahead] Hint Hrun.
  pose proof (create_outcome body s) as H.
  destruct (createPropertySchema body) as [e|value] eqn:Hv.
  { rewrite H in Hrun. discriminate Hrun. }
  destruct (users s !! Qfloor (Sql.new_landlord_id value)) as [u|] eqn:Hu.
  2: { rewrite H in Hrun. destruct (Db.integer_range _); discriminate Hrun. }
  destruct (String.eqb (role u) "landlord") eqn:Hr.
  2: { rewrite H in Hrun. discriminate Hrun. }
  destruct (duplicates value s) as [|p rest] eqn:Hd.
  2: { rewrite H in Hrun. discriminate Hrun. }
  rewrite H in Hrun. injection Hrun as <- <- <-.
  exists (Qfloor (Sql.new_landlord_id value)), u.
  split; [reflexivity|]. split; [exact Hu|].
  split; [apply String.eqb_eq, Hr|].
  cbn [row_of id]. split.
  - rewrite (get_property_quiet _ (next_id s) _ (parseInt_bigint_out _ Hpos) Hint).
    rewrite (joined_with_row s (row_of s value) _ u eq_refl Hu).
    rewrite List.filter_app, (filter_none _ (Db.joined s)).
    + cbn [List.filter app with_landlord prop row_of id].
      rewrite Z.eqb_refl. reflexivity.
    + intros r Hr'. apply joined_In in Hr' as (p & l & u' & Hp & _ & _ & ->).
      cbn [with_landlord prop]. apply Z.eqb_neq.
      rewrite List.Forall_forall in Hahead. specialize (Hahead p Hp). lia.
  - unfold sequence_ahead, with_row. cbn [next_id properties]. split; [lia|].
    apply List.Forall_app. split.
    + eapply List.Forall_impl; [|exact Hahead]. cbn. intros a Ha. lia.
    + constructor; [cbn [row_of id]; lia | constructor].
Qed.

Lemma created_listing_is_read_back_witness :
  let row := row_of Sample.store (Sample.main_street_value 5) in
  let s' := with_row Sample.store row in
  exists l u,
    landlord_id row = Some l /\ users s' !! l = Some u /\ role u = "landlord" /\
    World.run (Handlers.get_property (Pg.bigint_out (id row))) [] s'
    = (inr (Response.json 200 (Response.found (with_landlord row u))), s',
       [World.issued (Sql.select_property (Js.Num (inject_Z (id row)))) None]) /\
    sequence_ahead s'.
Proof.
  apply (created_listing_is_read_back (Sample.main_street 5) Sample.store _ _
           (creation_log (Sample.main_street_value 5))).
  - split; [cbn; lia | constructor].
  - unfold int4. cbn. lia.
  - vm_compute. reflexivity.
Defined.

(** X9: a listing that was created is found by the search: after a 201, a
    valid search the store accepts finds the rows it found before and,
    when the new row passes its filters, the new row with the names of its
    landlord; the count it reports is one more, or the same. *)
Theorem created_listing_is_counted_by_search :
  forall (body : CreateBody.t) (s s' : Store) (row : Property)
         (log : list World.Issued) (q v : SearchQuery.t),
    World.run (Handlers.create_property body) [] s
    = (inr (Response.json 201
              (Response.created "Property created successfully" row)), s', log) ->
    searchPropertiesSchema q = inr v ->
    sendable q = true ->
    exists l u rows rows' p p' filters filters' log1 log2,
      landlord_id row = Some l /\ users s !! l = Some u /\
      World.run (Handlers.search_properties q) [] s
      = (inr (Response.json 200 (Response.listing rows p filters)), s, log1) /\
      World.run (Handlers.search_properties q) [] s'
      = (inr (Response.json 200 (Response.listing rows' p' filters')), s', log2) /\
      matching v s'
      = (matching v s ++
         if Filter.satisfies v (with_landlord row u)
         then [with_landlord row u] else [])%list /\
      Response.total_count p
      = Js.Num (inject_Z (Z.of_nat (List.length (matching v s)))) /\
      Response.total_count p'
      = Js.Num (inject_Z (Z.of_nat (List.length (matching v s)) +
                          if Filter.satisfies v (with_landlord row u)
                          then 1 else 0)).
Proof.
  intros body s s' row log q v Hrun Hq _.
  pose proof (create_outcome body s) as H.
  destruct (createPropertySchema body) as [e|value] eqn:Hv.
  { rewrite H in Hrun. discriminate Hrun. }
  destruct (users s !! Qfloor (Sql.new_landlord_id value)) as [u|] eqn:Hu.
  2: { rewrite H in Hrun. destruct (Db.integer_range _); discriminate Hrun. }
  destruct (String.eqb (role u) "landlord") eqn:Hr.
  2: { rewrite H in Hrun. discriminate Hrun. }
  destruct (duplicates value s) as [|d rest] eqn:Hd.
  2: { rewrite H in Hrun. discriminate Hrun. }
  rewrite H in Hrun. injection Hrun as <- <- <-.
  destruct (search_run q v s Hq) as (limit & offset & filters & _ & _ & Hs).
  destruct (search_run q v (with_row s (row_of s value)) Hq)
    as (limit' & offset' & filters' & _ & _ & Hs').
  assert (Hm : matching v (with_row s (row_of s value))
               = (matching v s ++
                  if Filter.satisfies v (with_landlord (row_of s value) u)
                  then [with_landlord (row_of s value) u] else [])%list).
  { unfold matching.
    rewrite (joined_with_row s (row_of s value) _ u eq_refl Hu).
    rewrite List.filter_app. reflexivity. }
  exists (Qfloor (Sql.new_landlord_id value)), u.
  do 8 eexists. split; [reflexivity|]. split; [exact Hu|].
  split; [exact Hs|]. split; [exact Hs'|]. split; [exact Hm|].
  split; [reflexivity|].
  cbn [Response.total_count Handlers.pagination]. rewrite Hm.
  rewrite List.length_app.
  destruct (Filter.satisfies v _); cbn [List.length]; do 2 f_equal; lia.
Qed.

Lemma created_listing_is_counted_by_search_witness :
  let row := row_of Sample.store (Sample.main_street_value 5) in
  let s' := with_row Sample.store row in
  let v := Filter.converted Sample.no_query in
  exists l u rows rows' p p' filters filters' log1 log2,
    landlord_id row = Some l /\ users Sample.store !! l = Some u /\
    World.run (Handlers.search_properties Sample.no_query) [] Sample.store
    = (inr (Response.json 200 (Response.listing rows p filters)), Sample.store, log1) /\
    World.run (Handlers.search_properties Sample.no_query) [] s'
    = (inr (Response.json 200 (Response.listing rows' p' filters')), s', log2) /\
    matching v s'
    = (matching v Sample.store ++
       if Filter.satisfies v (with_landlord row u)
       then [with_landlord row u] else [])%list /\
    Response.total_count p
    = Js.Num (inject_Z (Z.of_nat (List.length (matching v Sample.store)))) /\
    Response.total_count p'
    = Js.Num (inject_Z (Z.of_nat (List.length (matching v Sample.store)) +
                        if Filter.satisfies v (with_landlord row u)
                        then 1 else 0)).
Proof.
  apply (created_listing_is_counted_by_search (Sample.main_street 5) Sample.store _ _
           (creation_log (Sample.main_street_value 5)) Sample.no_query).
  - vm_compute. reflexivity.
  - reflexivity.
  - reflexivity.
Defined.

(** ** The search: bounds, pages and the echo of the filters *)

Section Pages.

Import Handlers Filter.

(** Validation key by key: the outcome of the chain is the conjunction of
    the outcomes of its keys. *)
Lemma ok_bind_string {B : Type} (rules : list (Joi.Rule string)) (k : string)
      (o : option string) (f : option string -> Joi.ValidationError + B) :
  ok (Joi.bind (Joi.string_ rules k o) f)
  = supplied o (fun x => negb (String.eqb x EmptyString) && unbroken rules x) &&
    ok (f o).
Proof.
  destruct o as [x|]; [|reflexivity].
  cbn [Joi.string_ supplied]. unfold unbroken.
  destruct (String.eqb x EmptyString); [reflexivity|].
  destruct (Joi.first_failure rules x); reflexivity.
Qed.

Lemma ok_bind_valid {B : Type} (allowed : list string) (k : string)
      (o : option string) (f : option string -> Joi.ValidationError + B) :
  ok (Joi.bind (Joi.valid allowed k o) f)
  = supplied o (fun x => existsb (String.eqb x) allowed) && ok (f o).
Proof.
  destruct o as [x|]; [|reflexivity].
  cbn [Joi.valid supplied]. destruct (existsb _ allowed); reflexivity.
Qed.

Lemma ok_bind_number {B : Type} (places : option nat) (rules : list (Joi.Rule Q))
      (k : string) (o : option Q) (f : option Q -> Joi.ValidationError + B) :
  let rounded x := match places with Some n => Joi.precision n x | None => x end in
  ok (Joi.bind (Joi.number places rules k o) f)
  = supplied o (fun x => Joi.safe x && unbroken rules (rounded x)) &&
    ok (f (option_map rounded o)).
Proof.
  destruct o as [x|]; [|reflexivity].
  cbn [Joi.number supplied option_map]. unfold unbroken.
  destruct (Joi.safe x); [|reflexivity]. cbn [negb andb].
  destruct (Joi.first_failure rules _); reflexivity.
Qed.

Lemma ok_bind_default {B : Type} (d : Q) (rules : list (Joi.Rule Q))
      (k : string) (o : option Q) (f : option Q -> Joi.ValidationError + B) :
  ok (Joi.bind (Joi.default d (Joi.number None rules k o)) f)
  = supplied o (fun x => Joi.safe x && unbroken rules x) &&
    ok (f (Some (or_default d o))).
Proof.
  destruct o as [x|]; [|reflexivity].
  cbn [Joi.number supplied or_default]. unfold unbroken.
  destruct (Joi.safe x); [|reflexivity]. cbn [negb andb].
  destruct (Joi.first_failure rules _); reflexivity.
Qed.

Lemma ok_bind_known {B : Type} (others : list string)
      (f : unit -> Joi.ValidationError + B) :
  ok (Joi.bind (Joi.known_keys others) f)
  = match others with [] => true | _ :: _ => false end && ok (f tt).
Proof. destruct others; reflexivity. Qed.

Ltac tests :=
  cbv [unbroken Joi.first_failure Joi.min_length Joi.max_length Joi.pattern
       Joi.positive Joi.integer Joi.min Joi.max Joi.min_ref
       Joi.greater_ref Joi.with_ref Joi.rule Bounds.required Bounds.text
       Bounds.whole supplied option_map andb negb];
  repeat match goal with
         | |- context [if ?b then _ else _] =>
             lazymatch b with
             | context [if _ then _ else _] => fail
             | _ => destruct b
             end
         end;
  reflexivity.

(** One key: the outcome of its rules is the bound of the key. *)
Ltac key_bound :=
  match goal with
  | |- supplied ?o _ = supplied ?o _ => destruct o; [|reflexivity]
  end;
  cbn [supplied]; cbv [Bounds.text];
  try match goal with
      | |- context [option_map _ ?o] => destruct o
      end;
  try match goal with
      | |- context [String.eqb ?x EmptyString] =>
          let E := fresh "E" in
          destruct (String.eqb x EmptyString) eqn:E;
          [apply String.eqb_eq in E; subst x; reflexivity|]
      end;
  tests.

Lemma search_bounds (q : SearchQuery.t) :
  ok (searchPropertiesSchema q) = Bounds.search q.
Proof.
  unfold searchPropertiesSchema. cbv zeta.
  repeat (first [ rewrite ok_bind_string | rewrite ok_bind_valid
                | rewrite ok_bind_number
                | rewrite ok_bind_default | rewrite ok_bind_known ];
          cbv beta zeta).
  cbn [ok]. rewrite andb_true_r, !andb_assoc.
  unfold Bounds.search. cbv zeta.
  repeat (f_equal; try solve [key_bound]).
Qed.


Lemma schema_bounds (q v : SearchQuery.t) :
  searchPropertiesSchema q = inr v -> Bounds.search q = true.
Proof. intros H. rewrite <- search_bounds, H. reflexivity. Qed.

(** The response to a valid search request, with its echo. *)
Lemma search_run_echo (q v : SearchQuery.t) (s : Store) :
  searchPropertiesSchema q = inr v ->
  exists limit offset log,
    SearchQuery.limit v = Some limit /\ SearchQuery.offset v = Some offset /\
    World.run (search_properties q) [] s
    = (inr (Response.json 200
              (Response.listing
                 (page (orderClause (or_default "newest" (SearchQuery.sort_by v)))
                       limit offset (matching v s))
                 (pagination
                    (Js.Num (inject_Z (Z.of_nat (List.length (matching v s)))))
                    limit offset)
                 {| Response.city := SearchQuery.city v;
                    Response.state := SearchQuery.state v;
                    Response.zip_code := SearchQuery.zip_code v;
                    Response.rent_range :=
                      range_if_truthy (SearchQuery.min_rent v)
                                      (SearchQuery.max_rent v);
                    Response.bedrooms_range :=
                      range_if_defined (SearchQuery.min_bedrooms v)
                                       (SearchQuery.max_bedrooms v);
                    Response.bathrooms_range :=
                      range_if_truthy (SearchQuery.min_bathrooms v)
                                      (SearchQuery.max_bathrooms v);
                    Response.sqft_range :=
                      range_if_truthy (SearchQuery.min_sqft v)
                                      (SearchQuery.max_sqft v);
                    Response.landlord_verified := SearchQuery.landlord_verified v;
                    Response.sort_by :=
                      or_default "newest" (SearchQuery.sort_by v) |})),
       s, log).
Proof.
  intros Hq. pose proof (schema_validated q v Hq) as Hv.
  destruct (limit_whole v Hv) as (limit & El & _).
  destruct (offset_whole v Hv) as (offset & Eo & _).
  exists limit, offset. eexists. split; [exact El|]. split; [exact Eo|].
  unfold search_properties. rewrite Hq, El, Eo. cbn [or_default].
  rewrite without_last_two_app.
  cbn [Async.try_catch Async.bind Async.query_all World.run World.answer
       World.quiet World.before World.failure List.tl].
  rewrite (exec_search v _ limit offset s Hv El Eo).
  rewrite (exec_count v s Hv).
  cbn [Async.try_catch Async.bind World.run World.error_of Sql.total].
  rewrite parseInt_bigint_out by lia.
  reflexivity.
Qed.

Lemma positive_truthy (a : Q) :
  Joi.Qlt_bool 0 a = true -> Js.truthy_number (Js.Num a) = true.
Proof.
  unfold Joi.Qlt_bool. intros H. apply negb_true_iff in H.
  cbn [Js.truthy_number]. apply negb_true_iff.
  apply not_true_iff_false. intros E. apply Qeq_bool_iff in E.
  apply not_true_iff_false in H. apply H. apply Qle_bool_iff.
  rewrite E. apply Qle_refl.
Qed.

Lemma range_if_truthy_echoed (lo hi : option Q) :
  supplied lo (Joi.Qlt_bool 0) = true -> supplied hi (Joi.Qlt_bool 0) = true ->
  range_if_truthy lo hi = echoed lo hi.
Proof.
  intros Hlo Hhi. unfold range_if_truthy, echoed.
  destruct lo as [a|], hi as [b|]; cbn [supplied] in *;
    rewrite ?(positive_truthy a Hlo), ?(positive_truthy b Hhi); reflexivity.
Qed.

Lemma supplied_weaken {A : Type} (o : option A) (f g : A -> bool) :
  (forall x, f x = true -> g x = true) -> supplied o f = true -> supplied o g = true.
Proof. destruct o; cbn; auto. Qed.

(** Page size. *)
Lemma place_length (le : Joined -> Joined -> bool) (x : Joined) (l : list Joined) :
  List.length (Db.place le x l) = S (List.length l).
Proof.
  induction l as [|y l IH]; cbn [Db.place]; [reflexivity|].
  destruct (le x y); cbn [List.length]; [reflexivity | rewrite IH; reflexivity].
Qed.

Lemma order_by_length (o : Sql.OrderClause) (l : list Joined) :
  List.length (Db.order_by o l) = List.length l.
Proof.
  unfold Db.order_by. induction l as [|x l IH]; cbn [fold_right]; [reflexivity|].
  rewrite place_length, IH. reflexivity.
Qed.

Lemma page_length (o : Sql.OrderClause) (limit offset : Q) (rows : list Joined) :
  List.length (page o limit offset rows)
  = Nat.min (Z.to_nat (Qfloor limit))
            (List.length rows - Z.to_nat (Qfloor offset)).
Proof.
  unfold page. rewrite List.length_firstn, List.length_skipn, order_by_length.
  reflexivity.
Qed.












End Pages.

(** X10: a search query passes validation exactly when every key is within its
    bounds.  The upper bound of a range is compared with the lower one,
    which has to be supplied with it: max_rent, max_bedrooms,
    max_bathrooms or max_sqft without its minimum is refused.  Any query
    that is not accepted is answered 400 before the store is asked
    anything. *)
Theorem search_query_is_accepted_within_bounds :
  forall (q : SearchQuery.t) (ticks : list World.Tick) (s : Store),
    ok (searchPropertiesSchema q) = Bounds.search q /\
    (Bounds.search q = false ->
     exists e,
       World.run (Handlers.search_properties q) ticks s
       = (inr (Response.json 400
                 (Response.invalid "Invalid search parameters" [e])), s, [])) /\
    (Bounds.search q = true ->
     (SearchQuery.min_rent q = None -> SearchQuery.max_rent q = None) /\
     (SearchQuery.min_bedrooms q = None -> SearchQuery.max_bedrooms q = None) /\
     (SearchQuery.min_bathrooms q = None -> SearchQuery.max_bathrooms q = None) /\
     (SearchQuery.min_sqft q = None -> SearchQuery.max_sqft q = None)).
Proof.
  intros q ticks s. split; [apply search_bounds|]. split.
  - intros Hb. rewrite <- search_bounds in Hb.
    destruct (search_refused q ticks s) as (e & _ & Hrun).
    + unfold Ranges.accepted. destruct (searchPropertiesSchema q); [reflexivity|].
      discriminate Hb.
    + exists e. exact Hrun.
  - intros Hb. unfold Bounds.search in Hb. cbv zeta in Hb.
    repeat (apply andb_prop in Hb as [Hb ?]).
    repeat split; intros Hmin;
      match goal with
      | |- ?o = None => destruct o as [b|] eqn:Hmax; [exfalso|reflexivity]
      end;
      rewrite Hmin in *; cbn [Filter.supplied Bounds.required] in *;
      match goal with
      | E : _ && false = true |- _ => rewrite andb_false_r in E; discriminate E
      end.
Qed.

(** X11: the page of a valid search the store accepts holds
    min(limit, total_count - offset) rows, none when the offset is at or
    beyond the count, and never more than 100. *)
Theorem search_page_size :
  forall (q v : SearchQuery.t) (s : Store),
    searchPropertiesSchema q = inr v ->
    sendable q = true ->
    exists rows pagination filters log limit offset,
      World.run (Handlers.search_properties q) [] s
      = (inr (Response.json 200 (Response.listing rows pagination filters)), s, log) /\
      SearchQuery.limit v = Some limit /\ SearchQuery.offset v = Some offset /\
      let total := List.length (matching v s) in
      Response.total_count pagination = Js.Num (inject_Z (Z.of_nat total)) /\
      List.length rows
      = Nat.min (Z.to_nat (Qfloor limit)) (total - Z.to_nat (Qfloor offset)) /\
      (List.length rows <= 100)%nat /\
      (Z.of_nat total <= Qfloor offset -> rows = []).
Proof.
  intros q v s Hq _.
  destruct (search_run q v s Hq) as (limit & offset & filters & Hl & Ho & Hrun).
  pose proof (schema_validated q v Hq) as Hv.
  pose proof (Filter.limit_at_most v Hv limit Hl) as Hmax.
  destruct (Filter.limit_whole v Hv) as (l & El & Hlint & _).
  rewrite Hl in El. injection El as <-.
  do 6 eexists. split; [exact Hrun|]. split; [exact Hl|]. split; [exact Ho|].
  cbv zeta. split; [reflexivity|].
  pose proof (page_length
                (Handlers.orderClause
                   (Handlers.or_default "newest" (SearchQuery.sort_by v)))
                limit offset (matching v s)) as Hlen.
  split; [exact Hlen|].
  assert (Qfloor limit <= 100) as H100.
  { apply Qle_bool_iff in Hmax. apply whole_is_floor in Hlint.
    rewrite Hlint in Hmax. change 100%Q with (inject_Z 100) in Hmax.
    rewrite <- Zle_Qle in Hmax. exact Hmax. }
  split; [lia|].
  intros Hbeyond. apply List.length_zero_iff_nil. lia.
Qed.

Lemma search_page_size_witness :
  exists rows pagination filters log limit offset,
    World.run (Handlers.search_properties Sample.two_bedrooms) [] Sample.listed
    = (inr (Response.json 200 (Response.listing rows pagination filters)),
       Sample.listed, log) /\
    SearchQuery.limit (Filter.converted Sample.two_bedrooms) = Some limit /\
    SearchQuery.offset (Filter.converted Sample.two_bedrooms) = Some offset /\
    Response.total_count pagination
    = Js.Num (inject_Z (Z.of_nat (List.length
        (matching (Filter.converted Sample.two_bedrooms) Sample.listed)))) /\
    List.length rows
    = Nat.min (Z.to_nat (Qfloor limit))
        (List.length (matching (Filter.converted Sample.two_bedrooms) Sample.listed)
         - Z.to_nat (Qfloor offset)) /\
    (List.length rows <= 100)%nat /\
    (Z.of_nat (List.length
       (matching (Filter.converted Sample.two_bedrooms) Sample.listed))
     <= Qfloor offset -> rows = []).
Proof.
  apply (search_page_size Sample.two_bedrooms
           (Filter.converted Sample.two_bedrooms) Sample.listed);
    reflexivity.
Defined.



(** X13: what has_previous and has_next say, for a valid search the store
    accepts: has_previous is true exactly when the offset is at least the
    limit; has_next is true exactly when rows remain after the page that
    current_page names; when the offset is a multiple of the limit, that
    is when rows remain after the ones returned. *)
Theorem has_next_means_rows_remain :
  forall (q v : SearchQuery.t) (s : Store),
    searchPropertiesSchema q = inr v ->
    sendable q = true ->
    exists rows pagination filters log limit offset,
      World.run (Handlers.search_properties q) [] s
      = (inr (Response.json 200 (Response.listing rows pagination filters)), s, log) /\
      SearchQuery.limit v = Some limit /\ SearchQuery.offset v = Some offset /\
      let L := Qfloor limit in
      let O := Qfloor offset in
      let T := Z.of_nat (List.length (matching v s)) in
      Response.has_previous pagination = (L <=? O) /\
      Response.has_next pagination = ((O / L + 1) * L <? T) /\
      (O mod L = 0 -> Response.has_next pagination = (O + L <? T)).
Proof.
  intros q v s Hq _.
  destruct (search_run q v s Hq) as (limit & offset & filters & Hl & Ho & Hrun).
  pose proof (schema_validated q v Hq) as Hv.
  destruct (Filter.limit_whole v Hv) as (l & El & Hlint & Hlle).
  destruct (Filter.offset_whole v Hv) as (f & Ef & Hfint & Hfle).
  rewrite Hl in El. injection El as <-. rewrite Ho in Ef. injection Ef as <-.
  destruct (pagination_whole (Z.of_nat (List.length (matching v s)))
              limit offset Hlint Hlle Hfint Hfle)
    as (HL & HO & _ & _ & Hnext & Hprev).
  do 6 eexists. split; [exact Hrun|]. split; [exact Hl|]. split; [exact Ho|].
  cbv zeta. rewrite Hnext, Hprev. unfold floor_div.
  set (L := Qfloor limit) in *. set (O := Qfloor offset) in *.
  set (T := Z.of_nat (List.length (matching v s))).
  pose proof (ceil_div_least T L ltac:(lia)) as [Hc1 Hc2].
  pose proof (Z.div_mod O L ltac:(lia)) as Hdm.
  pose proof (Z.mod_pos_bound O L ltac:(lia)) as Hmod.
  assert (Hn : (O / L + 1 <? ceil_div T L) = ((O / L + 1) * L <? T)).
  { destruct (Z.ltb_spec (O / L + 1) (ceil_div T L));
      destruct (Z.ltb_spec ((O / L + 1) * L) T); try reflexivity; nia. }
  split; [|split].
  - destruct (Z.ltb_spec 1 (O / L + 1)); destruct (Z.leb_spec L O);
      try reflexivity; nia.
  - exact Hn.
  - intros H0. rewrite Hn. f_equal. nia.
Qed.

Lemma has_next_means_rows_remain_witness :
  exists rows pagination filters log,
    World.run (Handlers.search_properties Sample.two_bedrooms) [] Sample.listed
    = (inr (Response.json 200 (Response.listing rows pagination filters)),
       Sample.listed, log) /\
    Response.has_previous pagination = (10 <=? 0) /\
    Response.has_next pagination
    = (0 + 10 <? Z.of_nat (List.length
         (matching (Filter.converted Sample.two_bedrooms) Sample.listed))).
Proof.
  destruct (has_next_means_rows_remain Sample.two_bedrooms
              (Filter.converted Sample.two_bedrooms) Sample.listed eq_refl eq_refl)
    as (rows & pagination & filters & log & limit & offset &
        Hrun & Hl & Ho & H).
  injection Hl as <-. injection Ho as <-. cbv zeta in H.
  destruct H as (Hprev & _ & Hnext).
  exists rows, pagination, filters, log.
  split; [exact Hrun|]. split; [exact Hprev | exact (Hnext eq_refl)].
Defined.

(** X14: the echo of the filters, for a valid search the store accepts: a
    range is reported whenever one of its bounds was supplied, and is null
    only when neither was; the tests on [min || max] drop nothing,
    validation admitting no zero bound there.  The bounds are echoed as
    validated, the texts and the flag as supplied, and sort_by with its
    default. *)
Theorem filters_applied_echo_what_was_supplied :
  forall (q v : SearchQuery.t) (s : Store),
    searchPropertiesSchema q = inr v ->
    sendable q = true ->
    exists rows pagination filters log,
      World.run (Handlers.search_properties q) [] s
      = (inr (Response.json 200 (Response.listing rows pagination filters)), s, log) /\
      Response.rent_range filters
      = echoed (SearchQuery.min_rent q) (SearchQuery.max_rent q) /\
      Response.bedrooms_range filters
      = echoed (SearchQuery.min_bedrooms q) (SearchQuery.max_bedrooms q) /\
      Response.bathrooms_range filters
      = echoed (option_map (Joi.precision 1) (SearchQuery.min_bathrooms q))
               (option_map (Joi.precision 1) (SearchQuery.max_bathrooms q)) /\
      Response.sqft_range filters
      = echoed (SearchQuery.min_sqft q) (SearchQuery.max_sqft q) /\
      Response.city filters = SearchQuery.city q /\
      Response.state filters = SearchQuery.state q /\
      Response.zip_code filters = SearchQuery.zip_code q /\
      Response.landlord_verified filters = SearchQuery.landlord_verified q /\
      Response.sort_by filters
      = Handlers.or_default "newest" (SearchQuery.sort_by q).
Proof.
  intros q v s Hq _.
  destruct (search_run_echo q v s Hq) as (limit & offset & log & _ & _ & Hrun).
  pose proof (schema_bounds q v Hq) as Hb.
  rewrite (schema_converted q v Hq) in Hrun.
  unfold Filter.converted in Hrun.
  cbn [SearchQuery.city SearchQuery.state SearchQuery.zip_code
       SearchQuery.min_rent SearchQuery.max_rent SearchQuery.min_bedrooms
       SearchQuery.max_bedrooms SearchQuery.min_bathrooms
       SearchQuery.max_bathrooms SearchQuery.min_sqft SearchQuery.max_sqft
       SearchQuery.landlord_verified SearchQuery.sort_by] in Hrun.
  do 4 eexists. split; [exact Hrun|].
  cbn [Response.rent_range Response.bedrooms_range Response.bathrooms_range
       Response.sqft_range Response.city Response.state Response.zip_code
       Response.landlord_verified Response.sort_by].
  unfold Bounds.search in Hb. cbv zeta in Hb.
  repeat (apply andb_prop in Hb as [Hb ?]).
  repeat split.
  - apply range_if_truthy_echoed.
    + eapply supplied_weaken; [|eassumption]. cbv beta. intros a Ha.
      apply andb_prop in Ha as [Ha _]. apply andb_prop in Ha as [_ Ha]. exact Ha.
    + eapply (supplied_weaken (SearchQuery.max_rent q)); [|eassumption].
      cbv beta. intros a Ha.
      apply andb_prop in Ha as [Ha _]. apply andb_prop in Ha as [Ha _].
      apply andb_prop in Ha as [_ Ha]. exact Ha.
  - apply range_if_truthy_echoed.
    + destruct (SearchQuery.min_bathrooms q) as [a|]; [|reflexivity].
      cbn [option_map Filter.supplied] in *.
      match goal with
      | E : Joi.safe a && _ && _ = true |- _ =>
          apply andb_prop in E as [E _]; apply andb_prop in E as [_ E]; exact E
      end.
    + destruct (SearchQuery.max_bathrooms q) as [b|]; [|reflexivity].
      cbn [option_map Filter.supplied] in *.
      match goal with
      | E : Joi.safe b && _ && _ && _ = true |- _ =>
          apply andb_prop in E as [E _]; apply andb_prop in E as [E _];
          apply andb_prop in E as [_ E]; exact E
      end.
  - apply range_if_truthy_echoed.
    + eapply (supplied_weaken (SearchQuery.min_sqft q)); [|eassumption].
      cbv beta. intros a Ha.
      apply andb_prop in Ha as [Ha _]. apply andb_prop in Ha as [_ Ha]. exact Ha.
    + eapply (supplied_weaken (SearchQuery.max_sqft q)); [|eassumption].
      cbv beta. intros a Ha.
      apply andb_prop in Ha as [Ha _]. apply andb_prop in Ha as [Ha _].
      apply andb_prop in Ha as [_ Ha]. exact Ha.
Qed.

Lemma filters_applied_echo_what_was_supplied_witness :
  exists rows pagination filters log,
    World.run (Handlers.search_properties Sample.two_bedrooms) [] Sample.listed
    = (inr (Response.json 200 (Response.listing rows pagination filters)),
       Sample.listed, log) /\
    Response.rent_range filters = None /\
    Response.bedrooms_range filters
    = Some {| Response.min := Some 2%Q; Response.max := None |} /\
    Response.sort_by filters = "rent_asc".
Proof.
  destruct (filters_applied_echo_what_was_supplied Sample.two_bedrooms
              (Filter.converted Sample.two_bedrooms) Sample.listed eq_refl eq_refl)
    as (rows & pagination & filters & log & Hrun & Hrent & Hbeds & _ & _ &
        _ & _ & _ & _ & Hsort).
  exists rows, pagination, filters, log.
  split; [exact Hrun|]. split; [exact Hrent|]. split; [exact Hbeds | exact Hsort].
Defined.

(** X15: the search issues its two queries together and answers 500 when
    either fails: the page query and the count query are both sent,
    whichever of them fails, and nothing of the other's result is
    returned. *)
Theorem search_fails_as_a_whole :
  forall (q v : SearchQuery.t) (e1 e2 : option Pg.Error) (s : Store),
    searchPropertiesSchema q = inr v ->
    e1 <> None \/ e2 <> None ->
    exists conditions order l o params params',
      World.run (Handlers.search_properties q) (failing [e1; e2]) s
      = (inr (Response.json 500
                (Response.failed "Internal server error"
                   "Failed to search properties")),
         s,
         [World.issued (Sql.search conditions order l o params) e1;
          World.issued (Sql.count conditions params') e2]).
Proof.
  intros q v e1 e2 s Hq He.
  pose proof (schema_validated q v Hq) as Hv.
  destruct (Filter.limit_whole v Hv) as (limit & El & _).
  destruct (Filter.offset_whole v Hv) as (offset & Eo & _).
  do 6 eexists.
  unfold Handlers.search_properties. rewrite Hq, El, Eo.
  cbn [Handlers.or_default]. rewrite without_last_two_app.
  cbn [Async.try_catch Async.bind Async.query_all World.run World.answer
       failing map World.before World.failure List.tl].
  destruct e1 as [e1|], e2 as [e2|];
    cbn [Async.try_catch Async.bind Async.query_all World.run World.answer
         World.before World.failure List.tl].
  - reflexivity.
  - rewrite (exec_count v s Hv). reflexivity.
  - rewrite (exec_search v _ limit offset s Hv El Eo). reflexivity.
  - exfalso. destruct He as [He|He]; apply He; reflexivity.
Qed.

Lemma search_fails_as_a_whole_witness :
  exists conditions order l o params params',
    World.run (Handlers.search_properties Sample.two_bedrooms)
              (failing [None; Some Pg.protocol_violation]) Sample.listed
    = (inr (Response.json 500
              (Response.failed "Internal server error"
                 "Failed to search properties")),
       Sample.listed,
       [World.issued (Sql.search conditions order l o params) None;
        World.issued (Sql.count conditions params')
                     (Some Pg.protocol_violation)]).
Proof.
  apply (search_fails_as_a_whole Sample.two_bedrooms
           (Filter.converted Sample.two_bedrooms)
           None (Some Pg.protocol_violation) Sample.listed).
  - reflexivity.
  - right. discriminate.
Defined.

(** ** The city filter *)

Section City.

Lemma LIKE_literal (x : ascii) (rest s : string) :
  Ascii.eqb x "%" = false -> Ascii.eqb x "_" = false -> Ascii.eqb x "\" = false ->
  Sql.LIKE_from (String x rest) s
  = match s with
    | String y s' => Ascii.eqb y x && Sql.LIKE_from rest s'
    | EmptyString => false
    end.
Proof.
  destruct x as [[] [] [] [] [] [] [] []]; intros H1 H2 H3;
    try discriminate H1; try discriminate H2; try discriminate H3;
    destruct s; reflexivity.
Qed.

Lemma LIKE_percent_unfold (rest s : string) :
  Sql.LIKE_from (String "%" rest) s
  = Sql.LIKE_from rest s ||
    match s with
    | String _ s' => Sql.LIKE_from (String "%" rest) s'
    | EmptyString => false
    end.
Proof. destruct s; reflexivity. Qed.

Lemma LIKE_percent (rest s : string) :
  Sql.LIKE_from (String "%" rest) s = true <->
  exists a b, s = a ++ b /\ Sql.LIKE_from rest b = true.
Proof.
  induction s as [|y s IH]; rewrite LIKE_percent_unfold.
  - rewrite orb_false_r. split.
    + intros H. exists EmptyString, EmptyString. split; [reflexivity | exact H].
    + intros (a & b & Hs & Hb). destruct a; [|discriminate Hs].
      rewrite append_empty in Hs. subst b. exact Hb.
  - split.
    + intros H. apply orb_prop in H as [H|H].
      * exists EmptyString, (String y s). split; [reflexivity | exact H].
      * apply IH in H as (a & b & -> & Hb).
        exists (String y a), b. split; [reflexivity | exact Hb].
    + intros (a & b & Hs & Hb). apply orb_true_iff. destruct a as [|x a].
      * left. rewrite append_empty in Hs. subst b. exact Hb.
      * right. rewrite append_cons in Hs. injection Hs as -> ->. apply IH.
        exists a, b. split; [reflexivity | exact Hb].
Qed.

Lemma LIKE_any (s : string) : Sql.LIKE_from "%" s = true.
Proof.
  apply LIKE_percent. exists s, EmptyString. split; [|reflexivity].
  induction s as [|y s IH]; [reflexivity|].
  rewrite append_cons, <- IH. reflexivity.
Qed.

Lemma LIKE_plain_prefix (c s : string) :
  plain_text c = true ->
  Sql.LIKE_from (c ++ "%") s = true <-> exists b, s = c ++ b.
Proof.
  revert s. induction c as [|x c IH]; intros s Hc.
  - rewrite append_empty.
    split; [intros _; exists s; reflexivity | intros _; apply LIKE_any].
  - unfold plain_text in Hc. cbn [without] in Hc.
    apply andb_prop in Hc as [Hc H3]. apply andb_prop in Hc as [H1 H2].
    apply andb_prop in H1 as [H1 H1']. apply andb_prop in H2 as [H2 H2'].
    apply andb_prop in H3 as [H3 H3'].
    apply negb_true_iff in H1, H2, H3.
    assert (Hc' : plain_text c = true).
    { unfold plain_text. rewrite H1', H2', H3'. reflexivity. }
    rewrite append_cons, (LIKE_literal x _ s H1 H2 H3).
    destruct s as [|y s].
    + split; [discriminate | intros [b Hb]; discriminate Hb].
    + rewrite andb_true_iff, (IH s Hc'). split.
      * intros [Hy [b ->]]. apply Ascii.eqb_eq in Hy. subst y.
        exists b. reflexivity.
      * intros [b Hb]. rewrite append_cons in Hb. injection Hb as -> ->. split.
        -- apply Ascii.eqb_refl.
        -- exists b. reflexivity.
Qed.

Lemma LIKE_contains (c s : string) :
  plain_text c = true ->
  Sql.LIKE s ("%" ++ c ++ "%") = true <-> contains c s.
Proof.
  intros Hc. unfold Sql.LIKE, contains.
  change ("%" ++ c ++ "%") with (String "%" (c ++ "%")).
  rewrite LIKE_percent. split.
  - intros (a & b & -> & Hb). apply (LIKE_plain_prefix c b Hc) in Hb as [b' ->].
    exists a, b'. reflexivity.
  - intros (a & b & ->). exists a, (c ++ b). split; [reflexivity|].
    apply (LIKE_plain_prefix c _ Hc). exists b. reflexivity.
Qed.

Lemma lower_char_plain (x : ascii) :
  Ascii.eqb (Sql.lower_char x) "%" = Ascii.eqb x "%" /\
  Ascii.eqb (Sql.lower_char x) "_" = Ascii.eqb x "_" /\
  Ascii.eqb (Sql.lower_char x) "\" = Ascii.eqb x "\".
Proof.
  destruct x as [[] [] [] [] [] [] [] []]; repeat split; reflexivity.
Qed.

Lemma lower_plain (c : string) :
  plain_text c = true -> plain_text (Sql.lower_text c) = true.
Proof.
  unfold plain_text. induction c as [|x c IH]; [reflexivity|].
  cbn [without Sql.lower_text].
  destruct (lower_char_plain x) as (-> & -> & ->).
  intros H. apply andb_prop in H as [H H3]. apply andb_prop in H as [H1 H2].
  apply andb_prop in H1 as [H1 H1']. apply andb_prop in H2 as [H2 H2'].
  apply andb_prop in H3 as [H3 H3'].
  rewrite H1, H2, H3. cbn [andb].
  apply IH. rewrite H1', H2', H3'. reflexivity.
Qed.

Lemma city_condition (c text : string) :
  plain_text c = true ->
  Sql.LIKE (Sql.LOWER text) (Sql.LOWER (Handlers.percent c)) = true <->
  contains (Sql.LOWER c) (Sql.LOWER text).
Proof.
  intros Hc. unfold Handlers.percent, Sql.LOWER.
  rewrite !lower_text_app.
  change (Sql.lower_text "%") with "%".
  apply LIKE_contains, lower_plain, Hc.
Qed.

End City.

(** X16: the city filter is a search for a part of the name, letter case
    apart, as long as the text holds none of the characters [%], [_] and
    backslash, which the query would read as wildcards: the condition
    holds of the cities that contain the text, and every row of a search
    the store accepts is of such a city. *)
Theorem city_filter_matches_part_of_the_name :
  forall (q v : SearchQuery.t) (c : string) (s : Store),
    searchPropertiesSchema q = inr v ->
    SearchQuery.city q = Some c ->
    plain_text c = true ->
    sendable q = true ->
    (forall name,
       Sql.LIKE (Sql.LOWER name) (Sql.LOWER (Handlers.percent c)) = true <->
       contains (Sql.LOWER c) (Sql.LOWER name)) /\
    exists rows pagination filters log,
      World.run (Handlers.search_properties q) [] s
      = (inr (Response.json 200 (Response.listing rows pagination filters)), s, log) /\
      (forall r, In r rows -> contains (Sql.LOWER c) (Sql.LOWER (city (prop r)))) /\
      (forall r, In r (Db.joined s) -> Filter.satisfies v r = true ->
                 contains (Sql.LOWER c) (Sql.LOWER (city (prop r)))).
Proof.
  intros q v c s Hq Hcity Hc _.
  split; [intros name; apply city_condition, Hc|].
  destruct (search_run q v s Hq) as (limit & offset & filters & _ & _ & Hrun).
  assert (Hsat : forall r, Filter.satisfies v r = true ->
                   contains (Sql.LOWER c) (Sql.LOWER (city (prop r)))).
  { intros r Hr. unfold Filter.satisfies in Hr. cbv zeta in Hr.
    repeat (apply andb_prop in Hr as [Hr _]).
    rewrite (schema_converted q v Hq) in Hr.
    unfold Filter.converted in Hr. cbn [SearchQuery.city] in Hr.
    rewrite Hcity in Hr. cbn [Filter.supplied] in Hr.
    apply (city_condition c _ Hc). exact Hr. }
  do 4 eexists. split; [exact Hrun|]. split.
  - intros r Hr. apply Hsat. apply page_In in Hr.
    apply matching_In in Hr as [_ Hr]. exact Hr.
  - intros r _ Hr. apply Hsat, Hr.
Qed.

Lemma city_filter_matches_part_of_the_name_witness :
  (forall name,
     Sql.LIKE (Sql.LOWER name) (Sql.LOWER (Handlers.percent "UST")) = true <->
     contains (Sql.LOWER "UST") (Sql.LOWER name)) /\
  exists rows pagination filters log,
    World.run (Handlers.search_properties (city_like "UST")) [] Sample.listed
    = (inr (Response.json 200 (Response.listing rows pagination filters)),
       Sample.listed, log) /\
    (forall r, In r rows -> contains (Sql.LOWER "UST") (Sql.LOWER (city (prop r)))) /\
    (forall r, In r (Db.joined Sample.listed) ->
               Filter.satisfies (Filter.converted (city_like "UST")) r = true ->
               contains (Sql.LOWER "UST") (Sql.LOWER (city (prop r)))).
Proof.
  apply (city_filter_matches_part_of_the_name (city_like "UST")
           (Filter.converted (city_like "UST")) "UST" Sample.listed);
    reflexivity.
Defined.

(** ** The figures of the statistics *)

Section Figures.

Lemma to_number_digits (s : string) (z : Z) :
  starts_with_digits s ->
  Js.read_digits Js.digit_of 10 None s = (Some z, EmptyString) ->
  Js.to_number s = Js.Num (inject_Z z).
Proof.
  intros Hs Hr. destruct s as [|c s]; [contradiction|].
  assert (exists d, Js.digit_of c = Some d) as [d Hd].
  { destruct s; simpl in Hs; [exact Hs | exact (proj1 Hs)]. }
  assert (Hdec : (let '(v, rest) := Js.read_decimal (String c s) in
                  match Js.trim_start rest with
                  | EmptyString => v
                  | String _ _ => Js.NaN
                  end) = Js.Num (inject_Z z)).
  { unfold Js.read_decimal. rewrite (split_sign_digit c d s Hd).
    assert (Hinf : String.prefix "Infinity" (String c s) = false).
    { cbn [String.prefix].
      destruct (ascii_dec "I" c) as [<-|_]; [discriminate Hd | reflexivity]. }
    rewrite Hinf. unfold Js.read_magnitude. rewrite Hr.
    cbn [Js.read_exponent Js.trim_start]. f_equal.
    rewrite <- (Qred_inject_Z z). apply Qred_complete.
    unfold Js.scale10. cbn [Z.leb Z.compare].
    rewrite Qred_correct.
    change (Js.pow10 0) with 1. change (inject_Z (10 ^ 0)) with 1%Q.
    rewrite Qmult_1_r. unfold Qeq, inject_Z. cbn [Qnum Qden Z.to_pos]. lia. }
  unfold Js.to_number. cbn [Js.trim_start].
  rewrite (digit_not_white_space c d Hd).
  destruct c as [[] [] [] [] [] [] [] []]; try discriminate Hd; try exact Hdec.
  destruct s as [|c' s]; [exact Hdec|].
  destruct Hs as [_ [d' Hd']].
  destruct c' as [[] [] [] [] [] [] [] []]; try discriminate Hd'; exact Hdec.
Qed.

Lemma to_number_bigint_out (n : Z) :
  0 <= n -> Js.to_number (Pg.bigint_out n) = Js.Num (inject_Z n).
Proof.
  intros H. unfold Pg.bigint_out.
  destruct (n <? 0) eqn:E; [apply Z.ltb_lt in E; lia|].
  apply to_number_digits.
  - apply digits_onto_starts; [exact H | left; reflexivity].
  - unfold Pg.natural_out. rewrite read_natural_out by exact H. reflexivity.
Qed.


Lemma present_priced (s : Store) :
  Db.present (map rent_amount (Db.priced s)) = [] <-> Db.priced s = [].
Proof.
  unfold Db.priced.
  induction (properties s) as [|p l IH]; cbn [List.filter]; [tauto|].
  destruct (rent_amount p) as [r|] eqn:Hp; [|exact IH].
  cbn [map Db.present flat_map]. rewrite Hp. cbn [app].
  split; discriminate.
Qed.

Lemma MIN_None (data : list (option Q)) :
  Db.MIN data = None <-> Db.present data = [].
Proof.
  unfold Db.MIN. destruct (Db.present data); split; congruence.
Qed.

Lemma MAX_None (data : list (option Q)) :
  Db.MAX data = None <-> Db.present data = [].
Proof.
  unfold Db.MAX. destruct (Db.present data); split; congruence.
Qed.

Lemma if_present_numeric (scale : nat) (o : option Q) :
  Handlers.if_present (option_map (Pg.numeric_out (S scale)) o) (fun x => x)
  = option_map (fun q => Js.Num (displayed (S scale) q)) o.
Proof.
  destruct o as [q|]; [|reflexivity].
  cbn [option_map Handlers.if_present].
  rewrite numeric_out_truthy, parseFloat_numeric_out. reflexivity.
Qed.

(** [Math.round((verified / total) * 100)] on whole numbers: a whole
    number from 0 to 100, and the one nearest to the exact percentage as
    long as doubles tell the percentages apart. *)
Lemma rate_of_wholes (k n : Z) :
  0 <= k <= n -> 0 < n ->
  exists rate,
    Js.round (Js.product (Js.quotient (Js.Num (inject_Z k)) (Js.Num (inject_Z n))) 100)
    = Js.Num (inject_Z rate) /\
    0 <= rate <= 100 /\
    (n <= 2 ^ 40 -> 2 * rate * n - n <= 200 * k <= 2 * rate * n + n).
Proof.
  intros Hk Hn.
  assert (Hnz : Qeq_bool (inject_Z n) 0 = false).
  { apply not_true_iff_false. intros E. apply Qeq_bool_iff in E.
    unfold Qeq, inject_Z in E. cbn [Qnum Qden] in E. lia. }
  unfold Js.quotient, Js.product, Js.double, Js.div, Js.times, Js.round, Js.lift.
  rewrite Hnz. unfold Js.Math_round.
  set (K := inject_Z k). set (N := inject_Z n).
  assert (HN : (1 <= N)%Q).
  { unfold N. change 1%Q with (inject_Z 1). rewrite <- Zle_Qle. lia. }
  assert (HK : (0 <= K)%Q /\ (K <= N)%Q).
  { unfold K, N. change 0%Q with (inject_Z 0). rewrite <- !Zle_Qle. lia. }
  set (x := Qred (K / N)).
  assert (Hx : (x * N == K)%Q).
  { unfold x. rewrite Qred_correct. field. lra. }
  assert (Hx01 : (0 <= x)%Q /\ (x <= 1)%Q).
  { split.
    - unfold x. rewrite Qred_correct. apply Qle_shift_div_l; lra.
    - unfold x. rewrite Qred_correct. apply Qle_shift_div_r; lra. }
  destruct (nearest_double_near x (proj1 Hx01)) as [Hx' Hnear].
  set (x' := Js.nearest_double x) in *.
  set (y := Qred (x' * 100)).
  assert (Hy : (y == x' * 100)%Q) by apply Qred_correct.
  assert (Hy0 : (0 <= y)%Q) by lra.
  destruct (nearest_double_near y Hy0) as [Hp Hnear'].
  set (p := Js.nearest_double y) in *.
  exists (Qfloor (p + (1 # 2))). split; [reflexivity|].
  pose proof (Qfloor_le (p + (1 # 2))) as Hr1.
  pose proof (Qlt_floor (p + (1 # 2))) as Hr2.
  set (r := Qfloor (p + (1 # 2))) in *.
  rewrite inject_Z_plus in Hr2. change (inject_Z 1) with 1%Q in Hr2.
  (* the two units of rounding, as numbers *)
  assert (Hu : (Js.two_to (- 53) == 1 # 9007199254740992)%Q) by reflexivity.
  assert (Ht : (Js.two_to (- 1075) <= 1 # 9007199254740992)%Q).
  { unfold Qle. apply Z.leb_le. vm_compute. reflexivity. }
  pose proof (two_to_pos (- 1075)) as Ht0.
  apply Qabs_Qle_condition in Hnear, Hnear'.
  rewrite Hu in Hnear, Hnear'.
  revert Ht Ht0 Hnear Hnear'. generalize (Js.two_to (- 1075)).
  intros t Ht Ht0 Hnear Hnear'.
  assert (Hclose : (inject_Z r - (1 # 2) - (1 # 10000000000000) < 100 * x)%Q /\
                   (100 * x < inject_Z r + (1 # 2) + (1 # 10000000000000))%Q).
  { split; lra. }
  split.
  - split.
    + change 0 with (Qfloor 0). apply Qfloor_resp_le. lra.
    + assert (H : (inject_Z r < inject_Z 101)%Q).
      { change (inject_Z 101) with 101%Q. nra. }
      rewrite <- Zlt_Qlt in H. lia.
  - intros Hsmall.
    assert (HN2 : (N <= 1099511627776)%Q).
    { unfold N. change 1099511627776%Q with (inject_Z (2 ^ 40)).
      rewrite <- Zle_Qle. exact Hsmall. }
    destruct Hclose as [Hlow Hhigh].
    assert (Hlow' : ((inject_Z r - (1 # 2) - (1 # 10000000000000)) * (2 * N)
                     < 100 * x * (2 * N))%Q).
    { apply Qmult_lt_compat_r; [lra | exact Hlow]. }
    assert (Hhigh' : (100 * x * (2 * N)
                      < (inject_Z r + (1 # 2) + (1 # 10000000000000)) * (2 * N))%Q).
    { apply Qmult_lt_compat_r; [lra | exact Hhigh]. }
    assert (H1 : (inject_Z (2 * r * n) < inject_Z (200 * k + n + 1))%Q).
    { rewrite ?inject_Z_plus, ?inject_Z_mult.
      fold K N. change (inject_Z 2) with 2%Q. change (inject_Z 200) with 200%Q.
      change (inject_Z 1) with 1%Q. nra. }
    assert (H2 : (inject_Z (200 * k) < inject_Z (2 * r * n + n + 1))%Q).
    { rewrite ?inject_Z_plus, ?inject_Z_mult.
      fold K N. change (inject_Z 2) with 2%Q. change (inject_Z 200) with 200%Q.
      change (inject_Z 1) with 1%Q. nra. }
    rewrite <- Zlt_Qlt in H1, H2. lia.
Qed.

Lemma filter_length_le {A : Type} (f : A -> bool) (l : list A) :
  (List.length (List.filter f l) <= List.length l)%nat.
Proof.
  induction l as [|x l IH]; cbn [List.filter List.length]; [lia|].
  destruct (f x); cbn [List.length]; lia.
Qed.

(** The least and the greatest of the values that are present. *)
Lemma fold_least (v : Q) (vs : list Q) :
  let m := fold_right (fun a b => if Qle_bool a b then a else b) v vs in
  In m (v :: vs) /\ forall x, In x (v :: vs) -> (m <= x)%Q.
Proof.
  induction vs as [|a vs IH]; cbn [fold_right].
  - split; [left; reflexivity|]. intros x [<-|[]]. apply Qle_refl.
  - destruct IH as [Hin Hle].
    set (m := fold_right (fun a b => if Qle_bool a b then a else b) v vs) in *.
    destruct (Qle_bool a m) eqn:E.
    + apply Qle_bool_iff in E. split; [right; left; reflexivity|].
      intros x [<-|[<-|Hx]].
      * apply (Qle_trans _ m); [exact E | apply Hle; left; reflexivity].
      * apply Qle_refl.
      * apply (Qle_trans _ m); [exact E | apply Hle; right; exact Hx].
    + assert (Hlt : (m <= a)%Q).
      { destruct (Qlt_le_dec m a) as [H|H]; [apply Qlt_le_weak, H|].
        apply Qle_bool_iff in H. congruence. }
      split.
      * destruct Hin as [Hin|Hin]; [left; exact Hin | right; right; exact Hin].
      * intros x [<-|[<-|Hx]].
        -- apply Hle. left. reflexivity.
        -- exact Hlt.
        -- apply Hle. right. exact Hx.
Qed.

Lemma fold_greatest (v : Q) (vs : list Q) :
  let m := fold_right (fun a b => if Qle_bool a b then b else a) v vs in
  In m (v :: vs) /\ forall x, In x (v :: vs) -> (x <= m)%Q.
Proof.
  induction vs as [|a vs IH]; cbn [fold_right].
  - split; [left; reflexivity|]. intros x [<-|[]]. apply Qle_refl.
  - destruct IH as [Hin Hle].
    set (m := fold_right (fun a b => if Qle_bool a b then b else a) v vs) in *.
    destruct (Qle_bool a m) eqn:E.
    + apply Qle_bool_iff in E. split.
      * destruct Hin as [Hin|Hin]; [left; exact Hin | right; right; exact Hin].
      * intros x [<-|[<-|Hx]].
        -- apply Hle. left. reflexivity.
        -- exact E.
        -- apply Hle. right. exact Hx.
    + assert (Hlt : (m <= a)%Q).
      { destruct (Qlt_le_dec m a) as [H|H]; [apply Qlt_le_weak, H|].
        apply Qle_bool_iff in H. congruence. }
      split; [right; left; reflexivity|].
      intros x [<-|[<-|Hx]].
      * apply (Qle_trans _ m); [apply Hle; left; reflexivity | exact Hlt].
      * apply Qle_refl.
      * apply (Qle_trans _ m); [apply Hle; right; exact Hx | exact Hlt].
Qed.

Lemma rents_In (s : Store) (r : Q) :
  In r (Db.present (map rent_amount (Db.priced s))) <->
  exists p, In p (rented s) /\ rent_amount p = Some r.
Proof.
  rewrite present_priced_values. unfold Averages.values.
  rewrite in_flat_map. split; intros (p & Hp & H); exists p; (split; [exact Hp|]).
  - destruct (rent_amount p) as [x|]; [|contradiction].
    destruct H as [<-|[]]. reflexivity.
  - rewrite H. left. reflexivity.
Qed.

Lemma MIN_least (s : Store) (m : Q) :
  Db.MIN (map rent_amount (Db.priced s)) = Some m ->
  (exists p, In p (rented s) /\ rent_amount p = Some m) /\
  forall p r, In p (rented s) -> rent_amount p = Some r -> (m <= r)%Q.
Proof.
  unfold Db.MIN. intros H.
  destruct (Db.present (map rent_amount (Db.priced s))) as [|v vs] eqn:E;
    [discriminate H|].
  injection H as <-. destruct (fold_least v vs) as [Hin Hle]. split.
  - apply rents_In. rewrite E. exact Hin.
  - intros p r Hp Hr. apply Hle. rewrite <- E. apply rents_In. eauto.
Qed.

Lemma MAX_greatest (s : Store) (m : Q) :
  Db.MAX (map rent_amount (Db.priced s)) = Some m ->
  (exists p, In p (rented s) /\ rent_amount p = Some m) /\
  forall p r, In p (rented s) -> rent_amount p = Some r -> (r <= m)%Q.
Proof.
  unfold Db.MAX. intros H.
  destruct (Db.present (map rent_amount (Db.priced s))) as [|v vs] eqn:E;
    [discriminate H|].
  injection H as <-. destruct (fold_greatest v vs) as [Hin Hle]. split.
  - apply rents_In. rewrite E. exact Hin.
  - intros p r Hp Hr. apply Hle. rewrite <- E. apply rents_In. eauto.
Qed.

(** COUNT(DISTINCT ...) counts each name once. *)
Lemma COUNT_DISTINCT_names (name : Property -> string) (s : Store) :
  distinct_names name (rented s) (Db.COUNT_DISTINCT (map name (Db.priced s))).
Proof.
  exists (nodup string_dec (map name (rented s))). split; [apply List.NoDup_nodup|].
  split; [|reflexivity].
  intros c. rewrite nodup_In, in_map_iff. split.
  - intros (p & <- & Hp). eauto.
  - intros (p & Hp & <-). eauto.
Qed.

End Figures.

(** X17: the figures of the statistics: total_properties counts the
    listings with a rent and verified_properties those of them that are
    verified; verification_rate is a whole percentage between 0 and 100,
    0 when there is no such listing, and a nearest one to their ratio
    (up to 2^40 listings, beyond which doubles no longer tell the ratios
    apart); the rent average, minimum and maximum are null exactly when
    there is none, and otherwise the minimum is the rent of one of them
    that none is below, the maximum one that none is above; cities and
    states count the distinct names among them. *)
Theorem statistics_counts_and_rate :
  forall (s : Store),
    exists st,
      World.run Handlers.property_stats [] s
      = (inr (Response.json 200 (Response.statistics st)), s,
         [World.issued Sql.statistics None]) /\
      let rows := rented s in
      let n := Z.of_nat (List.length rows) in
      let k := Z.of_nat (List.length (List.filter verified rows)) in
      (forall p, In p rows <-> In p (properties s) /\ rent_amount p <> None) /\
      Response.total_properties st = Js.Num (inject_Z n) /\
      Response.verified_properties st = Js.Num (inject_Z k) /\
      0 <= k <= n /\
      (exists rate,
         Response.verification_rate st = Js.Num (inject_Z rate) /\
         0 <= rate <= 100 /\
         (n = 0 -> rate = 0) /\
         (0 < n <= 2 ^ 40 ->
          2 * rate * n - n <= 200 * k <= 2 * rate * n + n)) /\
      (Response.average st = None <-> n = 0) /\
      (Response.minimum st = None <-> n = 0) /\
      (Response.maximum st = None <-> n = 0) /\
      (forall m,
         Response.minimum st = Some (Js.Num m) ->
         exists p r,
           In p rows /\ rent_amount p = Some r /\ m = displayed 2 r /\
           forall p' r', In p' rows -> rent_amount p' = Some r' -> (r <= r')%Q) /\
      (forall m,
         Response.maximum st = Some (Js.Num m) ->
         exists p r,
           In p rows /\ rent_amount p = Some r /\ m = displayed 2 r /\
           forall p' r', In p' rows -> rent_amount p' = Some r' -> (r' <= r)%Q) /\
      (exists count,
         Response.cities st = Js.Num (inject_Z count) /\
         distinct_names city rows count) /\
      (exists count,
         Response.states st = Js.Num (inject_Z count) /\
         distinct_names state rows count).
Proof.
  intros s. exists (Handlers.statistics_of (Db.statistics_row s)).
  split; [apply property_stats_run|]. cbv zeta.
  split; [intros p; apply rented_In|].
  unfold Handlers.statistics_of, Db.statistics_row.
  cbn [Response.total_properties Response.verified_properties
       Response.verification_rate Response.average Response.minimum
       Response.maximum Response.cities Response.states
       Sql.total_properties Sql.verified_properties Sql.avg_rent Sql.min_rent
       Sql.max_rent Sql.cities_count Sql.states_count].
  change (fun p : Property =>
            match landlord_verified p with
            | Some true => true
            | _ => false
            end) with verified.
  pose proof (COUNT_DISTINCT_names city s) as Hcities.
  pose proof (COUNT_DISTINCT_names state s) as Hstates.
  pose proof (MIN_least s) as Hmin.
  pose proof (MAX_greatest s) as Hmax.
  assert (Hrows : Db.priced s = rented s) by reflexivity.
  rewrite Hrows in *. clear Hrows.
  set (rows := rented s) in *.
  set (n := Z.of_nat (List.length rows)).
  set (k := Z.of_nat (List.length (List.filter verified rows))).
  assert (Hk : 0 <= k <= n).
  { unfold k, n. pose proof (filter_length_le verified rows). lia. }
  assert (Hempty : n = 0 <-> Db.present (map rent_amount rows) = []).
  { unfold n, rows. change (rented s) with (Db.priced s).
    rewrite present_priced. destruct (Db.priced s); cbn; split;
      intros H; try reflexivity; try discriminate H; lia. }
  rewrite !parseInt_bigint_out, !to_number_bigint_out by (unfold Db.COUNT_DISTINCT; lia).
  rewrite if_present_round, !if_present_numeric.
  split; [reflexivity|]. split; [reflexivity|]. split; [exact Hk|].
  split.
  { unfold Js.gt, Js.lt.
    destruct (Qle_bool (inject_Z n) 0) eqn:Hn; cbn [negb].
    - apply Qle_bool_iff in Hn. change 0%Q with (inject_Z 0) in Hn.
      rewrite <- Zle_Qle in Hn.
      exists 0. split; [reflexivity|]. split; [lia|]. split; [reflexivity|]. lia.
    - assert (0 < n) as Hpos.
      { destruct (Z.lt_ge_cases 0 n) as [H|H]; [exact H|]. exfalso.
        apply not_true_iff_false in Hn. apply Hn. apply Qle_bool_iff.
        change 0%Q with (inject_Z 0). rewrite <- Zle_Qle. exact H. }
      destruct (rate_of_wholes k n Hk Hpos) as (rate & Hr & Hb & Hnear).
      exists rate. split; [exact Hr|]. split; [exact Hb|]. split; [lia|].
      intros [_ Hsmall]. exact (Hnear Hsmall). }
  split.
  { rewrite Hempty. unfold Averages.reported.
    rewrite <- AVG_None. destruct (Db.AVG _); cbn [option_map]; split; congruence. }
  split.
  { rewrite Hempty, <- MIN_None.
    destruct (Db.MIN _); cbn [option_map]; split; congruence. }
  split.
  { rewrite Hempty, <- MAX_None.
    destruct (Db.MAX _); cbn [option_map]; split; congruence. }
  split.
  { intros m Hm. destruct (Db.MIN (map rent_amount rows)) as [r|] eqn:E;
      [|discriminate Hm].
    cbn [option_map] in Hm. injection Hm as <-.
    destruct (Hmin r eq_refl) as [(p & Hp & Hr) Hle].
    exists p, r. repeat split; assumption. }
  split.
  { intros m Hm. destruct (Db.MAX (map rent_amount rows)) as [r|] eqn:E;
      [|discriminate Hm].
    cbn [option_map] in Hm. injection Hm as <-.
    destruct (Hmax r eq_refl) as [(p & Hp & Hr) Hle].
    exists p, r. repeat split; assumption. }
  split; eexists; (split; [reflexivity|]); assumption.
Qed.
